(** * gdbt: stencil resolution and Grafana resource lifecycle

    A shallow embedding of [gdbt/stencil/stencil.py] and
    [gdbt/resource/resource.py].

    - Python [str] values are kept as their UTF-8 byte strings, so that
      [str.encode()] is the identity on the representation, and [+] and
      [startswith] act on bytes exactly as they act on code points.
    - Python [dict]s are insertion-ordered association lists.
    - Python [dict]s used as models are values of [pyval]; an operation
      on a value that is not a dict raises as Python does.
    - Calls to the Grafana client are nodes of a tree of interactions
      ([remote]); a run of such a tree against a remote is a list of
      exchanges ([exec]); exceptions are values of [exn] carried by
      [result].
    - [Dashboard.create] and [Dashboard.update] change the dict their
      caller passes; they are functions of that object and return it with
      their outcome ([mut]). *)

From Stdlib Require Import ZArith List String Ascii Bool Lia.
From Stdlib Require Import Floats.SpecFloat DecimalString.
From ExtLib Require Import Structures.Monad.
Import ListNotations.
Import MonadNotation.

Open Scope string_scope.
Open Scope list_scope.
Open Scope Z_scope.
Open Scope monad_scope.

(* ===================================================================== *)
(** ** hashlib.md5 (RFC 1321) over byte lists *)
(* ===================================================================== *)

Module MD5.

(** A 32-bit word is a [Z] reduced modulo [2^32]. *)
Definition w32 (x : Z) : Z := x mod 2 ^ 32.

Definition rotl (x c : Z) : Z :=
  w32 (Z.lor (Z.shiftl x c) (Z.shiftr x (32 - c))).

Definition not32 (x : Z) : Z := Z.lxor x 0xFFFFFFFF.

Definition F (b c d : Z) : Z := Z.lor (Z.land b c) (Z.land (not32 b) d).
Definition G (b c d : Z) : Z := Z.lor (Z.land b d) (Z.land c (not32 d)).
Definition H (b c d : Z) : Z := Z.lxor b (Z.lxor c d).
Definition I (b c d : Z) : Z := Z.lxor c (Z.lor b (not32 d)).

(** [K[i] = floor(2^32 * abs(sin(i + 1)))]. *)
Definition K : list Z :=
  [ 0xd76aa478; 0xe8c7b756; 0x242070db; 0xc1bdceee;
    0xf57c0faf; 0x4787c62a; 0xa8304613; 0xfd469501;
    0x698098d8; 0x8b44f7af; 0xffff5bb1; 0x895cd7be;
    0x6b901122; 0xfd987193; 0xa679438e; 0x49b40821;
    0xf61e2562; 0xc040b340; 0x265e5a51; 0xe9b6c7aa;
    0xd62f105d; 0x02441453; 0xd8a1e681; 0xe7d3fbc8;
    0x21e1cde6; 0xc33707d6; 0xf4d50d87; 0x455a14ed;
    0xa9e3e905; 0xfcefa3f8; 0x676f02d9; 0x8d2a4c8a;
    0xfffa3942; 0x8771f681; 0x6d9d6122; 0xfde5380c;
    0xa4beea44; 0x4bdecfa9; 0xf6bb4b60; 0xbebfbc70;
    0x289b7ec6; 0xeaa127fa; 0xd4ef3085; 0x04881d05;
    0xd9d4d039; 0xe6db99e5; 0x1fa27cf8; 0xc4ac5665;
    0xf4292244; 0x432aff97; 0xab9423a7; 0xfc93a039;
    0x655b59c3; 0x8f0ccc92; 0xffeff47d; 0x85845dd1;
    0x6fa87e4f; 0xfe2ce6e0; 0xa3014314; 0x4e0811a1;
    0xf7537e82; 0xbd3af235; 0x2ad7d2bb; 0xeb86d391 ].

(** Per-round left-rotation amounts. *)
Definition S : list Z :=
  [ 7; 12; 17; 22; 7; 12; 17; 22; 7; 12; 17; 22; 7; 12; 17; 22;
    5;  9; 14; 20; 5;  9; 14; 20; 5;  9; 14; 20; 5;  9; 14; 20;
    4; 11; 16; 23; 4; 11; 16; 23; 4; 11; 16; 23; 4; 11; 16; 23;
    6; 10; 15; 21; 6; 10; 15; 21; 6; 10; 15; 21; 6; 10; 15; 21 ].

Record state := mkState { sa : Z; sb : Z; sc : Z; sd : Z }.

Definition init : state :=
  mkState 0x67452301 0xefcdab89 0x98badcfe 0x10325476.

(** One of the 64 operations on block [M] (sixteen 32-bit words). *)
Definition step (M : list Z) (st : state) (i : nat) : state :=
  let '(mkState a b c d) := st in
  let '(f, g) :=
    if (i <? 16)%nat then (F b c d, i)
    else if (i <? 32)%nat then (G b c d, ((5 * i + 1) mod 16)%nat)
    else if (i <? 48)%nat then (H b c d, ((3 * i + 5) mod 16)%nat)
    else (I b c d, ((7 * i) mod 16)%nat) in
  let f' := w32 (f + a + nth i K 0 + nth g M 0) in
  mkState d (w32 (b + rotl f' (nth i S 0))) b c.

Definition add_state (x y : state) : state :=
  mkState (w32 (sa x + sa y)) (w32 (sb x + sb y))
          (w32 (sc x + sc y)) (w32 (sd x + sd y)).

Definition process_block (st : state) (M : list Z) : state :=
  add_state st (fold_left (step M) (seq 0 64) st).

(** Little-endian packing of bytes into words, and back. *)
Fixpoint words_of_bytes (bs : list Z) : list Z :=
  match bs with
  | b0 :: b1 :: b2 :: b3 :: rest =>
      (b0 + 256 * b1 + 65536 * b2 + 16777216 * b3) :: words_of_bytes rest
  | _ => []
  end.

Definition bytes_of_word (x : Z) : list Z :=
  [ x mod 256; (x / 256) mod 256; (x / 65536) mod 256; (x / 16777216) mod 256 ].

Definition bytes_of_len64 (n : Z) : list Z :=
  bytes_of_word (n mod 2 ^ 32) ++ bytes_of_word ((n / 2 ^ 32) mod 2 ^ 32).

(** Padding: a [0x80] byte, zeros up to 56 modulo 64, then the bit length
    as a 64-bit little-endian integer. *)
Definition pad (msg : list Z) : list Z :=
  let len := Z.of_nat (List.length msg) in
  msg ++ [0x80] ++ repeat 0 (Z.to_nat ((55 - len) mod 64))
      ++ bytes_of_len64 (8 * len).

(** Cut a byte list into 64-byte blocks, each as sixteen words. *)
Fixpoint blocks (fuel : nat) (bs : list Z) : list (list Z) :=
  match fuel with
  | O => []
  | Datatypes.S fuel' =>
      match bs with
      | [] => []
      | _ => words_of_bytes (firstn 64 bs) :: blocks fuel' (skipn 64 bs)
      end
  end.

Definition digest (msg : list Z) : list Z :=
  let p := pad msg in
  let st := fold_left process_block (blocks (List.length p) p) init in
  bytes_of_word (sa st) ++ bytes_of_word (sb st)
    ++ bytes_of_word (sc st) ++ bytes_of_word (sd st).

Definition hex_digit (n : Z) : ascii :=
  nth (Z.to_nat n)
      (list_ascii_of_string "0123456789abcdef") "0"%char.

Fixpoint hex (bs : list Z) : string :=
  match bs with
  | [] => EmptyString
  | b :: rest => String (hex_digit (b / 16)) (String (hex_digit (b mod 16)) (hex rest))
  end.

(** [str.encode()]: the UTF-8 bytes of the string. *)
Definition encode (s : string) : list Z :=
  map (fun c => Z.of_N (N_of_ascii c)) (list_ascii_of_string s).

(** [hashlib.md5(); update(data); hexdigest()]. *)
Definition hexdigest (data : list Z) : string := hex (digest data).

End MD5.

(* ===================================================================== *)
(** ** Python values *)
(* ===================================================================== *)

(** The values that flow through the engine as [typing.Any]: loop items,
    JSON documents, replies of the Grafana client. A dict has string keys,
    as a JSON object has; an [int] is unbounded; a [float] is a binary64. *)
#[local] Set Warnings "-register-all".
Inductive pyval : Type :=
| PyNone
| PyBool (b : bool)
| PyInt (z : Z)
| PyFloat (f : spec_float)
| PyStr (s : string)
| PyList (l : list pyval)
| PyDict (d : list (string * pyval)).

(** Exceptions: those of [gdbt.errors], the builtins the code can meet,
    the client's [GrafanaException], and whatever a collaborator raises. *)
Record GrafanaException := mkGrafanaException {
  client_error : bool;   (* isinstance(exc, GrafanaClientError) *)
  status_code : Z;
  message : string
}.

Inductive exn : Type :=
| ProviderNotFound (name : string)
| DataError (msg : string)
| GrafanaError (msg : string)
| KeyError (key : string)
| TypeError
| AttributeError
| RemoteException (exc : GrafanaException)
| OtherException (what : string).

Inductive result (A : Type) : Type :=
| Ok (a : A)
| Err (e : exn).
Arguments Ok {A} a.
Arguments Err {A} e.

Definition result_bind {A B} (m : result A) (f : A -> result B) : result B :=
  match m with
  | Ok a => f a
  | Err e => Err e
  end.

#[global] Instance Monad_result : Monad result :=
  {| ret := @Ok; bind := @result_bind |}.

(** *** dict: insertion-ordered association lists *)

Section Dict.
Context {V : Type}.

(** [d[k]] / [d.get(k)]: the first binding of [k]. *)
Fixpoint dict_get (k : string) (d : list (string * V)) : option V :=
  match d with
  | [] => None
  | (k', v) :: rest => if String.eqb k' k then Some v else dict_get k rest
  end.

(** [d[k] = v]: an existing key keeps its position, a new key goes last. *)
Fixpoint dict_set (k : string) (v : V) (d : list (string * V)) : list (string * V) :=
  match d with
  | [] => [(k, v)]
  | (k', v') :: rest =>
      if String.eqb k' k then (k', v) :: rest else (k', v') :: dict_set k v rest
  end.

(** [d.update(other)], also the effect of [**other] in a dict display. *)
Definition dict_update (d other : list (string * V)) : list (string * V) :=
  fold_left (fun acc kv => dict_set (fst kv) (snd kv) acc) other d.

(** [{**a, **b}]: a new dict filled from [a], then from [b]. *)
Definition dict_merge (a b : list (string * V)) : list (string * V) :=
  dict_update (dict_update [] a) b.

(** [d.pop(k, None)], result discarded. *)
Definition dict_pop (k : string) (d : list (string * V)) : list (string * V) :=
  filter (fun kv => negb (String.eqb (fst kv) k)) d.

Definition dict_keys (d : list (string * V)) : list string := map fst d.

End Dict.

(** What a lookup of [k] sees when the layer [upper] lies on [lower]. *)
Definition layered {V} (upper lower : list (string * V)) (k : string) : option V :=
  match dict_get k upper with
  | Some v => Some v
  | None => dict_get k lower
  end.

(** *** Truthiness, [str], subscripting *)

(** [bool(v)], as tested by [if v:] and [not v]. *)
Definition py_bool (v : pyval) : bool :=
  match v with
  | PyNone => false
  | PyBool b => b
  | PyInt z => negb (z =? 0)
  | PyFloat (S754_zero _) => false
  | PyFloat _ => true
  | PyStr s => negb (String.eqb s "")
  | PyList [] => false
  | PyList _ => true
  | PyDict [] => false
  | PyDict _ => true
  end.

(** [str(z)] for an [int]. *)
Definition str_int (z : Z) : string := NilZero.string_of_int (Z.to_int z).

(** [v["key"]] for a string key. *)
Definition py_getitem (v : pyval) (key : string) : result pyval :=
  match v with
  | PyDict d =>
      match dict_get key d with
      | Some x => Ok x
      | None => Err (KeyError key)
      end
  | _ => Err TypeError
  end.

(** [v.pop(key, None)]; the object after the call. *)
Definition py_pop (v : pyval) (key : string) : result pyval :=
  match v with
  | PyDict d => Ok (PyDict (dict_pop key d))
  | PyList _ => Err TypeError
  | _ => Err AttributeError
  end.

(** [v.update(other)]; the object after the call. *)
Definition py_update (v : pyval) (other : list (string * pyval)) : result pyval :=
  match v with
  | PyDict d => Ok (PyDict (dict_update d other))
  | _ => Err AttributeError
  end.

(** [v + 1]. *)
Definition py_add_one (v : pyval) : result pyval :=
  match v with
  | PyInt z => Ok (PyInt (z + 1))
  | PyBool b => Ok (PyInt ((if b then 1 else 0) + 1))
  | PyFloat f => Ok (PyFloat (SFadd 53 1024 f (SFone 53 1024)))
  | _ => Err TypeError
  end.

(* ===================================================================== *)
(** ** gdbt.resource.resource: the resource objects *)
(* ===================================================================== *)

(** The two subclasses of [Resource]. [uid] and [folder] hold whatever the
    constructor was given: a [str] from the stencil, or data of a remote
    reply. *)
Record FolderResource := mkFolder {
  f_grafana : string;
  f_uid : pyval;
  f_model : pyval
}.

Record DashboardResource := mkDashboard {
  d_grafana : string;
  d_uid : pyval;
  d_model : pyval;
  d_folder : pyval
}.

Inductive Resource :=
| IsFolder (f : FolderResource)
| IsDashboard (d : DashboardResource).

Definition resource_grafana (r : Resource) : string :=
  match r with IsFolder f => f_grafana f | IsDashboard d => d_grafana d end.
Definition resource_uid (r : Resource) : pyval :=
  match r with IsFolder f => f_uid f | IsDashboard d => d_uid d end.

Definition IGNORED_KEYS : list string := ["id"; "uid"; "version"].

(** A provider object, as stored in the registry; the registry itself. *)
Definition provider := nat.
Definition registry := list (string * provider).

(* ===================================================================== *)
(** ** gdbt.stencil.stencil *)
(* ===================================================================== *)

(** An [Evaluation] is an object with one method, [value(providers)]. *)
Definition Evaluation := registry -> result pyval.

(** What the stencil module calls and does not define. *)
Class Collaborators := {
  (** [str(v)] for floats, lists and dicts. *)
  str_compound : pyval -> string;
  (** [Template(model).render(providers, evaluations, lookups, item)]. *)
  Template_render :
    string -> registry -> list (string * pyval) -> list (string * pyval) ->
    pyval -> result string;
  (** [Iterator(loop).iterable(providers, evaluations, lookups)]: the items
      it yields, and the exception that ends the iteration, if any. *)
  Iterator_iterable :
    string -> registry -> list (string * pyval) -> list (string * pyval) ->
    list pyval * option exn;
  (** [json.loads]. *)
  json_loads : string -> result pyval
}.

Inductive stencil_class :=
| StencilFolder
| StencilDashboard (folder : string).

Record ResourceStencil := mkStencil {
  s_class : stencil_class;
  kind : string;
  evaluations : option (list (string * Evaluation));
  lookups : option (list (string * pyval));
  s_provider : string;
  loop : option string;
  model : string
}.

(** [x or {}] and [if not x: x = {}] for an optional dict. *)
Definition or_empty {V} (x : option (list (string * V))) : list (string * V) :=
  match x with
  | Some (kv :: d) => kv :: d
  | _ => []
  end.

(** A dict comprehension [{k: f(k, v) for k, v in items}], stopping at the
    first [f] that raises. *)
Fixpoint dict_comprehension {A B} (f : string -> A -> result B)
    (items : list (string * A)) (acc : list (string * B)) : result (list (string * B)) :=
  match items with
  | [] => Ok acc
  | (k, a) :: rest =>
      match f k a with
      | Ok b => dict_comprehension f rest (dict_set k b acc)
      | Err e => Err e
      end
  end.

Section Stencil.
Context `{Collaborators}.

(** [str(v)]. *)
Definition py_str (v : pyval) : string :=
  match v with
  | PyNone => "None"
  | PyBool true => "True"
  | PyBool false => "False"
  | PyInt z => str_int z
  | PyStr s => s
  | _ => str_compound v
  end.

Definition resolve_vars (self : ResourceStencil) (providers : registry)
    (evaluations0 : option (list (string * Evaluation)))
    (lookups0 : option (list (string * pyval)))
  : result (list (string * pyval) * list (string * pyval)) :=
  let evaluations0 := or_empty evaluations0 in
  let lookups0 := or_empty lookups0 in
  evaluations_resolved <-
    dict_comprehension (fun _ value => value providers)
      (dict_merge evaluations0 (or_empty (evaluations self))) [] ;;
  lookups_resolved <-
    dict_comprehension (fun _ value => Ok value)
      (dict_merge lookups0 (or_empty (lookups self))) [] ;;
  ret (evaluations_resolved, lookups_resolved).

(** The generator: the items yielded, then the exception raised, if any. *)
Definition resolve_loops (self : ResourceStencil) (providers : registry)
    (evaluations0 lookups0 : list (string * pyval)) : list pyval * option exn :=
  match loop self with
  | None => ([PyNone], None)
  | Some l =>
      if negb (String.eqb l "") then
        Iterator_iterable l providers evaluations0 lookups0
      else ([PyNone], None)
  end.

Definition format_name (self : ResourceStencil) (name : string) (loop_item : pyval)
  : string :=
  let name := (kind self ++ "_" ++ name)%string in
  if py_bool loop_item then (name ++ "_" ++ py_str loop_item)%string else name.

Definition format_uid (name : string) : string :=
  ("gdbt_" ++ MD5.hexdigest (MD5.encode name))%string.

Definition starts_with (pre s : string) : bool := String.prefix pre s.

Definition make_resource (self : ResourceStencil) (grafana uid model0 : string)
    (providers : registry) : result Resource :=
  match s_class self with
  | StencilDashboard folder =>
      model_dict <- json_loads model0 ;;
      model_dict <- py_pop model_dict "id" ;;
      let folder_name :=
        if starts_with "folder_" folder then folder
        else ("folder_" ++ folder)%string in
      let folder_uid := format_uid folder_name in
      ret (IsDashboard (mkDashboard grafana (PyStr uid) model_dict (PyStr folder_uid)))
  | StencilFolder =>
      model_dict <- json_loads model0 ;;
      ret (IsFolder (mkFolder grafana (PyStr uid) model_dict))
  end.

(** The body of the [for] loop of [resolve], over the items yielded. *)
Fixpoint resolve_items (self : ResourceStencil) (name : string)
    (providers : registry) (evaluations0 lookups0 : list (string * pyval))
    (items : list pyval) (resources : list (string * Resource))
  : result (list (string * Resource)) :=
  match items with
  | [] => Ok resources
  | item :: rest =>
      let resource_name := format_name self name item in
      let uid := format_uid resource_name in
      model0 <- Template_render (model self) providers evaluations0 lookups0 item ;;
      resource <- make_resource self (s_provider self) uid model0 providers ;;
      resolve_items self name providers evaluations0 lookups0 rest
        (dict_update resources [(resource_name, resource)])
  end.

Definition resolve (self : ResourceStencil) (name : string) (providers : registry)
    (evaluations0 : option (list (string * Evaluation)))
    (lookups0 : option (list (string * pyval)))
  : result (list (string * Resource)) :=
  '(evaluations1, lookups1) <- resolve_vars self providers evaluations0 lookups0 ;;
  let '(items, raised) := resolve_loops self providers evaluations1 lookups1 in
  resources <- resolve_items self name providers evaluations1 lookups1 items [] ;;
  match raised with
  | Some e => Err e
  | None => Ok resources
  end.

(** One turn of the loop of [resolve] raises [e] on [item]: the rendering
    does, or [make_resource] on the rendered body. *)
Definition turn_raises (self : ResourceStencil) (name : string) (providers : registry)
  (evaluations0 lookups0 : list (string * pyval)) (item : pyval) (e : exn) : Prop :=
  Template_render (model self) providers evaluations0 lookups0 item = Err e
  \/ exists body,
       Template_render (model self) providers evaluations0 lookups0 item = Ok body
       /\ make_resource self (s_provider self)
            (format_uid (format_name self name item)) body providers = Err e.

(** One turn of the loop of [resolve] succeeds on [item]. *)
Definition turn_ok (self : ResourceStencil) (name : string) (providers : registry)
  (evaluations0 lookups0 : list (string * pyval)) (item : pyval) : Prop :=
  exists body r,
  Template_render (model self) providers evaluations0 lookups0 item = Ok body
  /\ make_resource self (s_provider self) (format_uid (format_name self name item))
       body providers = Ok r.

End Stencil.

(* ===================================================================== *)
(** ** Programs that talk to Grafana *)
(* ===================================================================== *)

(** The methods of [provider.client.folder] and [provider.client.dashboard]
    that the resources call. *)
Inductive request : Type :=
| create_folder (title uid : pyval)
| get_folder (uid : pyval)
| get_folder_by_id (id : pyval)
| update_folder (uid title : pyval) (overwrite : bool)
| delete_folder (uid : pyval)
| update_dashboard (meta : pyval)
| get_dashboard (uid : pyval)
| delete_dashboard (uid : pyval).

(** A computation that ends with [r], or calls the client of provider [p]
    and goes on with what the call returned or raised. *)
Inductive remote (R : Type) : Type :=
| Done (r : R)
| Call (p : provider) (req : request) (k : result pyval -> remote R).
Arguments Done {R} r.
Arguments Call {R} p req k.

Fixpoint remote_bind {A B} (m : remote A) (f : A -> remote B) : remote B :=
  match m with
  | Done a => f a
  | Call p req k => Call p req (fun reply => remote_bind (k reply) f)
  end.

(** Code that may raise. *)
Definition io (A : Type) : Type := remote (result A).

Definition io_bind {A B} (m : io A) (f : A -> io B) : io B :=
  remote_bind m (fun r => match r with Ok a => f a | Err e => Done (Err e) end).

#[global] Instance Monad_io : Monad io :=
  {| ret := fun A (a : A) => Done (Ok a); bind := @io_bind |}.

Definition raise {A} (e : exn) : io A := Done (Err e).
Definition lift {A} (r : result A) : io A := Done r.
Definition grafana_call (p : provider) (req : request) : io pyval :=
  Call p req (fun reply => Done reply).

(** [try: body / except ...: handler]; [handler e = None] when no [except]
    clause matches [e]. *)
Definition try_except {A} (body : io A) (handler : exn -> option (io A)) : io A :=
  remote_bind body (fun r =>
    match r with
    | Ok a => Done (Ok a)
    | Err e => match handler e with Some h => h | None => Done (Err e) end
    end).

(** Code that also mutates the dict its caller passed as [model]: the
    state is that object. *)
Definition mut (A : Type) : Type := pyval -> remote (pyval * result A).

Definition mut_bind {A B} (m : mut A) (f : A -> mut B) : mut B :=
  fun s => remote_bind (m s) (fun sr =>
    match snd sr with
    | Ok a => f a (fst sr)
    | Err e => Done (fst sr, Err e)
    end).

#[global] Instance Monad_mut : Monad mut :=
  {| ret := fun A (a : A) (s : pyval) => Done (s, Ok a); bind := @mut_bind |}.

Definition lift_io {A} (m : io A) : mut A :=
  fun s => remote_bind m (fun r => Done (s, r)).

(** [model.update(other)] on the caller's object. *)
Definition model_update (other : list (string * pyval)) : mut unit :=
  fun s =>
    match py_update s other with
    | Ok s' => Done (s', Ok tt)
    | Err e => Done (s, Err e)
    end.

(** [model.update], the attribute alone: Python looks the method up on
    the caller's object before it evaluates the arguments of the call. *)
Definition model_update_method : mut unit :=
  fun s =>
    match s with
    | PyDict _ => Done (s, Ok tt)
    | _ => Done (s, Err AttributeError)
    end.

(** A reference to the caller's object, read at the time of use. *)
Definition model_ref : mut pyval := fun s => Done (s, Ok s).

(* ===================================================================== *)
(** ** gdbt.resource.resource: the lifecycle operations *)
(* ===================================================================== *)

(** [Resource.client]. *)
Definition client (grafana : string) (providers : registry) : io provider :=
  match dict_get grafana providers with
  | Some p => ret p
  | None => raise (ProviderNotFound grafana)
  end.

(** [except GrafanaException as exc: raise GrafanaError(exc.message)]. *)
Definition except_grafana {A} (e : exn) : option (io A) :=
  match e with
  | RemoteException exc => Some (raise (GrafanaError (message exc)))
  | _ => None
  end.

Definition is_not_found (exc : GrafanaException) : bool :=
  client_error exc && (status_code exc =? 404).

Module Folder.

Definition get (grafana : string) (uid : pyval) (providers : registry)
  : io FolderResource :=
  title <- try_except
             (c <- client grafana providers ;;
              data <- grafana_call c (get_folder uid) ;;
              lift (py_getitem data "title"))
             except_grafana ;;
  let model0 := PyDict [("title", title)] in
  ret (mkFolder grafana uid model0).

Definition create (grafana : string) (uid model0 : pyval) (providers : registry)
  : io FolderResource :=
  try_except
    (title <- lift (py_getitem model0 "title") ;;
     c <- client grafana providers ;;
     grafana_call c (create_folder title uid) ;;
     ret tt)
    (fun e =>
       match e with
       | KeyError _ => Some (raise (DataError "Folder model missing 'title' key"))
       | RemoteException exc =>
           Some (if negb (status_code exc =? 412)
                 then raise (GrafanaError (message exc))
                 else ret tt)
       | _ => None
       end) ;;
  get grafana uid providers.

(** [return True] follows the [try]; here it ends its body. *)
Definition exists_ (grafana : string) (uid : pyval) (providers : registry) : io bool :=
  try_except
    (c <- client grafana providers ;;
     grafana_call c (get_folder uid) ;;
     ret true)
    (fun e =>
       match e with
       | RemoteException exc =>
           Some (if is_not_found exc then ret false
                 else raise (GrafanaError (message exc)))
       | _ => None
       end).

Definition get_by_id (grafana : string) (id : pyval) (providers : registry)
  : io FolderResource :=
  data <- try_except
            (c <- client grafana providers ;;
             grafana_call c (get_folder_by_id id))
            except_grafana ;;
  title <- lift (py_getitem data "title") ;;
  let model0 := PyDict [("title", title)] in
  uid <- lift (py_getitem data "uid") ;;
  ret (mkFolder grafana uid model0).

Definition id (self : FolderResource) (providers : registry) : io pyval :=
  try_except
    (c <- client (f_grafana self) providers ;;
     data <- grafana_call c (get_folder (f_uid self)) ;;
     lift (py_getitem data "id"))
    except_grafana.

Definition update (self : FolderResource) (model0 : pyval) (providers : registry) : io unit :=
  try_except
    (title <- lift (py_getitem model0 "title") ;;
     c <- client (f_grafana self) providers ;;
     grafana_call c (update_folder (f_uid self) title true) ;;
     ret tt)
    (fun e =>
       match e with
       | KeyError _ => Some (raise (DataError "Folder model missing 'title' key"))
       | RemoteException exc => Some (raise (GrafanaError (message exc)))
       | _ => None
       end).

Definition delete (self : FolderResource) (providers : registry) : io unit :=
  try_except
    (c <- client (f_grafana self) providers ;;
     grafana_call c (delete_folder (f_uid self)) ;;
     ret tt)
    (fun e =>
       match e with
       | RemoteException exc =>
           Some (if is_not_found exc then ret tt
                 else raise (GrafanaError (message exc)))
       | _ => None
       end).

Definition serialize (self : FolderResource) (providers : registry) : pyval :=
  PyDict [ ("kind", PyStr "folder");
           ("grafana", PyStr (f_grafana self));
           ("uid", f_uid self);
           ("model", f_model self) ].

End Folder.

(** [for key in keys: v.pop(key, None)]; the object after the loop. *)
Fixpoint pop_keys (keys : list string) (v : pyval) : result pyval :=
  match keys with
  | [] => Ok v
  | key :: rest => v' <- py_pop v key ;; pop_keys rest v'
  end.

Module Dashboard.

Definition get (grafana : string) (uid : pyval) (providers : registry)
  : io DashboardResource :=
  dashboard <- try_except
                 (c <- client grafana providers ;;
                  grafana_call c (get_dashboard uid))
                 except_grafana ;;
  model0 <- lift (py_getitem dashboard "dashboard") ;;
  meta <- lift (py_getitem dashboard "meta") ;;
  folder_id <- lift (py_getitem meta "folderId") ;;
  folder_obj <- Folder.get_by_id grafana folder_id providers ;;
  let folder := f_uid folder_obj in
  model1 <- lift (pop_keys IGNORED_KEYS model0) ;;
  ret (mkDashboard grafana uid model1 folder).

(** Applied to the caller's [model]; the first component of the outcome
    is that object when the call ends. *)
Definition create (grafana : string) (uid folder : pyval) (providers : registry)
  : mut DashboardResource :=
  model_update [("id", PyNone); ("uid", uid); ("version", PyInt 1)] ;;
  model0 <- model_ref ;;
  folder_obj <- lift_io (Folder.get grafana folder providers) ;;
  folder_id <- lift_io (Folder.id folder_obj providers) ;;
  let meta := PyDict [ ("dashboard", model0);
                       ("folderId", folder_id);
                       ("overwrite", PyBool true) ] in
  lift_io (try_except
             (c <- client grafana providers ;;
              grafana_call c (update_dashboard meta))
             except_grafana) ;;
  lift_io (get grafana uid providers).

Definition exists_ (grafana : string) (uid : pyval) (providers : registry) : io bool :=
  try_except
    (c <- client grafana providers ;;
     grafana_call c (get_dashboard uid) ;;
     ret true)
    (fun e =>
       match e with
       | RemoteException exc =>
           Some (if is_not_found exc then ret false
                 else raise (GrafanaError (message exc)))
       | _ => None
       end).

Definition id (self : DashboardResource) (providers : registry) : io pyval :=
  dashboard <- try_except
                 (c <- client (d_grafana self) providers ;;
                  grafana_call c (get_dashboard (d_uid self)))
                 except_grafana ;;
  inner <- lift (py_getitem dashboard "dashboard") ;;
  lift (py_getitem inner "id").

Definition version (self : DashboardResource) (providers : registry) : io pyval :=
  dashboard <- try_except
                 (c <- client (d_grafana self) providers ;;
                  grafana_call c (get_dashboard (d_uid self)))
                 except_grafana ;;
  inner <- lift (py_getitem dashboard "dashboard") ;;
  lift (py_getitem inner "version").

Definition update (self : DashboardResource) (providers : registry) : mut unit :=
  version_new <- lift_io
    (try_except
       (v <- version self providers ;;
        lift (py_add_one v))
       (fun e =>
          match e with
          | TypeError => Some (ret (PyInt 1))
          | _ => None
          end)) ;;
  model_update_method ;;
  id0 <- lift_io (id self providers) ;;
  model_update [("id", id0); ("uid", d_uid self); ("version", version_new)] ;;
  model0 <- model_ref ;;
  folder_obj <- lift_io (Folder.get (d_grafana self) (d_folder self) providers) ;;
  folder_id <- lift_io (Folder.id folder_obj providers) ;;
  let meta := PyDict [ ("dashboard", model0);
                       ("folderId", folder_id);
                       ("overwrite", PyBool true) ] in
  lift_io (try_except
             (c <- client (d_grafana self) providers ;;
              grafana_call c (update_dashboard meta) ;;
              ret tt)
             except_grafana).

Definition delete (self : DashboardResource) (providers : registry) : io unit :=
  try_except
    (c <- client (d_grafana self) providers ;;
     grafana_call c (delete_dashboard (d_uid self)) ;;
     ret tt)
    (fun e =>
       match e with
       | RemoteException exc =>
           Some (if is_not_found exc then ret tt
                 else raise (GrafanaError (message exc)))
       | _ => None
       end).

Definition serialize (self : DashboardResource) (providers : registry) : pyval :=
  PyDict [ ("kind", PyStr "dashboard");
           ("grafana", PyStr (d_grafana self));
           ("uid", d_uid self);
           ("model", d_model self);
           ("folder", d_folder self) ].

End Dashboard.

(* ===================================================================== *)
(** ** Running a program against a remote *)
(* ===================================================================== *)

(** One exchange with the client: provider, request, what came back. *)
Definition exchange : Type := provider * request * result pyval.

(** [exec m tr r]: with the exchanges [tr], in this order, [m] ends in [r]. *)
Inductive exec {R : Type} : remote R -> list exchange -> R -> Prop :=
| exec_done (r : R) : exec (Done r) [] r
| exec_call (p : provider) (req : request) (k : result pyval -> remote R)
    (reply : result pyval) (tr : list exchange) (r : R) :
    exec (k reply) tr r -> exec (Call p req k) ((p, req, reply) :: tr) r.

(** Play [m] against a script of replies; the requests made and the
    outcome, or [None] when the script runs out. *)
Fixpoint play {R : Type} (m : remote R) (script : list (result pyval))
  : option (list exchange * R) :=
  match m with
  | Done r => Some ([], r)
  | Call p req k =>
      match script with
      | [] => None
      | reply :: script' =>
          match play (k reply) script' with
          | Some (tr, r) => Some ((p, req, reply) :: tr, r)
          | None => None
          end
      end
  end.

(** Run [m] against a remote with state [W], where [h] answers a request
    and moves the remote on: the exchanges, the outcome, the remote after. *)
Fixpoint run {W R : Type} (h : provider -> request -> W -> result pyval * W)
    (m : remote R) (w : W) : list exchange * R * W :=
  match m with
  | Done r => ([], r, w)
  | Call p req k =>
      let '(reply, w') := h p req w in
      let '(tr, r, w'') := run h (k reply) w' in
      ((p, req, reply) :: tr, r, w'')
  end.

(* ===================================================================== *)
(** ** Vocabulary of the statements *)
(* ===================================================================== *)

(** The exception a computation ended with, if any. *)
Definition failure {A} (r : result A) : option exn :=
  match r with
  | Ok _ => None
  | Err e => Some e
  end.

(** [m] lets no failed call pass: whenever the client raised a
    [GrafanaException] [exc] during a run of [m], the run ended with the
    exception [g exc]. *)
Definition surfaces_as {R} (outcome : R -> option exn)
    (g : GrafanaException -> exn) (m : remote R) : Prop :=
  forall tr r p req exc,
    exec m tr r ->
    In (p, req, Err (RemoteException exc)) tr ->
    outcome r = Some (g exc).

(** Every remote failure is fatal: it ends the operation with
    [GrafanaError(exc.message)]. *)
Definition fatal (exc : GrafanaException) : exn := GrafanaError (message exc).


Definition surfaces_mut {A} (m : remote (pyval * result A)) : Prop :=
  surfaces_as (fun sr => failure (snd sr)) fatal m.


(** The version [Dashboard.update] writes, from what its first
    [get_dashboard] returned or raised: [version + 1], with its
    [except TypeError] and the [except GrafanaException] of [version]. *)
Definition next_version (reply : result pyval) : result pyval :=
  match (dashboard <- reply ;;
         inner <- py_getitem dashboard "dashboard" ;;
         v <- py_getitem inner "version" ;;
         py_add_one v) with
  | Err TypeError => Ok (PyInt 1)
  | Err (RemoteException exc) => Err (fatal exc)
  | r => r
  end.

(** The id [Dashboard.update] writes, from what its second
    [get_dashboard] returned or raised. *)
Definition id_read (reply : result pyval) : result pyval :=
  match reply with
  | Ok dash => inner <- py_getitem dash "dashboard" ;; py_getitem inner "id"
  | Err (RemoteException exc) => Err (fatal exc)
  | Err e => Err e
  end.

(** Every request made during a run of [m] satisfies [Q]. *)
Definition requests_satisfy {R} (Q : request -> Prop) (m : remote R) : Prop :=
  forall tr r p req reply, exec m tr r -> In (p, req, reply) tr -> Q req.

(** A request that does not write a dashboard, or writes [model0]. *)
Definition submits (model0 : pyval) (req : request) : Prop :=
  forall meta, req = update_dashboard meta -> py_getitem meta "dashboard" = Ok model0.

(** [m], run on the caller's object [s], leaves it as it is and submits
    no other dashboard body than [s]. *)
Definition keeps_model {A} (s : pyval) (m : remote (pyval * result A)) : Prop :=
  forall tr s' r,
    exec m tr (s', r) ->
    s' = s /\ forall p req reply, In (p, req, reply) tr -> submits s req.

(** The alphabet of [hexdigest]. *)
Definition hex_alphabet : list ascii := list_ascii_of_string "0123456789abcdef".

(** [keys] without those that [d] has already: the keys an update of [d]
    appends. *)
Definition new_keys {V} (d : list (string * V)) (keys : list string) : list string :=
  filter (fun k => match dict_get k d with Some _ => false | None => true end) keys.

(** A request that changes nothing on the remote. *)
Definition is_read (req : request) : bool :=
  match req with
  | get_folder _ | get_folder_by_id _ | get_dashboard _ => true
  | _ => false
  end.

(** Every call made during a run of [m] satisfies [Q]. *)
Definition calls_satisfy {R} (Q : provider -> request -> Prop) (m : remote R) : Prop :=
  forall tr r p req reply, exec m tr r -> In (p, req, reply) tr -> Q p req.

(** No request follows a failed call in a run of [m]. *)
Definition ends_at_failure {R} (m : remote R) : Prop :=
  forall tr r tr1 p req exc tr2,
    exec m tr r ->
    tr = tr1 ++ (p, req, Err (RemoteException exc)) :: tr2 ->
    tr2 = [].

(** [m] stops at the first failed call, with the exception [g exc]. *)
Definition halting {R} (outcome : R -> option exn) (g : GrafanaException -> exn)
    (m : remote R) : Prop :=
  surfaces_as outcome g m /\ ends_at_failure m.

(** A call to the provider registered as [grafana], with a request that
    satisfies [allowed]. *)
Definition own_call (grafana : string) (providers : registry)
    (allowed : request -> Prop) (p : provider) (req : request) : Prop :=
  dict_get grafana providers = Some p /\ allowed req.

(** A write of a dashboard, with the [overwrite] flag set. *)
Definition is_overwrite (req : request) : Prop :=
  exists meta, req = update_dashboard meta
               /\ py_getitem meta "overwrite" = Ok (PyBool true).

(** A read on the provider registered as [grafana]. *)
Definition own_read (grafana : string) (providers : registry)
  : provider -> request -> Prop :=
  own_call grafana providers (fun req => is_read req = true).

(** [m] ends with [out], and calls nothing on the way. *)
Definition ends_unasked {R} (m : remote R) (out : R) : Prop :=
  exec m [] out /\ forall tr r, exec m tr r -> tr = [] /\ r = out.

(* ===================================================================== *)
(** ** Fixtures: stand-ins for the collaborators, stencils, replies *)
(* ===================================================================== *)

Definition dquote : string := String "034"%char EmptyString.

(** The text [{"title":"Team A"}]. *)
Definition team_a_body : string :=
  ("{" ++ dquote ++ "title" ++ dquote ++ ":" ++ dquote ++ "Team A" ++ dquote ++ "}")%string.

(** The text [{"id":7,"title":"Board"}]. *)
Definition board_body : string :=
  ("{" ++ dquote ++ "id" ++ dquote ++ ":7," ++ dquote ++ "title" ++ dquote ++ ":"
       ++ dquote ++ "Board" ++ dquote ++ "}")%string.

(** Collaborators reduced to what the examples need: a template without
    expressions renders to itself, a loop specification names the lookup
    that holds the list of items, and [json_loads] knows three documents. *)
Definition demo : Collaborators := {|
  str_compound := fun _ => "<object>";
  Template_render := fun model0 _ _ _ _ => Ok model0;
  Iterator_iterable := fun l _ _ lookups0 =>
    match dict_get l lookups0 with
    | Some (PyList items) => (items, None)
    | _ => ([], Some TypeError)
    end;
  json_loads := fun s =>
    if String.eqb s team_a_body then Ok (PyDict [("title", PyStr "Team A")])
    else if String.eqb s board_body
    then Ok (PyDict [("id", PyInt 7); ("title", PyStr "Board")])
    else if String.eqb s "{}" then Ok (PyDict [])
    else Err (OtherException "JSONDecodeError")
|}.

Definition team_a_stencil : ResourceStencil :=
  mkStencil StencilFolder "folder" (Some []) (Some []) "p1" None team_a_body.

(** A folder stencil looping over the lookup [xs]. *)
Definition looping_stencil : ResourceStencil :=
  mkStencil StencilFolder "folder" (Some []) (Some []) "p1" (Some "xs") "{}".

Definition team_a_dashboard : ResourceStencil :=
  mkStencil (StencilDashboard "teamA") "dashboard" (Some []) (Some []) "p1" None
            board_body.

(** A dashboard stencil that refers to its folder as [folder_x]. *)
Definition prefixed_dashboard : ResourceStencil :=
  mkStencil (StencilDashboard "folder_x") "dashboard" (Some []) (Some []) "p1" None
            board_body.

(** The collaborators of [demo], with a [json_loads] that also parses the
    empty array. *)
Definition demo_arrays : Collaborators := {|
  str_compound := @str_compound demo;
  Template_render := @Template_render demo;
  Iterator_iterable := @Iterator_iterable demo;
  json_loads := fun s =>
    if String.eqb s "[]" then Ok (PyList []) else @json_loads demo s
|}.

(** A looping folder stencil whose template is not JSON. *)
Definition broken_stencil : ResourceStencil :=
  mkStencil StencilFolder "folder" (Some []) (Some []) "p1" (Some "xs") "{".

(** A looping dashboard stencil whose template renders to a JSON array. *)
Definition array_body : string := "[]".

Definition array_dashboard : ResourceStencil :=
  mkStencil (StencilDashboard "teamA") "dashboard" (Some []) (Some []) "p1"
            (Some "xs") array_body.

Definition constant (v : pyval) : Evaluation := fun _ => Ok v.

Definition inherited_ab : list (string * pyval) := [("a", PyInt 1); ("b", PyInt 2)].
Definition local_bc : list (string * pyval) := [("b", PyInt 3); ("c", PyInt 4)].
Definition merged_abc : list (string * pyval) :=
  [("a", PyInt 1); ("b", PyInt 3); ("c", PyInt 4)].

Definition thunks (d : list (string * pyval)) : list (string * Evaluation) :=
  map (fun kv => (fst kv, constant (snd kv))) d.

Definition merging_stencil : ResourceStencil :=
  mkStencil StencilFolder "folder" (Some (thunks local_bc)) (Some local_bc)
            "p1" None "{}".

(** A registry with one Grafana provider, and replies of its client. *)
Definition one_grafana : registry := [("p1", 7%nat)].

Definition precondition_failed : GrafanaException :=
  mkGrafanaException true 412 "The folder has been changed by someone else".

Definition not_found : GrafanaException :=
  mkGrafanaException true 404 "Not found".

Definition team_a_uid : pyval := PyStr "gdbt_9123169fd2b4d254ad07d69e8e15e063".

Definition team_a_model : pyval := PyDict [("title", PyStr "Team A")].

Definition team_a_folder_reply : pyval :=
  PyDict [("id", PyInt 12); ("uid", team_a_uid); ("title", PyStr "Team A")].

Definition team_a_folder : FolderResource := mkFolder "p1" team_a_uid team_a_model.

(** A dashboard of the folder [teamA], as the remote holds it and as
    [Dashboard.get] returns it. *)
Definition board_uid : pyval := PyStr "gdbt_e9c090fcc2cbc887e80f882cd42b397f".

Definition board_reply (inner : list (string * pyval)) : pyval :=
  PyDict [ ("meta", PyDict [("slug", PyStr "board"); ("folderId", PyInt 12)]);
           ("dashboard", PyDict inner) ].

Definition board_remote : list (string * pyval) :=
  [("id", PyInt 5); ("uid", board_uid); ("title", PyStr "Board"); ("version", PyInt 3)].

Definition board : DashboardResource :=
  mkDashboard "p1" board_uid (PyDict [("title", PyStr "Board")]) team_a_uid.

(** The same dashboard on a remote that reports no [version]. *)
Definition board_remote_unversioned : list (string * pyval) :=
  [("id", PyInt 5); ("uid", board_uid); ("title", PyStr "Board")].

(** The same dashboard on a remote that reports a null [version]. *)
Definition board_remote_null : list (string * pyval) :=
  [("id", PyInt 5); ("uid", board_uid); ("title", PyStr "Board"); ("version", PyNone)].

Definition board_model : pyval := PyDict [("title", PyStr "Board")].

Definition write_accepted : pyval := PyDict [("status", PyStr "success")].

(* ===================================================================== *)
(** ** Properties of the Python layer *)
(* ===================================================================== *)

(** [NoDup] of a list of string literals. *)
Ltac nodup_keys :=
  cbv; repeat (apply NoDup_cons; [simpl; intuition congruence|]); apply NoDup_nil.

Lemma string_length_append (a b : string) :
  String.length (a ++ b)%string = (String.length a + String.length b)%nat.
Proof.
  induction a as [|c a IH]; simpl; [reflexivity | now rewrite IH].
Qed.

Section DictFacts.
Context {V : Type}.
Implicit Types (d o : list (string * V)) (k : string) (v : V).

Lemma dict_get_set_eq d k v : dict_get k (dict_set k v d) = Some v.
  Proof.
    induction d as [|[k' v'] d IH]; simpl.
    - now rewrite String.eqb_refl.
    - destruct (String.eqb k' k) eqn:E; simpl; rewrite E; auto.
  Qed.

Lemma dict_get_set_ne d k k' v :
    k <> k' -> dict_get k' (dict_set k v d) = dict_get k' d.
  Proof.
    intros Hne. induction d as [|[k0 v0] d IH]; simpl.
    - destruct (String.eqb_spec k k'); [contradiction | reflexivity].
    - destruct (String.eqb_spec k0 k) as [->|Hk0]; simpl.
      + destruct (String.eqb_spec k k'); [contradiction | reflexivity].
      + destruct (String.eqb k0 k'); auto.
  Qed.

Lemma dict_get_None_keys d k : dict_get k d = None <-> ~ In k (dict_keys d).
  Proof.
    induction d as [|[k' v'] d IH]; simpl.
    - tauto.
    - destruct (String.eqb_spec k' k) as [->|Hne].
      + split; [discriminate | tauto].
      + rewrite IH. tauto.
  Qed.

Lemma dict_keys_set_old d k v :
    In k (dict_keys d) -> dict_keys (dict_set k v d) = dict_keys d.
  Proof.
    induction d as [|[k' v'] d IH]; simpl; [tauto|].
    intros Hin. destruct (String.eqb_spec k' k) as [->|Hne]; simpl; [reflexivity|].
    f_equal. apply IH. destruct Hin; [contradiction | assumption].
  Qed.

Lemma dict_keys_set_new d k v :
    ~ In k (dict_keys d) -> dict_set k v d = d ++ [(k, v)].
  Proof.
    induction d as [|[k' v'] d IH]; simpl; [reflexivity|].
    intros Hnin. destruct (String.eqb_spec k' k) as [->|Hne]; [tauto|].
    f_equal. apply IH. tauto.
  Qed.

Lemma dict_get_pop_eq d k : dict_get k (dict_pop k d) = None.
  Proof.
    induction d as [|[k' v'] d IH]; simpl; [reflexivity|].
    destruct (String.eqb k' k) eqn:E; simpl; [assumption|].
    now rewrite E.
  Qed.

Lemma dict_get_pop_ne d k k' :
    k <> k' -> dict_get k' (dict_pop k d) = dict_get k' d.
  Proof.
    intros Hne. induction d as [|[k0 v0] d IH]; simpl; [reflexivity|].
    destruct (String.eqb_spec k0 k) as [->|Hk0]; simpl.
    - destruct (String.eqb_spec k k'); [contradiction | assumption].
    - now rewrite IH.
  Qed.

  (** Updating with a dict (no repeated key): its bindings win. *)
Lemma dict_get_update d o k :
    NoDup (dict_keys o) ->
    dict_get k (dict_update d o) =
      match dict_get k o with Some v => Some v | None => dict_get k d end.
  Proof.
    unfold dict_update. revert d.
    induction o as [|[k0 v0] o IH]; intros d Hnd; simpl; [reflexivity|].
    inversion Hnd as [|? ? Hnin Hnd']; subst.
    rewrite IH by assumption.
    destruct (String.eqb_spec k0 k) as [->|Hne].
    - apply dict_get_None_keys in Hnin. rewrite Hnin. apply dict_get_set_eq.
    - now rewrite dict_get_set_ne.
  Qed.

  (** Filling an empty dict from a dict copies it, order included. *)
Lemma dict_update_app d o :
    NoDup (dict_keys d ++ dict_keys o) -> dict_update d o = d ++ o.
  Proof.
    unfold dict_update. revert d.
    induction o as [|[k0 v0] o IH]; intros d Hnd; simpl.
    - now rewrite app_nil_r.
    - simpl in Hnd.
      assert (Hnin : ~ In k0 (dict_keys d)).
      { apply NoDup_remove_2 in Hnd. intros Hin. apply Hnd.
        apply in_or_app. now left. }
      rewrite dict_keys_set_new by assumption.
      rewrite IH.
      + now rewrite <- app_assoc.
      + unfold dict_keys in *. rewrite map_app. simpl.
        rewrite <- app_assoc. exact Hnd.
  Qed.

Lemma dict_update_nil o : NoDup (dict_keys o) -> dict_update [] o = o.
  Proof. intros Hnd. now rewrite dict_update_app. Qed.

End DictFacts.

(* ===================================================================== *)
(** ** Identity deriver: [format_name], [format_uid] *)
(* ===================================================================== *)

(** The test suite of RFC 1321, appendix A.5. *)
Example md5_rfc1321_suite :
  MD5.hexdigest (MD5.encode "") = "d41d8cd98f00b204e9800998ecf8427e"
  /\ MD5.hexdigest (MD5.encode "a") = "0cc175b9c0f1b6a831c399e269772661"
  /\ MD5.hexdigest (MD5.encode "abc") = "900150983cd24fb0d6963f7d28e17f72"
  /\ MD5.hexdigest (MD5.encode "message digest") = "f96b697d7cb7938d525a2f31aaf161d0"
  /\ MD5.hexdigest (MD5.encode "abcdefghijklmnopqrstuvwxyz")
     = "c3fcd3d76192e4007dfb496cca67e13b"
  /\ MD5.hexdigest
       (MD5.encode "ABCDEFGHIJKLMNOPQRSTUVWXYZabcdefghijklmnopqrstuvwxyz0123456789")
     = "d174ab98d277d9f5a5611c2c9f419d9f"
  /\ MD5.hexdigest
       (MD5.encode
          "12345678901234567890123456789012345678901234567890123456789012345678901234567890")
     = "57edf4a22be3c955ac49da2e2107b67a".
Proof. vm_compute. repeat split. Qed.

Lemma md5_digest_length (data : list Z) : List.length (MD5.digest data) = 16%nat.
Proof. unfold MD5.digest. cbv zeta. rewrite !length_app. reflexivity. Qed.

Lemma md5_hex_length (bs : list Z) :
  String.length (MD5.hex bs) = (2 * List.length bs)%nat.
Proof. induction bs as [|b bs IH]; simpl; [reflexivity | rewrite IH; lia]. Qed.

Lemma format_uid_length (name : string) : String.length (format_uid name) = 37%nat.
Proof.
  unfold format_uid, MD5.hexdigest. rewrite string_length_append, md5_hex_length,
    md5_digest_length. reflexivity.
Qed.

Section IdentityDeriver.
Context `{Collaborators}.

  (** C2. [format_name] is [kind + "_" + name], followed by
      ["_" + str(item)] exactly when the loop item is truthy; [None], the
      empty string and zero give no suffix. *)
Theorem format_name_suffix_iff_truthy (self : ResourceStencil) (name : string)
      (item : pyval) :
    let base := (kind self ++ "_" ++ name)%string in
    format_name self name item
      = (if py_bool item then base ++ "_" ++ py_str item else base)%string
    /\ (format_name self name item = (base ++ "_" ++ py_str item)%string
        <-> py_bool item = true)
    /\ format_name self name PyNone = base
    /\ format_name self name (PyStr "") = base
    /\ format_name self name (PyInt 0) = base
    /\ format_name self name (PyFloat (S754_zero false)) = base.
  Proof.
    intros base. unfold format_name. fold base.
    repeat split; try reflexivity.
    - destruct (py_bool item); [reflexivity|].
      intros Heq. apply (f_equal String.length) in Heq.
      rewrite !string_length_append in Heq. simpl in Heq. lia.
    - intros ->. reflexivity.
  Qed.

End IdentityDeriver.

(* ===================================================================== *)
(** ** Stencil resolution *)
(* ===================================================================== *)

Section DictSetFacts.
Context {V : Type}.
Implicit Types (d : list (string * V)) (k : string) (v : V).

Lemma dict_set_cases d k v :
  (In k (dict_keys d) /\ dict_keys (dict_set k v d) = dict_keys d)
  \/ (~ In k (dict_keys d) /\ dict_set k v d = d ++ [(k, v)]).
Proof.
  destruct (in_dec string_dec k (dict_keys d)) as [Hin|Hnin].
  - left. split; [assumption | now apply dict_keys_set_old].
  - right. split; [assumption | now apply dict_keys_set_new].
Qed.

Lemma dict_set_length d k v : (List.length (dict_set k v d) <= S (List.length d))%nat.
Proof.
  destruct (dict_set_cases d k v) as [[_ Hk]|[_ ->]].
  - apply (f_equal (@List.length _)) in Hk. unfold dict_keys in Hk.
    rewrite !length_map in Hk. lia.
  - rewrite length_app. simpl. lia.
Qed.

Lemma dict_set_keys_NoDup d k v :
  NoDup (dict_keys d) -> NoDup (dict_keys (dict_set k v d)).
Proof.
  intros Hnd. destruct (dict_set_cases d k v) as [[_ ->]|[Hnin ->]]; [assumption|].
  unfold dict_keys in *. rewrite map_app. simpl.
  apply NoDup_app; [assumption | repeat constructor; simpl; tauto |].
  intros x Hx [<-|[]]. contradiction.
Qed.

Lemma dict_set_keys_In d k v n :
  In n (dict_keys (dict_set k v d)) <-> In n (dict_keys d) \/ n = k.
Proof.
  destruct (dict_set_cases d k v) as [[Hin ->]|[Hnin ->]].
  - split; [tauto | intros [?| ->]; assumption].
  - unfold dict_keys. rewrite map_app, in_app_iff. simpl. intuition congruence.
Qed.

Lemma dict_set_entries d k v n x :
  In (n, x) (dict_set k v d) -> (n, x) = (k, v) \/ In (n, x) d.
Proof.
  induction d as [|[k' v'] d IH]; simpl.
  - intros [Heq|[]]. left. now symmetry.
  - destruct (String.eqb_spec k' k) as [->|Hne]; simpl.
    + intros [Heq|Hin]; [left; now symmetry | right; now right].
    + intros [Heq|Hin]; [right; now left|].
      destruct (IH Hin); [now left | right; now right].
Qed.

End DictSetFacts.

Section Resolution.
Context `{Collaborators}.
Variables (self : ResourceStencil) (name : string) (providers : registry).
Variables (ev lk : list (string * pyval)).

Let names (items : list pyval) : list string := map (format_name self name) items.
Let turn_ok := turn_ok self name providers ev lk.

Lemma make_resource_uid grafana uid body r :
  make_resource self grafana uid body providers = Ok r ->
  resource_uid r = PyStr uid /\ resource_grafana r = grafana.
Proof.
  unfold make_resource. destruct (s_class self); simpl.
  - destruct (json_loads body); simpl; [|discriminate].
    intros [= <-]. split; reflexivity.
  - destruct (json_loads body) as [v|]; simpl; [|discriminate].
    destruct (py_pop v "id"); simpl; [|discriminate].
    intros [= <-]. split; reflexivity.
Qed.

Lemma resolve_items_step item rest acc d :
  resolve_items self name providers ev lk (item :: rest) acc = Ok d ->
  exists body r,
    Template_render (model self) providers ev lk item = Ok body
    /\ make_resource self (s_provider self) (format_uid (format_name self name item))
         body providers = Ok r
    /\ resolve_items self name providers ev lk rest
         (dict_set (format_name self name item) r acc) = Ok d.
Proof.
  simpl.
  destruct (Template_render (model self) providers ev lk item) as [body|]; simpl;
    [|discriminate].
  destruct (make_resource self (s_provider self) _ body providers) as [r|] eqn:Hr;
    simpl; [|discriminate].
  intros Hd. exists body, r. repeat split; assumption.
Qed.

(** The loop succeeds exactly when every turn does. *)
Lemma resolve_items_total items acc :
  Forall turn_ok items <->
  exists d, resolve_items self name providers ev lk items acc = Ok d.
Proof.
  revert acc. induction items as [|item rest IH]; intros acc.
  - split; [intros _; now exists acc | constructor].
  - split.
    + intros Hall. inversion Hall as [|? ? (body & r & Hb & Hr) Hrest]; subst.
      simpl. rewrite Hb. simpl. rewrite Hr. simpl. now apply IH.
    + intros [d Hd]. apply resolve_items_step in Hd as (body & r & Hb & Hr & Hd).
      constructor; [now exists body, r|]. apply (IH (dict_set (format_name self name item) r acc)).
      now exists d.
Qed.

(** Keys of the mapping built by the loop. *)
Lemma resolve_items_keys items acc d :
  resolve_items self name providers ev lk items acc = Ok d ->
  NoDup (dict_keys acc) ->
  NoDup (dict_keys d)
  /\ (forall n, In n (dict_keys d) <-> In n (dict_keys acc) \/ In n (names items))
  /\ (List.length d <= List.length acc + List.length items)%nat
  /\ (NoDup (dict_keys acc ++ names items) -> dict_keys d = dict_keys acc ++ names items).
Proof.
  revert acc. induction items as [|item rest IH]; intros acc Hd Hnd.
  - simpl in Hd. injection Hd as <-. subst names. simpl.
    repeat split; try tauto; try lia. now rewrite app_nil_r.
  - apply resolve_items_step in Hd as (body & r & _ & _ & Hd).
    specialize (IH _ Hd (dict_set_keys_NoDup _ _ _ Hnd)) as (IH1 & IH2 & IH3 & IH4).
    pose proof (dict_set_length acc (format_name self name item) r) as Hlen.
    split; [assumption|]. split; [|split].
    + intros n. rewrite IH2, dict_set_keys_In. subst names. simpl. intuition congruence.
    + simpl. lia.
    + subst names. simpl. intros Hnd'.
      assert (Hnin : ~ In (format_name self name item) (dict_keys acc)).
      { apply NoDup_remove_2 in Hnd'. intros Hin. apply Hnd'.
        apply in_or_app. now left. }
      rewrite (dict_keys_set_new acc _ r Hnin) in IH4.
      unfold dict_keys in IH4. rewrite map_app in IH4. simpl in IH4.
      rewrite <- app_assoc in IH4. simpl in IH4. apply IH4. exact Hnd'.
Qed.

(** Every entry is named after an item and carries the uid of its name. *)
Lemma resolve_items_entries items acc d (P : string -> Resource -> Prop) :
  resolve_items self name providers ev lk items acc = Ok d ->
  (forall n r, In (n, r) acc -> P n r) ->
  (forall item r, In item items ->
     resource_uid r = PyStr (format_uid (format_name self name item)) ->
     resource_grafana r = s_provider self ->
     P (format_name self name item) r) ->
  forall n r, In (n, r) d -> P n r.
Proof.
  revert acc. induction items as [|item rest IH]; intros acc Hd Hacc Hnew n r Hin.
  - simpl in Hd. injection Hd as <-. now apply Hacc.
  - apply resolve_items_step in Hd as (body & r0 & _ & Hr0 & Hd).
    apply make_resource_uid in Hr0 as [Huid Hg].
    apply (IH _ Hd); [| |exact Hin].
    + intros n' r' Hin'. apply dict_set_entries in Hin' as [[= -> ->]|Hin'].
      * apply Hnew; [now left | assumption | assumption].
      * now apply Hacc.
    + intros item' r' Hin'. apply Hnew. now right.
Qed.

End Resolution.

Section ResolveTheorems.
Context `{Collaborators}.

Lemma resolve_unfold self name providers ev0 lk0 ev lk items raised :
  resolve_vars self providers ev0 lk0 = Ok (ev, lk) ->
  resolve_loops self providers ev lk = (items, raised) ->
  resolve self name providers ev0 lk0 =
    match resolve_items self name providers ev lk items [] with
    | Ok d => match raised with Some e => Err e | None => Ok d end
    | Err e => Err e
    end.
Proof.
  intros Hv Hl. unfold resolve. rewrite Hv. simpl. rewrite Hl. reflexivity.
Qed.

(** C1 (amended). When the variables resolve and the iteration ends without
    an exception after yielding [items], [resolve] returns a mapping exactly
    when every turn of its loop succeeds; the keys of that mapping are the
    names [format_name] gives the items, each once, so there are at most as
    many entries as items; when these names are pairwise distinct the keys
    are the names in iterator order, one entry per item. Without a loop the
    only item is [None] and the mapping has the single key
    [format_name(name)]. *)
Theorem resolve_keys_follow_iterator self name providers ev0 lk0 ev lk items :
  resolve_vars self providers ev0 lk0 = Ok (ev, lk) ->
  resolve_loops self providers ev lk = (items, None) ->
  let names := map (format_name self name) items in
  ((exists d, resolve self name providers ev0 lk0 = Ok d)
     <-> Forall (turn_ok self name providers ev lk) items)
  /\ (forall d, resolve self name providers ev0 lk0 = Ok d ->
        NoDup (dict_keys d)
        /\ (forall n, In n (dict_keys d) <-> In n names)
        /\ (List.length d <= List.length items)%nat
        /\ (NoDup names ->
            dict_keys d = names /\ List.length d = List.length items))
  /\ (loop self = None \/ loop self = Some EmptyString ->
      items = [PyNone]
      /\ forall d, resolve self name providers ev0 lk0 = Ok d ->
           dict_keys d = [format_name self name PyNone] /\ List.length d = 1%nat).
Proof.
  intros Hv Hl names.
  pose proof (resolve_unfold self name _ _ _ _ _ _ _ Hv Hl) as Hres.
  assert (Hkeys : forall d, resolve self name providers ev0 lk0 = Ok d ->
            resolve_items self name providers ev lk items [] = Ok d).
  { intros d Hd. rewrite Hres in Hd.
    destruct (resolve_items self name providers ev lk items []); congruence. }
  split; [|split].
  - rewrite (resolve_items_total self name providers ev lk items []). rewrite Hres.
    split; intros [d Hd]; exists d.
    + destruct (resolve_items self name providers ev lk items []); congruence.
    + now rewrite Hd.
  - intros d Hd. apply Hkeys in Hd.
    destruct (resolve_items_keys self name providers ev lk items [] d Hd (NoDup_nil _))
      as (K1 & K2 & K3 & K4).
    split; [assumption|]. split; [|split].
    + intros n. rewrite K2. simpl. tauto.
    + simpl in K3. lia.
    + intros Hnd. specialize (K4 Hnd). simpl in K4. split; [assumption|].
      apply (f_equal (@List.length _)) in K4. unfold dict_keys, names in K4.
      now rewrite !length_map in K4.
  - intros Hloop.
    assert (Hitems : items = [PyNone]).
    { unfold resolve_loops in Hl. destruct Hloop as [E|E]; rewrite E in Hl;
        simpl in Hl; congruence. }
    split; [assumption|]. intros d Hd. apply Hkeys in Hd. subst items.
    destruct (resolve_items_keys self name providers ev lk [PyNone] [] d Hd (NoDup_nil _))
      as (_ & _ & _ & K4).
    simpl in K4. assert (Hk : dict_keys d = [format_name self name PyNone]).
    { apply K4. repeat constructor. simpl. tauto. }
    split; [assumption|].
    apply (f_equal (@List.length _)) in Hk. unfold dict_keys in Hk.
    now rewrite length_map in Hk.
Qed.

End ResolveTheorems.


(** The theorem at a loop over two items with distinct names. *)
Lemma resolve_keys_follow_iterator_witness :
  exists d,
    @resolve demo looping_stencil "x" [] None
       (Some [("xs", PyList [PyStr "a"; PyStr "b"])]) = Ok d
    /\ dict_keys d = ["folder_x_a"; "folder_x_b"]
    /\ List.length d = 2%nat.
Proof.
  pose (lk := [("xs", PyList [PyStr "a"; PyStr "b"])]).
  pose proof (@resolve_keys_follow_iterator demo looping_stencil "x" [] None (Some lk)
                [] lk [PyStr "a"; PyStr "b"] eq_refl eq_refl) as [_ [Hk _]].
  assert (Hres : @resolve demo looping_stencil "x" [] None (Some lk)
                 = Ok [("folder_x_a",
                        IsFolder (mkFolder "p1"
                                    (PyStr "gdbt_810d42fa2d5ca17ac6d69be5180479e2")
                                    (PyDict [])));
                       ("folder_x_b",
                        IsFolder (mkFolder "p1"
                                    (PyStr "gdbt_e1634a64d59668375ead1031fa5ca6ae")
                                    (PyDict [])))]) by (vm_compute; reflexivity).
  eexists. split; [exact Hres|].
  destruct (Hk _ Hres) as (_ & _ & _ & Hnd). apply Hnd. nodup_keys.
Defined.

(** C1 as stated fails: the items [1] and ["1"] are both named
    [folder_x_1], and the mapping returned has one entry for two items. *)
Lemma resolve_two_items_one_entry :
  ~ (forall (C : Collaborators) self name providers ev0 lk0 ev lk items d,
       resolve_vars self providers ev0 lk0 = Ok (ev, lk) ->
       resolve_loops self providers ev lk = (items, None) ->
       resolve self name providers ev0 lk0 = Ok d ->
       List.length d = List.length items).
Proof.
  intros Hclaim.
  pose (lk := [("xs", PyList [PyInt 1; PyStr "1"])]).
  assert (Hres : @resolve demo looping_stencil "x" [] None (Some lk)
                 = Ok [("folder_x_1",
                        IsFolder (mkFolder "p1"
                                    (PyStr "gdbt_8ae985cc813958a2479cb22ef0200754")
                                    (PyDict [])))]) by (vm_compute; reflexivity).
  pose proof (Hclaim demo looping_stencil "x" [] None (Some lk) [] lk
                [PyInt 1; PyStr "1"] _ eq_refl eq_refl Hres) as Hlen.
  discriminate Hlen.
Qed.

#[local] Arguments format_uid : simpl never.

Section UidTheorems.
Context `{Collaborators}.

Lemma resolve_no_loop_single self name providers ev0 lk0 ev lk body r :
  loop self = None ->
  resolve_vars self providers ev0 lk0 = Ok (ev, lk) ->
  Template_render (model self) providers ev lk PyNone = Ok body ->
  make_resource self (s_provider self) (format_uid (format_name self name PyNone))
    body providers = Ok r ->
  resolve self name providers ev0 lk0 = Ok [(format_name self name PyNone, r)].
Proof.
  intros Hloop Hv Hb Hr.
  rewrite (resolve_unfold self name providers ev0 lk0 ev lk [PyNone] None Hv).
  - cbn [resolve_items]. rewrite Hb. cbn [bind Monad_result result_bind].
    rewrite Hr. reflexivity.
  - unfold resolve_loops. now rewrite Hloop.
Qed.

Lemma resolve_entries_uid self name providers ev0 lk0 d :
  resolve self name providers ev0 lk0 = Ok d ->
  exists ev lk,
    resolve_vars self providers ev0 lk0 = Ok (ev, lk)
    /\ forall n r, In (n, r) d ->
         resource_uid r = PyStr (format_uid n)
         /\ exists item,
              In item (fst (resolve_loops self providers ev lk))
              /\ n = format_name self name item.
Proof.
  intros Hd.
  destruct (resolve_vars self providers ev0 lk0) as [[ev lk]|e] eqn:Hv.
  - exists ev, lk. split; [reflexivity|].
    destruct (resolve_loops self providers ev lk) as [items raised] eqn:Hl.
    rewrite (resolve_unfold self name providers ev0 lk0 ev lk items raised Hv Hl) in Hd.
    destruct (resolve_items self name providers ev lk items []) as [d'|] eqn:Hi;
      [|discriminate].
    destruct raised; [discriminate|]. injection Hd as ->.
    simpl. apply (resolve_items_entries self name providers ev lk items [] d
                    (fun n r => resource_uid r = PyStr (format_uid n)
                                /\ exists item, In item items
                                                /\ n = format_name self name item) Hi).
    + intros n r [].
    + intros item r Hin Huid _. split; [assumption|]. now exists item.
  - unfold resolve in Hd. rewrite Hv in Hd. discriminate.
Qed.

(** C3. [format_uid(name)] is ["gdbt_"] followed by the 32 hexadecimal
    digits of the 16-byte MD5 digest of the bytes of [name]; equal names
    give equal uids; every resource in the mapping [resolve] returns has as
    uid [format_uid] of the key it is stored under, which is [format_name]
    of one of the loop items; and a folder stencil resolved with the name
    [teamA] and no loop gives the single resource [folder_teamA] with uid
    ["gdbt_" + md5("folder_teamA")]. *)
Theorem uid_is_md5_of_formatted_name :
  (forall name,
     format_uid name
       = ("gdbt_" ++ MD5.hex (MD5.digest (MD5.encode name)))%string
     /\ List.length (MD5.digest (MD5.encode name)) = 16%nat
     /\ String.length (format_uid name) = 37%nat)
  /\ (forall name1 name2, name1 = name2 -> format_uid name1 = format_uid name2)
  /\ (forall self name providers ev0 lk0 d,
        resolve self name providers ev0 lk0 = Ok d ->
        exists ev lk,
          resolve_vars self providers ev0 lk0 = Ok (ev, lk)
          /\ forall n r, In (n, r) d ->
               resource_uid r = PyStr (format_uid n)
               /\ exists item,
                    In item (fst (resolve_loops self providers ev lk))
                    /\ n = format_name self name item)
  /\ (forall providers body v,
        Template_render team_a_body providers [] [] PyNone = Ok body ->
        json_loads body = Ok v ->
        resolve team_a_stencil "teamA" providers None None
          = Ok [("folder_teamA",
                 IsFolder (mkFolder "p1" (PyStr (format_uid "folder_teamA")) v))]
        /\ format_uid "folder_teamA" = "gdbt_9123169fd2b4d254ad07d69e8e15e063").
Proof.
  split; [|split; [|split]].
  - intros name. split; [reflexivity|]. split.
    + apply md5_digest_length.
    + apply format_uid_length.
  - intros name1 name2 ->. reflexivity.
  - apply resolve_entries_uid.
  - intros providers body v Hb Hv. split; [|vm_compute; reflexivity].
    apply (resolve_no_loop_single team_a_stencil "teamA" providers None None [] [] body).
    + reflexivity.
    + reflexivity.
    + exact Hb.
    + unfold make_resource. cbn [s_class team_a_stencil].
      rewrite Hv. reflexivity.
Qed.

End UidTheorems.

(** The theorem at the fixture collaborators. *)
Lemma uid_is_md5_of_formatted_name_witness :
  @resolve demo team_a_stencil "teamA" [] None None
    = Ok [("folder_teamA",
           IsFolder (mkFolder "p1" (PyStr (format_uid "folder_teamA"))
                              (PyDict [("title", PyStr "Team A")])))]
  /\ format_uid "folder_teamA" = "gdbt_9123169fd2b4d254ad07d69e8e15e063".
Proof.
  apply (proj2 (proj2 (proj2 (@uid_is_md5_of_formatted_name demo)))
           [] team_a_body (PyDict [("title", PyStr "Team A")])).
  - reflexivity.
  - vm_compute. reflexivity.
Defined.

Section DashboardStencil.
Context `{Collaborators}.

Lemma starts_with_folder_prefixed (folder : string) :
  starts_with "folder_" ("folder_" ++ folder)%string = true.
Proof. unfold starts_with. simpl. destruct folder; reflexivity. Qed.

(** C9. The dashboard stencil's [make_resource] drops the key [id] of the
    parsed body and keeps every other key; the resource's folder is
    [format_uid] of the folder reference, to which [folder_] is prepended
    only when the reference does not start with it already; so [teamA] and
    [folder_teamA] both give ["gdbt_" + md5("folder_teamA")]. *)
Theorem dashboard_stencil_strips_id_and_derives_folder_uid
    (self : ResourceStencil) (folder grafana uid body : string)
    (providers : registry) (d : list (string * pyval)) :
  s_class self = StencilDashboard folder ->
  json_loads body = Ok (PyDict d) ->
  let folder_name :=
    if starts_with "folder_" folder then folder else ("folder_" ++ folder)%string in
  make_resource self grafana uid body providers
    = Ok (IsDashboard (mkDashboard grafana (PyStr uid) (PyDict (dict_pop "id" d))
                                   (PyStr (format_uid folder_name))))
  /\ dict_get "id" (dict_pop "id" d) = None
  /\ (forall k, k <> "id" -> dict_get k (dict_pop "id" d) = dict_get k d)
  /\ starts_with "folder_" folder_name = true
  /\ (starts_with "folder_" folder = true -> folder_name = folder)
  /\ (folder = "teamA" \/ folder = "folder_teamA" ->
      format_uid folder_name = "gdbt_9123169fd2b4d254ad07d69e8e15e063").
Proof.
  intros Hclass Hbody folder_name.
  split; [|split; [|split; [|split; [|split]]]].
  - unfold make_resource. rewrite Hclass.
    cbn [bind Monad_result result_bind]. rewrite Hbody. reflexivity.
  - apply dict_get_pop_eq.
  - intros k Hk. apply dict_get_pop_ne. congruence.
  - subst folder_name. destruct (starts_with "folder_" folder) eqn:E;
      [exact E | apply starts_with_folder_prefixed].
  - subst folder_name. intros ->. reflexivity.
  - subst folder_name. intros [->| ->]; vm_compute; reflexivity.
Qed.

End DashboardStencil.

(** The theorem at a dashboard stencil that refers to the folder [teamA],
    on a body that carries an [id]. *)
Lemma dashboard_stencil_strips_id_and_derives_folder_uid_witness :
  @make_resource demo team_a_dashboard "p1" "u" board_body []
    = Ok (IsDashboard (mkDashboard "p1" (PyStr "u") (PyDict [("title", PyStr "Board")])
            (PyStr (format_uid "folder_teamA")))).
Proof.
  exact (proj1 (@dashboard_stencil_strips_id_and_derives_folder_uid demo
                  team_a_dashboard "teamA" "p1" "u" board_body []
                  [("id", PyInt 7); ("title", PyStr "Board")] eq_refl eq_refl)).
Defined.

(* ===================================================================== *)
(** ** Variable resolver *)
(* ===================================================================== *)

Section ComprehensionFacts.
Context {A B : Type} (f : string -> A -> result B).

Lemma dict_comprehension_get items acc d k :
  dict_comprehension f items acc = Ok d ->
  NoDup (dict_keys items) ->
  dict_get k d =
    match dict_get k items with
    | Some a => match f k a with Ok b => Some b | Err _ => None end
    | None => dict_get k acc
    end.
Proof.
  revert acc. induction items as [|[k0 a] rest IH]; intros acc Hd Hnd; simpl in *.
  - now injection Hd as <-.
  - inversion Hnd as [|? ? Hnin Hnd']; subst.
    destruct (f k0 a) as [b|] eqn:Hf; [|discriminate].
    rewrite (IH _ Hd Hnd').
    destruct (String.eqb_spec k0 k) as [->|Hne].
    + apply dict_get_None_keys in Hnin. rewrite Hnin, Hf. apply dict_get_set_eq.
    + destruct (dict_get k rest); [reflexivity | now apply dict_get_set_ne].
Qed.

Lemma dict_comprehension_total items acc :
  (exists d, dict_comprehension f items acc = Ok d)
  <-> Forall (fun ka => exists b, f (fst ka) (snd ka) = Ok b) items.
Proof.
  revert acc. induction items as [|[k0 a] rest IH]; intros acc; simpl.
  - split; [constructor | intros _; now exists acc].
  - destruct (f k0 a) as [b|] eqn:Hf.
    + rewrite IH. split.
      * intros Hall. constructor; [now exists b | assumption].
      * intros Hall. now inversion Hall.
    + split.
      * intros [d Hd]. discriminate.
      * intros Hall. inversion Hall as [|? ? [b Hb] _]; subst. simpl in Hb. congruence.
Qed.

End ComprehensionFacts.

Section MergeFacts.
Context {V : Type}.
Implicit Types (a b d o : list (string * V)).

Lemma dict_update_keys_NoDup d o :
  NoDup (dict_keys d) -> NoDup (dict_keys (dict_update d o)).
Proof.
  unfold dict_update. revert d. induction o as [|[k v] o IH]; intros d Hnd; simpl.
  - assumption.
  - apply IH. now apply dict_set_keys_NoDup.
Qed.

Lemma dict_merge_keys_NoDup a b : NoDup (dict_keys (dict_merge a b)).
Proof.
  unfold dict_merge. apply dict_update_keys_NoDup, dict_update_keys_NoDup. constructor.
Qed.

(** Same-named entries of the upper layer [b] override those of [a]. *)
Lemma dict_merge_get a b k :
  NoDup (dict_keys a) -> NoDup (dict_keys b) ->
  dict_get k (dict_merge a b) =
    match dict_get k b with Some v => Some v | None => dict_get k a end.
Proof.
  intros Ha Hb. unfold dict_merge.
  rewrite (dict_update_nil a Ha). now apply dict_get_update.
Qed.

Lemma dict_get_In d k v :
  NoDup (dict_keys d) -> (In (k, v) d <-> dict_get k d = Some v).
Proof.
  induction d as [|[k0 v0] d IH]; intros Hnd; simpl.
  - split; [tauto | discriminate].
  - inversion Hnd as [|? ? Hnin Hnd']; subst.
    destruct (String.eqb_spec k0 k) as [->|Hne].
    + split.
      * intros [[= ->]|Hin]; [reflexivity|].
        exfalso. apply Hnin. change k with (fst (k, v)). now apply in_map.
      * intros [= ->]. now left.
    + rewrite <- (IH Hnd'). split; [intros [[= ? ?]|?]; [contradiction | assumption] | tauto].
Qed.

End MergeFacts.

Section VariableResolver.
Variables (self : ResourceStencil) (providers : registry).

Lemma lookups_comprehension_total (items : list (string * pyval)) :
  exists d, dict_comprehension (fun _ value => Ok value) items [] = Ok d.
Proof.
  apply dict_comprehension_total. apply Forall_forall. intros [k v] _. now exists v.
Qed.

Lemma evaluations_total (inherited own : list (string * Evaluation)) :
  NoDup (dict_keys inherited) -> NoDup (dict_keys own) ->
  (exists d, dict_comprehension (fun _ (value : Evaluation) => value providers)
               (dict_merge inherited own) [] = Ok d)
  <-> (forall k e, layered own inherited k = Some e -> exists v, e providers = Ok v).
Proof.
  intros Hi Ho. rewrite dict_comprehension_total, Forall_forall. split.
  - intros Hall k e Hke. unfold layered in Hke.
    rewrite <- dict_merge_get in Hke by assumption.
    apply dict_get_In in Hke; [|apply dict_merge_keys_NoDup].
    exact (Hall (k, e) Hke).
  - intros Hall [k e] Hin. simpl.
    apply dict_get_In in Hin; [|apply dict_merge_keys_NoDup].
    rewrite dict_merge_get in Hin by assumption. exact (Hall k e Hin).
Qed.

(** C4. Absent inherited maps count as empty ones. With well-formed dicts
    (no repeated key) [resolve_vars] returns exactly when every evaluation
    visible through the two layers yields a value; then every name of the
    result is bound as in the stencil's own map when it is bound there and
    as in the inherited map otherwise, evaluations being replaced by their
    values and lookups left as they are. Inherited [{a:1,b:2}] under local
    [{b:3,c:4}] gives [{a:1,b:3,c:4}] on both sides. *)
Theorem resolve_vars_local_over_inherited
    (ev0 : option (list (string * Evaluation)))
    (lk0 : option (list (string * pyval))) :
  NoDup (dict_keys (or_empty ev0)) ->
  NoDup (dict_keys (or_empty (evaluations self))) ->
  NoDup (dict_keys (or_empty lk0)) ->
  NoDup (dict_keys (or_empty (lookups self))) ->
  (resolve_vars self providers None lk0 = resolve_vars self providers (Some []) lk0
   /\ resolve_vars self providers ev0 None = resolve_vars self providers ev0 (Some []))
  /\ ((exists r, resolve_vars self providers ev0 lk0 = Ok r)
      <-> (forall k e,
             layered (or_empty (evaluations self)) (or_empty ev0) k = Some e ->
             exists v, e providers = Ok v))
  /\ (forall ev lk,
        resolve_vars self providers ev0 lk0 = Ok (ev, lk) ->
        (forall k, dict_get k lk = layered (or_empty (lookups self)) (or_empty lk0) k)
        /\ (forall k,
              dict_get k ev =
                match layered (or_empty (evaluations self)) (or_empty ev0) k with
                | Some e => match e providers with Ok v => Some v | Err _ => None end
                | None => None
                end))
  /\ (resolve_vars merging_stencil providers
        (Some (thunks inherited_ab)) (Some inherited_ab)
      = Ok (merged_abc, merged_abc)).
Proof.
  intros Hev0 Hev Hlk0 Hlk.
  split; [split; reflexivity|]. split; [|split; [|reflexivity]].
  - unfold resolve_vars. cbn [bind Monad_result result_bind ret].
    destruct (lookups_comprehension_total
                (dict_merge (or_empty lk0) (or_empty (lookups self)))) as [dl Hdl].
    rewrite Hdl. cbn [result_bind].
    rewrite <- (evaluations_total (or_empty ev0) (or_empty (evaluations self)) Hev0 Hev).
    split; intros [x Hx].
    + match type of Hx with
      | result_bind ?E _ = _ => destruct E as [d|] eqn:HE; [|discriminate Hx]
      end.
      exists d. exact HE.
    + exists (x, dl).
      match goal with
      | |- result_bind ?E _ = _ => assert (HE : E = Ok x) by exact Hx; rewrite HE
      end.
      reflexivity.
  - intros ev lk. unfold resolve_vars. cbn [bind Monad_result result_bind ret].
    match goal with
    | |- result_bind ?E _ = _ -> _ => destruct E as [de|] eqn:He; [|discriminate]
    end.
    cbn [result_bind].
    match goal with
    | |- result_bind ?E _ = _ -> _ => destruct E as [dl|] eqn:Hl; [|discriminate]
    end.
    cbn [result_bind]. intros [= <- <-]. split; intros k.
    + rewrite (dict_comprehension_get _ _ _ _ k Hl (dict_merge_keys_NoDup _ _)).
      rewrite dict_merge_get by assumption. unfold layered.
      destruct (dict_get k (or_empty (lookups self))); [reflexivity|].
      destruct (dict_get k (or_empty lk0)); reflexivity.
    + rewrite (dict_comprehension_get _ _ _ _ k He (dict_merge_keys_NoDup _ _)).
      rewrite dict_merge_get by assumption. unfold layered, Evaluation.
      destruct (dict_get k (or_empty (evaluations self))); [reflexivity|].
      destruct (dict_get k (or_empty ev0)); reflexivity.
Qed.

End VariableResolver.

(** The theorem at inherited [{a:1,b:2}] under local [{b:3,c:4}]. *)
Lemma resolve_vars_local_over_inherited_witness :
  exists ev lk,
    resolve_vars merging_stencil [] (Some (thunks inherited_ab)) (Some inherited_ab)
      = Ok (ev, lk)
    /\ (forall k, dict_get k lk = layered local_bc inherited_ab k)
    /\ (forall k,
          dict_get k ev =
            match layered (thunks local_bc) (thunks inherited_ab) k with
            | Some e => match e [] with Ok v => Some v | Err _ => None end
            | None => None
            end).
Proof.
  exists merged_abc, merged_abc. split; [reflexivity|].
  refine (proj1 (proj2 (proj2
    (resolve_vars_local_over_inherited merging_stencil []
       (Some (thunks inherited_ab)) (Some inherited_ab) _ _ _ _))) _ _ eq_refl);
    nodup_keys.
Defined.

(* ===================================================================== *)
(** ** Runs of programs *)
(* ===================================================================== *)

Section Runs.
Context {R : Type}.

Lemma exec_Done_inv (r r' : R) tr : exec (Done r) tr r' -> tr = [] /\ r' = r.
Proof. intros Hx. inversion Hx; subst. split; reflexivity. Qed.

Lemma exec_Call_inv p req (k : result pyval -> remote R) tr r :
  exec (Call p req k) tr r ->
  exists reply tr', tr = (p, req, reply) :: tr' /\ exec (k reply) tr' r.
Proof. intros Hx. inversion Hx; subst. eauto. Qed.

Lemma play_exec (m : remote R) script tr r :
  play m script = Some (tr, r) -> exec m tr r.
Proof.
  revert script tr r. induction m as [r0|p req k IH]; intros script tr r; simpl.
  - intros [= <- <-]. constructor.
  - destruct script as [|reply script']; [discriminate|].
    destruct (play (k reply) script') as [[tr' r']|] eqn:Hp; [|discriminate].
    intros [= <- <-]. constructor. now apply (IH reply script').
Qed.

(** Every run against a remote, whatever its state and its answers, is a
    run in the sense of [exec]. *)
Lemma run_exec {W : Type} (h : provider -> request -> W -> result pyval * W)
    (m : remote R) (w : W) :
  exec m (fst (fst (run h m w))) (snd (fst (run h m w))).
Proof.
  revert w. induction m as [r0|p req k IH]; intros w; simpl.
  - constructor.
  - destruct (h p req w) as [reply w'].
    specialize (IH reply w'). destruct (run h (k reply) w') as [[tr r] w''].
    simpl in *. now constructor.
Qed.

End Runs.

Lemma exec_bind {A B : Type} (m : remote A) (f : A -> remote B) tr r :
  exec (remote_bind m f) tr r <->
  exists tr1 tr2 x, tr = tr1 ++ tr2 /\ exec m tr1 x /\ exec (f x) tr2 r.
Proof.
  revert tr. induction m as [a|p req k IH]; intros tr; simpl.
  - split.
    + intros Hx. exists [], tr, a. repeat split; [constructor | assumption].
    + intros (tr1 & tr2 & x & -> & H1 & H2).
      apply exec_Done_inv in H1 as [-> ->]. exact H2.
  - split.
    + intros Hx. apply exec_Call_inv in Hx as (reply & tr' & -> & Hx).
      apply IH in Hx as (tr1 & tr2 & x & -> & H1 & H2).
      exists ((p, req, reply) :: tr1), tr2, x. repeat split; [now constructor | assumption].
    + intros (tr1 & tr2 & x & -> & H1 & H2).
      apply exec_Call_inv in H1 as (reply & tr' & -> & H1). simpl.
      constructor. apply IH. now exists tr', tr2, x.
Qed.

(** *** Surfacing of remote failures, by the shape of the program *)

Section Surfacing.
Implicit Types (g : GrafanaException -> exn).

Lemma surfaces_done {R} (outcome : R -> option exn) g (r : R) :
  surfaces_as outcome g (Done r).
Proof. intros tr r' p req exc Hx Hin. apply exec_Done_inv in Hx as [-> _]. destruct Hin. Qed.

Lemma surfaces_call p req : surfaces_as failure RemoteException (grafana_call p req).
Proof.
  intros tr r p' req' exc Hx Hin. unfold grafana_call in Hx.
  apply exec_Call_inv in Hx as (reply & tr' & -> & Hx).
  apply exec_Done_inv in Hx as [-> ->].
  destruct Hin as [[= _ _ ->]|[]]. reflexivity.
Qed.

Lemma surfaces_bind {A B} g (m : io A) (f : A -> io B) :
  surfaces_as failure g m ->
  (forall a, surfaces_as failure g (f a)) ->
  surfaces_as failure g (bind m f).
Proof.
  intros Hm Hf tr r p req exc Hx Hin. cbn [bind Monad_io] in Hx. unfold io_bind in Hx.
  apply exec_bind in Hx as (tr1 & tr2 & x & -> & H1 & H2).
  apply in_app_or in Hin as [Hin|Hin].
  - specialize (Hm _ _ _ _ _ H1 Hin). destruct x as [a|e]; [discriminate|].
    injection Hm as ->. apply exec_Done_inv in H2 as [_ ->]. reflexivity.
  - destruct x as [a|e].
    + exact (Hf a _ _ _ _ _ H2 Hin).
    + apply exec_Done_inv in H2 as [-> _]. destruct Hin.
Qed.

(** A [try] whose handlers make no call: what the body surfaces as [g exc]
    comes out as what the handlers make of [g exc]. *)
Lemma surfaces_try {A} g g' (body : io A) (handler : exn -> option (io A)) :
  surfaces_as failure g body ->
  (forall e h, handler e = Some h -> exists r, h = Done r) ->
  (forall exc, match handler (g exc) with
               | Some h => h = Done (Err (g' exc))
               | None => g exc = g' exc
               end) ->
  surfaces_as failure g' (try_except body handler).
Proof.
  intros Hbody Hpure Hmap tr r p req exc Hx Hin. unfold try_except in Hx.
  apply exec_bind in Hx as (tr1 & tr2 & x & -> & H1 & H2).
  apply in_app_or in Hin as [Hin|Hin].
  - specialize (Hbody _ _ _ _ _ H1 Hin). destruct x as [a|e]; [discriminate|].
    injection Hbody as ->. specialize (Hmap exc).
    destruct (handler (g exc)) as [h|].
    + subst h. apply exec_Done_inv in H2 as [_ ->]. reflexivity.
    + apply exec_Done_inv in H2 as [_ ->]. simpl. now f_equal.
  - exfalso. destruct x as [a|e].
    + apply exec_Done_inv in H2 as [-> _]. destruct Hin.
    + destruct (handler e) as [h|] eqn:Hh.
      * destruct (Hpure _ _ Hh) as [r0 ->].
        apply exec_Done_inv in H2 as [-> _]. destruct Hin.
      * apply exec_Done_inv in H2 as [-> _]. destruct Hin.
Qed.

Lemma surfaces_lift_io {A} g (m : io A) (s : pyval) :
  surfaces_as failure g m ->
  surfaces_as (fun sr => failure (snd sr)) g (lift_io m s).
Proof.
  intros Hm tr r p req exc Hx Hin. unfold lift_io in Hx.
  apply exec_bind in Hx as (tr1 & tr2 & x & -> & H1 & H2).
  apply exec_Done_inv in H2 as [-> ->]. rewrite app_nil_r in Hin.
  simpl. exact (Hm _ _ _ _ _ H1 Hin).
Qed.

Lemma surfaces_bind_mut {A B} g (m : mut A) (f : A -> mut B) (s : pyval) :
  surfaces_as (fun sr => failure (snd sr)) g (m s) ->
  (forall a s', surfaces_as (fun sr => failure (snd sr)) g (f a s')) ->
  surfaces_as (fun sr => failure (snd sr)) g (bind m f s).
Proof.
  intros Hm Hf tr r p req exc Hx Hin. cbn [bind Monad_mut] in Hx. unfold mut_bind in Hx.
  apply exec_bind in Hx as (tr1 & tr2 & [s1 x] & -> & H1 & H2). simpl in H2.
  apply in_app_or in Hin as [Hin|Hin].
  - specialize (Hm _ _ _ _ _ H1 Hin). simpl in Hm. destruct x as [a|e]; [discriminate|].
    injection Hm as ->. apply exec_Done_inv in H2 as [_ ->]. reflexivity.
  - destruct x as [a|e].
    + exact (Hf a s1 _ _ _ _ _ H2 Hin).
    + apply exec_Done_inv in H2 as [-> _]. destruct Hin.
Qed.

Lemma surfaces_client g grafana providers :
  surfaces_as failure g (client grafana providers).
Proof. unfold client. destruct (dict_get grafana providers); apply surfaces_done. Qed.

Lemma surfaces_lift {A} g (r : result A) : surfaces_as failure g (lift r).
Proof. apply surfaces_done. Qed.

Lemma surfaces_model_update g other s :
  surfaces_as (fun sr : pyval * result unit => failure (snd sr)) g (model_update other s).
Proof. unfold model_update. destruct (py_update s other); apply surfaces_done. Qed.

Lemma surfaces_model_update_method g s :
  surfaces_as (fun sr : pyval * result unit => failure (snd sr)) g (model_update_method s).
Proof. unfold model_update_method. destruct s; apply surfaces_done. Qed.

End Surfacing.

(* ===================================================================== *)
(** ** Error propagation of the lifecycle operations *)
(* ===================================================================== *)

Ltac handler_pure :=
  let e := fresh "e" in let h := fresh "h" in
  intros e h; destruct e; simpl; try discriminate;
  intros [= <-]; repeat match goal with |- context [if ?c then _ else _] => destruct c end;
  eexists; reflexivity.

Ltac surf_step :=
  first
    [ apply surfaces_call
    | apply surfaces_client
    | apply surfaces_lift
    | apply surfaces_done
    | apply surfaces_model_update
    | apply surfaces_model_update_method
    | apply surfaces_lift_io
    | apply surfaces_bind; [|intros ?]
    | apply surfaces_bind_mut; [|intros ? ?]
    | apply (surfaces_try RemoteException fatal); [|handler_pure|intros ?; reflexivity]
    | apply (surfaces_try fatal fatal); [|handler_pure|intros ?; reflexivity] ].

Ltac surf := repeat surf_step.

Section Propagation.
Variables (grafana : string) (uid : pyval) (providers : registry).









Lemma Dashboard_update_surfaces self model0 :
  surfaces_mut (Dashboard.update self providers model0).
Proof.
  unfold surfaces_mut, Dashboard.update. surf.
Qed.

End Propagation.

(** *** The operations that make one guarded call *)

Lemma py_getitem_error v key e :
  py_getitem v key = Err e -> e = KeyError key \/ e = TypeError.
Proof.
  destruct v; simpl; try (intros [= <-]; now right).
  destruct (dict_get key d); [discriminate | intros [= <-]; now left].
Qed.

Ltac exec_done H :=
  apply exec_Done_inv in H; destruct H as [? ?]; subst.

Section SingleCall.
Variables (grafana : string) (providers : registry).

Lemma Folder_exists_run uid tr r :
  exec (Folder.exists_ grafana uid providers) tr r ->
  match dict_get grafana providers with
  | None => tr = [] /\ r = Err (ProviderNotFound grafana)
  | Some c =>
      exists reply,
        tr = [(c, get_folder uid, reply)]
        /\ r = match reply with
               | Ok _ => Ok true
               | Err (RemoteException exc) =>
                   if is_not_found exc then Ok false else Err (fatal exc)
               | Err e => Err e
               end
  end.
Proof.
  unfold Folder.exists_, client. destruct (dict_get grafana providers) as [c|]; cbn.
  - intros Hx. apply exec_Call_inv in Hx as (reply & tr' & -> & Hx).
    exists reply. destruct reply as [v|e]; cbn in Hx.
    + exec_done Hx. split; reflexivity.
    + destruct e; cbn in Hx; try (exec_done Hx; split; reflexivity).
      destruct (is_not_found exc); cbn in Hx; exec_done Hx; split; reflexivity.
  - intros Hx. exec_done Hx. split; reflexivity.
Qed.

Lemma Dashboard_exists_run uid tr r :
  exec (Dashboard.exists_ grafana uid providers) tr r ->
  match dict_get grafana providers with
  | None => tr = [] /\ r = Err (ProviderNotFound grafana)
  | Some c =>
      exists reply,
        tr = [(c, get_dashboard uid, reply)]
        /\ r = match reply with
               | Ok _ => Ok true
               | Err (RemoteException exc) =>
                   if is_not_found exc then Ok false else Err (fatal exc)
               | Err e => Err e
               end
  end.
Proof.
  unfold Dashboard.exists_, client. destruct (dict_get grafana providers) as [c|]; cbn.
  - intros Hx. apply exec_Call_inv in Hx as (reply & tr' & -> & Hx).
    exists reply. destruct reply as [v|e]; cbn in Hx.
    + exec_done Hx. split; reflexivity.
    + destruct e; cbn in Hx; try (exec_done Hx; split; reflexivity).
      destruct (is_not_found exc); cbn in Hx; exec_done Hx; split; reflexivity.
  - intros Hx. exec_done Hx. split; reflexivity.
Qed.

Lemma Folder_delete_run self tr r :
  exec (Folder.delete self providers) tr r ->
  match dict_get (f_grafana self) providers with
  | None => tr = [] /\ r = Err (ProviderNotFound (f_grafana self))
  | Some c =>
      exists reply,
        tr = [(c, delete_folder (f_uid self), reply)]
        /\ r = match reply with
               | Ok _ => Ok tt
               | Err (RemoteException exc) =>
                   if is_not_found exc then Ok tt else Err (fatal exc)
               | Err e => Err e
               end
  end.
Proof.
  unfold Folder.delete, client. destruct (dict_get (f_grafana self) providers) as [c|]; cbn.
  - intros Hx. apply exec_Call_inv in Hx as (reply & tr' & -> & Hx).
    exists reply. destruct reply as [v|e]; cbn in Hx.
    + exec_done Hx. split; reflexivity.
    + destruct e; cbn in Hx; try (exec_done Hx; split; reflexivity).
      destruct (is_not_found exc); cbn in Hx; exec_done Hx; split; reflexivity.
  - intros Hx. exec_done Hx. split; reflexivity.
Qed.

Lemma Dashboard_delete_run self tr r :
  exec (Dashboard.delete self providers) tr r ->
  match dict_get (d_grafana self) providers with
  | None => tr = [] /\ r = Err (ProviderNotFound (d_grafana self))
  | Some c =>
      exists reply,
        tr = [(c, delete_dashboard (d_uid self), reply)]
        /\ r = match reply with
               | Ok _ => Ok tt
               | Err (RemoteException exc) =>
                   if is_not_found exc then Ok tt else Err (fatal exc)
               | Err e => Err e
               end
  end.
Proof.
  unfold Dashboard.delete, client. destruct (dict_get (d_grafana self) providers) as [c|]; cbn.
  - intros Hx. apply exec_Call_inv in Hx as (reply & tr' & -> & Hx).
    exists reply. destruct reply as [v|e]; cbn in Hx.
    + exec_done Hx. split; reflexivity.
    + destruct e; cbn in Hx; try (exec_done Hx; split; reflexivity).
      destruct (is_not_found exc); cbn in Hx; exec_done Hx; split; reflexivity.
  - intros Hx. exec_done Hx. split; reflexivity.
Qed.

Lemma Folder_get_run uid tr r :
  exec (Folder.get grafana uid providers) tr r ->
  match dict_get grafana providers with
  | None => tr = [] /\ r = Err (ProviderNotFound grafana)
  | Some c =>
      exists reply,
        tr = [(c, get_folder uid, reply)]
        /\ r = match reply with
               | Ok data =>
                   match py_getitem data "title" with
                   | Ok title => Ok (mkFolder grafana uid (PyDict [("title", title)]))
                   | Err e => Err e
                   end
               | Err (RemoteException exc) => Err (fatal exc)
               | Err e => Err e
               end
  end.
Proof.
  unfold Folder.get, client. destruct (dict_get grafana providers) as [c|]; cbn.
  - intros Hx. apply exec_Call_inv in Hx as (reply & tr' & -> & Hx).
    exists reply. destruct reply as [data|e]; cbn in Hx.
    + destruct (py_getitem data "title") as [title|e] eqn:Ht; cbn in Hx.
      * exec_done Hx. split; reflexivity.
      * destruct (py_getitem_error _ _ _ Ht) as [-> | ->]; cbn in Hx;
          exec_done Hx; split; reflexivity.
    + destruct e; cbn in Hx; exec_done Hx; split; reflexivity.
  - intros Hx. exec_done Hx. split; reflexivity.
Qed.

End SingleCall.

(** *** [Folder.create] *)

Section FolderCreate.
Variables (grafana : string) (uid model0 : pyval) (providers : registry).

Lemma Folder_create_run tr r :
  exec (Folder.create grafana uid model0 providers) tr r ->
  match py_getitem model0 "title" with
  | Err (KeyError _) => tr = [] /\ r = Err (DataError "Folder model missing 'title' key")
  | Err e => tr = [] /\ r = Err e
  | Ok title =>
      match dict_get grafana providers with
      | None => tr = [] /\ r = Err (ProviderNotFound grafana)
      | Some c =>
          exists reply tr',
            tr = (c, create_folder title uid, reply) :: tr'
            /\ match reply with
               | Ok _ => exec (Folder.get grafana uid providers) tr' r
               | Err (RemoteException exc) =>
                   if status_code exc =? 412
                   then exec (Folder.get grafana uid providers) tr' r
                   else tr' = [] /\ r = Err (fatal exc)
               | Err (KeyError _) =>
                   tr' = [] /\ r = Err (DataError "Folder model missing 'title' key")
               | Err e => tr' = [] /\ r = Err e
               end
      end
  end.
Proof.
  unfold Folder.create.
  destruct (py_getitem model0 "title") as [title|e] eqn:Ht.
  - unfold client at 1. destruct (dict_get grafana providers) as [c|] eqn:Hc.
    + cbn [bind Monad_io io_bind try_except remote_bind lift ret grafana_call raise].
      intros Hx. apply exec_Call_inv in Hx as (reply & tr' & -> & Hx).
      exists reply, tr'. split; [reflexivity|].
      destruct reply as [v|e];
        cbn [bind Monad_io io_bind try_except remote_bind lift ret raise] in Hx.
      * exact Hx.
      * destruct e;
          cbn [bind Monad_io io_bind try_except remote_bind lift ret raise] in Hx;
          try (exec_done Hx; split; reflexivity).
        destruct (status_code exc =? 412);
          cbn [negb bind Monad_io io_bind try_except remote_bind lift ret raise] in Hx.
        -- exact Hx.
        -- exec_done Hx. split; reflexivity.
    + cbn [bind Monad_io io_bind try_except remote_bind lift ret raise].
      intros Hx. exec_done Hx. split; reflexivity.
  - destruct (py_getitem_error _ _ _ Ht) as [-> | ->];
      cbn [bind Monad_io io_bind try_except remote_bind lift ret raise];
      intros Hx; exec_done Hx; split; reflexivity.
Qed.

End FolderCreate.

(** *** Where a failed call ends: [exists], [delete], [create] *)

Section Consumption.
Variables (grafana : string) (uid : pyval) (providers : registry).









End Consumption.




(** C7. [Folder.create] raises [DataError], without calling the remote,
    when the model has no [title]; otherwise it calls [create_folder];
    when that call returns, or fails with status 412, it goes on with
    [Folder.get] and ends as [get] ends, so with the folder read back when
    that read succeeds; any other remote failure of [create_folder] ends it
    with [GrafanaError]. *)
Theorem folder_create_tolerates_412_and_reads_back
    (grafana : string) (uid model0 : pyval) (providers : registry) :
  (forall d tr r,
     model0 = PyDict d -> dict_get "title" d = None ->
     exec (Folder.create grafana uid model0 providers) tr r ->
     tr = [] /\ r = Err (DataError "Folder model missing 'title' key"))
  /\ (forall title c tr r,
        py_getitem model0 "title" = Ok title ->
        dict_get grafana providers = Some c ->
        exec (Folder.create grafana uid model0 providers) tr r ->
        exists reply tr',
          tr = (c, create_folder title uid, reply) :: tr'
          /\ (forall v, reply = Ok v -> exec (Folder.get grafana uid providers) tr' r)
          /\ (forall exc, reply = Err (RemoteException exc) ->
                if status_code exc =? 412
                then exec (Folder.get grafana uid providers) tr' r
                else tr' = [] /\ r = Err (GrafanaError (message exc))))
  /\ (forall tr f,
        exec (Folder.get grafana uid providers) tr (Ok f) ->
        exists c data title,
          tr = [(c, get_folder uid, Ok data)]
          /\ py_getitem data "title" = Ok title
          /\ f = mkFolder grafana uid (PyDict [("title", title)]))
  /\ (forall title c exc data t,
        py_getitem model0 "title" = Ok title ->
        dict_get grafana providers = Some c ->
        status_code exc = 412 ->
        py_getitem data "title" = Ok t ->
        exec (Folder.create grafana uid model0 providers)
          [(c, create_folder title uid, Err (RemoteException exc));
           (c, get_folder uid, Ok data)]
          (Ok (mkFolder grafana uid (PyDict [("title", t)])))).
Proof.
  split; [|split; [|split]].
  - intros d tr r -> Hnone Hx. apply Folder_create_run in Hx.
    simpl in Hx. rewrite Hnone in Hx. exact Hx.
  - intros title c tr r Ht Hc Hx. apply Folder_create_run in Hx.
    rewrite Ht, Hc in Hx. destruct Hx as (reply & tr' & -> & Hx).
    exists reply, tr'. split; [reflexivity|]. split.
    + intros v ->. exact Hx.
    + intros exc ->. exact Hx.
  - intros tr f Hx. apply Folder_get_run in Hx.
    destruct (dict_get grafana providers) as [c|]; [|destruct Hx as [_ [=]]].
    destruct Hx as (reply & -> & Hr). destruct reply as [data|e].
    + destruct (py_getitem data "title") as [title|] eqn:Ht; [|discriminate].
      injection Hr as ->. now exists c, data, title.
    + destruct e; discriminate.
  - intros title c exc data t Ht Hc H412 Hd.
    apply (play_exec _ [Err (RemoteException exc); Ok data]).
    unfold Folder.create, Folder.get, client. rewrite Ht, Hc.
    cbn. rewrite H412. cbn. rewrite Hd. reflexivity.
Qed.

(** The theorem at a folder that is already there. *)
Lemma folder_create_tolerates_412_and_reads_back_witness :
  exec (Folder.create "p1" team_a_uid team_a_model one_grafana)
    [(7%nat, create_folder (PyStr "Team A") team_a_uid,
      Err (RemoteException precondition_failed));
     (7%nat, get_folder team_a_uid, Ok team_a_folder_reply)]
    (Ok team_a_folder).
Proof.
  exact (proj2 (proj2 (proj2
    (folder_create_tolerates_412_and_reads_back "p1" team_a_uid team_a_model one_grafana)))
    (PyStr "Team A") 7%nat precondition_failed team_a_folder_reply (PyStr "Team A")
    eq_refl eq_refl eq_refl eq_refl).
Defined.

(* ===================================================================== *)
(** ** [Dashboard.get] *)
(* ===================================================================== *)

Lemma pop_keys_of_dict keys d v' :
  pop_keys keys (PyDict d) = Ok v' ->
  exists d', v' = PyDict d'
    /\ (forall k, In k keys -> dict_get k d' = None)
    /\ (forall k, ~ In k keys -> dict_get k d' = dict_get k d).
Proof.
  revert d v'. induction keys as [|key ks IH]; intros d v' Hp.
  - injection Hp as <-. exists d. split; [reflexivity|]. split; [intros k []|reflexivity].
  - simpl in Hp. apply IH in Hp as (d' & -> & Hgone & Hkept).
    exists d'. split; [reflexivity|]. split.
    + intros k [<-|Hin]; [|now apply Hgone].
      destruct (in_dec string_dec key ks) as [Hin|Hnin]; [now apply Hgone|].
      rewrite (Hkept _ Hnin). apply dict_get_pop_eq.
    + intros k Hnin. simpl in Hnin. rewrite Hkept by tauto.
      apply dict_get_pop_ne. intros ->. tauto.
Qed.

Lemma pop_keys_needs_dict key keys v v' :
  pop_keys (key :: keys) v = Ok v' -> exists d, v = PyDict d.
Proof. destruct v; simpl; try discriminate. intros _. now exists d. Qed.

#[local] Arguments pop_keys : simpl never.

(** One step of a run of a program whose outcome is known. *)
Ltac run_step Hx :=
  cbn in Hx;
  lazymatch type of Hx with
  | exec (Done _) _ _ =>
      apply exec_Done_inv in Hx; destruct Hx as [? ?]; subst; try congruence
  | exec (Call _ _ _) _ _ =>
      let reply := fresh "reply" in
      let tr' := fresh "tr" in
      apply exec_Call_inv in Hx as (reply & tr' & -> & Hx)
  | exec ?m _ _ =>
      match m with
      | context [match ?t with _ => _ end] => destruct t eqn:?
      end
  end.


Lemma Dashboard_get_ok grafana uid providers tr d :
  exec (Dashboard.get grafana uid providers) tr (Ok d) ->
  exists c dash model0 meta fid fdata title fuid model1,
    dict_get grafana providers = Some c
    /\ tr = [(c, get_dashboard uid, Ok dash); (c, get_folder_by_id fid, Ok fdata)]
    /\ py_getitem dash "dashboard" = Ok model0
    /\ py_getitem dash "meta" = Ok meta
    /\ py_getitem meta "folderId" = Ok fid
    /\ py_getitem fdata "title" = Ok title
    /\ py_getitem fdata "uid" = Ok fuid
    /\ pop_keys IGNORED_KEYS model0 = Ok model1
    /\ d = mkDashboard grafana uid model1 fuid.
Proof.
  unfold Dashboard.get, Folder.get_by_id, client. intros Hx.
  destruct (dict_get grafana providers) as [c|] eqn:Hc; [|run_step Hx].
  run_step Hx. destruct reply as [dash|e]; [|destruct e; run_step Hx].
  cbn in Hx.
  destruct (py_getitem dash "dashboard") as [model0|] eqn:Hm; [|run_step Hx].
  cbn in Hx.
  destruct (py_getitem dash "meta") as [meta|] eqn:Hmeta; [|run_step Hx].
  cbn in Hx.
  destruct (py_getitem meta "folderId") as [fid|] eqn:Hfid; [|run_step Hx].
  run_step Hx. destruct reply as [fdata|e]; [|destruct e; run_step Hx].
  cbn in Hx.
  destruct (py_getitem fdata "title") as [title|] eqn:Ht; [|run_step Hx].
  cbn in Hx.
  destruct (py_getitem fdata "uid") as [fuid|] eqn:Hu; [|run_step Hx].
  cbn in Hx.
  destruct (pop_keys IGNORED_KEYS model0) as [model1|] eqn:Hp; [|run_step Hx].
  run_step Hx.
  match goal with H : Ok d = Ok _ |- _ => injection H as -> end.
  exists c, dash, model0, meta, fid, fdata, title, fuid, model1.
  repeat split; assumption.
Qed.

(** C5. A dashboard that [Dashboard.get] returns was read with
    [get_dashboard] and its folder with [get_folder_by_id] on the numeric
    [folderId] of the reply; in what [serialize] gives for it, [model] is
    the remote model without the keys [id], [uid] and [version], every other
    key kept, and [folder] is the [uid] of the folder read, not the numeric
    id. *)
Theorem dashboard_get_strips_volatile_keys
    (grafana : string) (uid : pyval) (providers : registry)
    (tr : list exchange) (d : DashboardResource) :
  exec (Dashboard.get grafana uid providers) tr (Ok d) ->
  exists c dash meta fid fdata m0 m,
    tr = [(c, get_dashboard uid, Ok dash); (c, get_folder_by_id fid, Ok fdata)]
    /\ py_getitem dash "dashboard" = Ok (PyDict m0)
    /\ py_getitem (Dashboard.serialize d providers) "model" = Ok (PyDict m)
    /\ (forall key, In key IGNORED_KEYS -> dict_get key m = None)
    /\ (dict_get "id" m = None /\ dict_get "uid" m = None /\ dict_get "version" m = None)
    /\ (forall key, ~ In key IGNORED_KEYS -> dict_get key m = dict_get key m0)
    /\ py_getitem dash "meta" = Ok meta
    /\ py_getitem meta "folderId" = Ok fid
    /\ py_getitem (Dashboard.serialize d providers) "folder" = py_getitem fdata "uid".
Proof.
  intros Hx.
  apply Dashboard_get_ok in Hx
    as (c & dash & model0 & meta & fid & fdata & title & fuid & model1
        & Hc & -> & Hm & Hmeta & Hfid & Ht & Hu & Hp & ->).
  destruct (pop_keys_needs_dict _ _ _ _ Hp) as [m0 ->].
  apply pop_keys_of_dict in Hp as (m & -> & Hgone & Hkept).
  exists c, dash, meta, fid, fdata, m0, m.
  split; [reflexivity|]. split; [assumption|]. split; [reflexivity|].
  split; [assumption|]. split.
  - repeat split; apply Hgone; simpl; tauto.
  - split; [assumption|]. split; [assumption|]. split; [assumption|].
    rewrite Hu. reflexivity.
Qed.

(** The theorem at the fixture dashboard. *)
Lemma dashboard_get_strips_volatile_keys_witness :
  exec (Dashboard.get "p1" board_uid one_grafana)
    [(7%nat, get_dashboard board_uid, Ok (board_reply board_remote));
     (7%nat, get_folder_by_id (PyInt 12), Ok team_a_folder_reply)]
    (Ok board)
  /\ Dashboard.serialize board one_grafana
     = PyDict [ ("kind", PyStr "dashboard"); ("grafana", PyStr "p1");
                ("uid", board_uid); ("model", PyDict [("title", PyStr "Board")]);
                ("folder", team_a_uid) ]
  /\ exists c dash meta fid fdata m0 m,
       [(7%nat, get_dashboard board_uid, Ok (board_reply board_remote));
        (7%nat, get_folder_by_id (PyInt 12), Ok team_a_folder_reply)]
       = [(c, get_dashboard board_uid, Ok dash); (c, get_folder_by_id fid, Ok fdata)]
       /\ py_getitem dash "dashboard" = Ok (PyDict m0)
       /\ py_getitem (Dashboard.serialize board one_grafana) "model" = Ok (PyDict m)
       /\ (forall key, In key IGNORED_KEYS -> dict_get key m = None)
       /\ (dict_get "id" m = None /\ dict_get "uid" m = None
           /\ dict_get "version" m = None)
       /\ (forall key, ~ In key IGNORED_KEYS -> dict_get key m = dict_get key m0)
       /\ py_getitem dash "meta" = Ok meta
       /\ py_getitem meta "folderId" = Ok fid
       /\ py_getitem (Dashboard.serialize board one_grafana) "folder"
          = py_getitem fdata "uid".
Proof.
  assert (Hx : exec (Dashboard.get "p1" board_uid one_grafana)
                 [(7%nat, get_dashboard board_uid, Ok (board_reply board_remote));
                  (7%nat, get_folder_by_id (PyInt 12), Ok team_a_folder_reply)]
                 (Ok board)).
  { apply (play_exec _ [Ok (board_reply board_remote); Ok team_a_folder_reply]).
    reflexivity. }
  split; [exact Hx|]. split; [reflexivity|].
  exact (dashboard_get_strips_volatile_keys _ _ _ _ _ Hx).
Defined.

(* ===================================================================== *)
(** ** The requests a program makes, and the caller's model *)
(* ===================================================================== *)

Section Requests.
Variable Q : request -> Prop.

Lemma requests_done {R} (r : R) : requests_satisfy Q (Done r).
Proof. intros tr r' p req reply Hx Hin. apply exec_Done_inv in Hx as [-> _]. destruct Hin. Qed.

Lemma requests_call p req : Q req -> requests_satisfy Q (grafana_call p req).
Proof.
  intros HQ tr r p' req' reply Hx Hin. unfold grafana_call in Hx.
  apply exec_Call_inv in Hx as (reply' & tr' & -> & Hx).
  apply exec_Done_inv in Hx as [-> _]. destruct Hin as [[= _ <- _]|[]]. exact HQ.
Qed.

Lemma requests_bind {A B} (m : io A) (f : A -> io B) :
  requests_satisfy Q m -> (forall a, requests_satisfy Q (f a)) ->
  requests_satisfy Q (bind m f).
Proof.
  intros Hm Hf tr r p req reply Hx Hin. cbn [bind Monad_io] in Hx. unfold io_bind in Hx.
  apply exec_bind in Hx as (tr1 & tr2 & x & -> & H1 & H2).
  apply in_app_or in Hin as [Hin|Hin]; [exact (Hm _ _ _ _ _ H1 Hin)|].
  destruct x as [a|e]; [exact (Hf a _ _ _ _ _ H2 Hin)|].
  apply exec_Done_inv in H2 as [-> _]. destruct Hin.
Qed.

Lemma requests_try {A} (body : io A) (handler : exn -> option (io A)) :
  requests_satisfy Q body ->
  (forall e h, handler e = Some h -> exists r, h = Done r) ->
  requests_satisfy Q (try_except body handler).
Proof.
  intros Hbody Hpure tr r p req reply Hx Hin. unfold try_except in Hx.
  apply exec_bind in Hx as (tr1 & tr2 & x & -> & H1 & H2).
  apply in_app_or in Hin as [Hin|Hin]; [exact (Hbody _ _ _ _ _ H1 Hin)|].
  exfalso. destruct x as [a|e].
  - apply exec_Done_inv in H2 as [-> _]. destruct Hin.
  - destruct (handler e) as [h|] eqn:Hh.
    + destruct (Hpure _ _ Hh) as [r0 ->]. apply exec_Done_inv in H2 as [-> _]. destruct Hin.
    + apply exec_Done_inv in H2 as [-> _]. destruct Hin.
Qed.

Lemma requests_client grafana providers : requests_satisfy Q (client grafana providers).
Proof. unfold client. destruct (dict_get grafana providers); apply requests_done. Qed.

End Requests.

Ltac reqs_step :=
  first
    [ apply requests_client
    | apply requests_done
    | apply requests_call
    | apply requests_bind; [|intros ?]
    | apply requests_try; [|handler_pure] ].

Ltac reqs := repeat reqs_step.

(** [lift_io], [bind] and the two primitives, on the caller's object. *)
Section CallerModel.

Lemma lift_io_run {A} (m : io A) (s s' : pyval) tr (r : result A) :
  exec (lift_io m s) tr (s', r) <-> s' = s /\ exec m tr r.
Proof.
  unfold lift_io. rewrite exec_bind. split.
  - intros (tr1 & tr2 & x & -> & H1 & H2).
    apply exec_Done_inv in H2 as [-> [= -> ->]]. rewrite app_nil_r. now split.
  - intros [-> Hx]. exists tr, [], r. rewrite app_nil_r.
    repeat split; [assumption | constructor].
Qed.

Lemma mut_bind_run {A B} (m : mut A) (f : A -> mut B) (s s' : pyval) tr (r : result B) :
  exec (bind m f s) tr (s', r) ->
  exists tr1 tr2 s1 x,
    tr = tr1 ++ tr2 /\ exec (m s) tr1 (s1, x)
    /\ match x with
       | Ok a => exec (f a s1) tr2 (s', r)
       | Err e => tr2 = [] /\ s' = s1 /\ r = Err e
       end.
Proof.
  cbn [bind Monad_mut]. unfold mut_bind. rewrite exec_bind.
  intros (tr1 & tr2 & [s1 x] & -> & H1 & H2). exists tr1, tr2, s1, x.
  split; [reflexivity|]. split; [assumption|]. simpl in H2.
  destruct x as [a|e]; [assumption|].
  apply exec_Done_inv in H2 as [-> [= -> ->]]. repeat split.
Qed.

Lemma keeps_lift_io {A} (m : io A) (s : pyval) :
  requests_satisfy (submits s) m -> keeps_model s (lift_io m s).
Proof.
  intros Hm tr s' r Hx. apply lift_io_run in Hx as [-> Hx]. split; [reflexivity|].
  intros p req reply Hin. exact (Hm _ _ _ _ _ Hx Hin).
Qed.

Lemma keeps_bind {A B} (m : mut A) (f : A -> mut B) (s : pyval) :
  keeps_model s (m s) -> (forall a, keeps_model s (f a s)) ->
  keeps_model s (bind m f s).
Proof.
  intros Hm Hf tr s' r Hx.
  apply mut_bind_run in Hx as (tr1 & tr2 & s1 & x & -> & H1 & H2).
  destruct (Hm _ _ _ H1) as [-> Hq1]. destruct x as [a|e].
  - destruct (Hf a _ _ _ H2) as [-> Hq2]. split; [reflexivity|].
    intros p req reply Hin. apply in_app_or in Hin as [Hin|Hin]; eauto.
  - destruct H2 as (-> & -> & _). split; [reflexivity|].
    intros p req reply Hin. rewrite app_nil_r in Hin. eauto.
Qed.

(** After [model0 <- model_ref], [model0] is the caller's object. *)
Lemma keeps_bind_ref {B} (f : pyval -> mut B) (s : pyval) :
  keeps_model s (f s s) -> keeps_model s (bind model_ref f s).
Proof.
  intros Hf tr s' r Hx.
  apply mut_bind_run in Hx as (tr1 & tr2 & s1 & x & -> & H1 & H2).
  unfold model_ref in H1. apply exec_Done_inv in H1 as [-> [= -> ->]].
  exact (Hf _ _ _ H2).
Qed.

End CallerModel.

Ltac submits_goal :=
  let meta := fresh "meta" in
  let Heq := fresh "Heq" in
  intros meta Heq; first [discriminate Heq | injection Heq as <-; reflexivity].

Ltac keeps_step :=
  first
    [ apply keeps_bind_ref
    | apply keeps_bind; [|intros ?]
    | apply keeps_lift_io; reqs; try submits_goal ].


Lemma model_update_method_run s tr s' (x : result unit) :
  exec (model_update_method s) tr (s', x) ->
  tr = [] /\ s' = s
  /\ x = match s with PyDict _ => Ok tt | _ => Err AttributeError end.
Proof.
  unfold model_update_method.
  destruct s; intros Hx; apply exec_Done_inv in Hx as [-> [= -> ->]]; repeat split.
Qed.

Section DashboardWrites.
Variables (providers : registry).

(** Once [model.update] is done, [create] and [update] leave the model as it
    is, and the only dashboard body they submit is that model. *)
Lemma Dashboard_create_run grafana uid folder model0 tr s' r :
  exec (Dashboard.create grafana uid folder providers model0) tr (s', r) ->
  match py_update model0 [("id", PyNone); ("uid", uid); ("version", PyInt 1)] with
  | Err e => tr = [] /\ s' = model0 /\ r = Err e
  | Ok s1 => s' = s1 /\ forall p req reply, In (p, req, reply) tr -> submits s1 req
  end.
Proof.
  unfold Dashboard.create. intros Hx.
  apply mut_bind_run in Hx as (tr1 & tr2 & s1 & x & -> & H1 & H2).
  unfold model_update in H1.
  destruct (py_update model0 _) as [m1|e]; apply exec_Done_inv in H1 as [-> [= -> ->]].
  - simpl. revert H2. generalize tr2 s' r.
    change (keeps_model m1
      ((model1 <- model_ref ;;
        folder_obj <- lift_io (Folder.get grafana folder providers) ;;
        folder_id <- lift_io (Folder.id folder_obj providers) ;;
        lift_io (try_except
                   (c <- client grafana providers ;;
                    grafana_call c
                      (update_dashboard
                         (PyDict [ ("dashboard", model1); ("folderId", folder_id);
                                   ("overwrite", PyBool true) ])))
                   except_grafana) ;;
        lift_io (Dashboard.get grafana uid providers)) m1)).
    repeat keeps_step.
  - destruct H2 as (-> & -> & ->). repeat split.
Qed.

Lemma Dashboard_version_reads self :
  requests_satisfy (fun q => forall meta, q <> update_dashboard meta)
    (try_except
       (v <- Dashboard.version self providers ;; lift (py_add_one v))
       (fun e => match e with
                 | TypeError => Some (ret (PyInt 1))
                 | _ => None
                 end)).
Proof. unfold Dashboard.version. reqs. intros meta; discriminate. Qed.

Lemma Dashboard_id_reads self :
  requests_satisfy (fun q => forall meta, q <> update_dashboard meta)
    (Dashboard.id self providers).
Proof. unfold Dashboard.id. reqs. intros meta; discriminate. Qed.

Lemma Dashboard_update_run self model0 tr s' r :
  exec (Dashboard.update self providers model0) tr (s', r) ->
  (s' = model0 /\ (exists e, r = Err e)
   /\ forall p req reply meta, In (p, req, reply) tr -> req <> update_dashboard meta)
  \/ (exists id0 version_new s1,
        py_update model0 [("id", id0); ("uid", d_uid self); ("version", version_new)]
          = Ok s1
        /\ s' = s1
        /\ forall p req reply, In (p, req, reply) tr -> submits s1 req).
Proof.
  unfold Dashboard.update. intros Hx.
  apply mut_bind_run in Hx as (tr1 & tr2 & s1 & x & -> & H1 & H2).
  apply lift_io_run in H1 as [-> H1].
  assert (Hreads1 : forall p req reply meta,
            In (p, req, reply) tr1 -> req <> update_dashboard meta).
  { intros p req reply meta Hin.
    exact (Dashboard_version_reads self _ _ _ _ _ H1 Hin meta). }
  destruct x as [version_new|e].
  2:{ destruct H2 as (-> & -> & ->). left. rewrite app_nil_r.
      split; [reflexivity|]. split; [now exists e | exact Hreads1]. }
  apply mut_bind_run in H2 as (trm & tr2' & sm & xm & -> & Hm & H2).
  apply model_update_method_run in Hm as (-> & -> & ->). cbn [app].
  assert (Hdict : (exists md, model0 = PyDict md)
                  \/ (tr2' = [] /\ s' = model0 /\ r = Err AttributeError)).
  { destruct model0; try (right; exact H2). left. eauto. }
  destruct Hdict as [[md ->]|(-> & -> & ->)].
  2:{ left. rewrite app_nil_r. split; [reflexivity|]. split; [eauto | exact Hreads1]. }
  cbv beta iota in H2.
  apply mut_bind_run in H2 as (tr2a & tr3 & s2 & x & -> & H2 & H3).
  apply lift_io_run in H2 as [-> H2].
  assert (Hreads2 : forall p req reply meta,
            In (p, req, reply) tr2a -> req <> update_dashboard meta).
  { intros p req reply meta Hin.
    exact (Dashboard_id_reads self _ _ _ _ _ H2 Hin meta). }
  destruct x as [id0|e].
  2:{ destruct H3 as (-> & -> & ->). left. rewrite app_nil_r.
      split; [reflexivity|]. split; [now exists e|].
      intros p req reply meta Hin. apply in_app_or in Hin as [Hin|Hin]; eauto. }
  apply mut_bind_run in H3 as (tr3a & tr4 & s3 & x & -> & H3 & H4).
  unfold model_update in H3.
  destruct (py_update (PyDict md) _) as [m1|e] eqn:Hupd;
    apply exec_Done_inv in H3 as [-> [= -> ->]].
  - right. exists id0, version_new, m1. split; [exact Hupd|].
    assert (Hk : s' = m1 /\ forall p req reply, In (p, req, reply) tr4 -> submits m1 req).
    { revert H4. generalize tr4 s' r.
      change (keeps_model m1
        ((model1 <- model_ref ;;
          folder_obj <- lift_io (Folder.get (d_grafana self) (d_folder self) providers) ;;
          folder_id <- lift_io (Folder.id folder_obj providers) ;;
          lift_io (try_except
                     (c <- client (d_grafana self) providers ;;
                      grafana_call c
                        (update_dashboard
                           (PyDict [ ("dashboard", model1); ("folderId", folder_id);
                                     ("overwrite", PyBool true) ])) ;;
                      ret tt)
                     except_grafana)) m1)).
      repeat keeps_step. }
    destruct Hk as [-> Hk]. split; [reflexivity|].
    intros p req reply Hin. simpl in Hin.
    apply in_app_or in Hin as [Hin|Hin];
      [intros meta ->; exfalso; exact (Hreads1 _ _ _ meta Hin eq_refl)|].
    apply in_app_or in Hin as [Hin|Hin];
      [intros meta ->; exfalso; exact (Hreads2 _ _ _ meta Hin eq_refl)|].
    exact (Hk _ _ _ Hin).
  - destruct H4 as (-> & -> & ->). left. simpl. rewrite app_nil_r.
    split; [reflexivity|]. split; [now exists e|].
    intros p req reply meta Hin. apply in_app_or in Hin as [Hin|Hin]; eauto.
Qed.


End DashboardWrites.

(* ===================================================================== *)
(** ** [Dashboard.update], step by step *)
(* ===================================================================== *)

Section UpdateSteps.
Variables (providers : registry).

Lemma py_add_one_error v e : py_add_one v = Err e -> e = TypeError.
Proof. destruct v; simpl; congruence. Qed.

(** The [try] around [self.version(providers) + 1]. *)
Lemma Dashboard_next_version_run self tr x :
  exec (try_except
          (v <- Dashboard.version self providers ;; lift (py_add_one v))
          (fun e => match e with
                    | TypeError => Some (ret (PyInt 1))
                    | _ => None
                    end)) tr x ->
  match dict_get (d_grafana self) providers with
  | None => tr = [] /\ x = Err (ProviderNotFound (d_grafana self))
  | Some c =>
      exists reply, tr = [(c, get_dashboard (d_uid self), reply)]
                    /\ x = next_version reply
  end.
Proof.
  unfold Dashboard.version, client, next_version.
  destruct (dict_get (d_grafana self) providers) as [c|]; cbn; intros Hx.
  - apply exec_Call_inv in Hx as (reply & tr' & -> & Hx). exists reply.
    destruct reply as [dash|e]; cbn in Hx |- *.
    + destruct (py_getitem dash "dashboard") as [inner|e] eqn:Hi; cbn in Hx |- *.
      * destruct (py_getitem inner "version") as [v|e] eqn:Hv; cbn in Hx |- *.
        -- destruct (py_add_one v) as [n|e] eqn:Hn; cbn in Hx |- *.
           ++ exec_done Hx. split; reflexivity.
           ++ rewrite (py_add_one_error _ _ Hn) in *. cbn in Hx.
              exec_done Hx. split; reflexivity.
        -- destruct (py_getitem_error _ _ _ Hv) as [-> | ->]; cbn in Hx;
             exec_done Hx; split; reflexivity.
      * destruct (py_getitem_error _ _ _ Hi) as [-> | ->]; cbn in Hx;
          exec_done Hx; split; reflexivity.
    + destruct e; cbn in Hx; exec_done Hx; split; reflexivity.
  - exec_done Hx. split; reflexivity.
Qed.

Lemma Dashboard_id_run self tr x :
  exec (Dashboard.id self providers) tr x ->
  match dict_get (d_grafana self) providers with
  | None => tr = [] /\ x = Err (ProviderNotFound (d_grafana self))
  | Some c =>
      exists reply,
        tr = [(c, get_dashboard (d_uid self), reply)]
        /\ x = match reply with
               | Ok dash => inner <- py_getitem dash "dashboard" ;; py_getitem inner "id"
               | Err (RemoteException exc) => Err (fatal exc)
               | Err e => Err e
               end
  end.
Proof.
  unfold Dashboard.id, client.
  destruct (dict_get (d_grafana self) providers) as [c|]; cbn; intros Hx.
  - apply exec_Call_inv in Hx as (reply & tr' & -> & Hx). exists reply.
    destruct reply as [dash|e]; cbn in Hx |- *.
    + destruct (py_getitem dash "dashboard") as [inner|e]; cbn in Hx |- *;
        exec_done Hx; split; reflexivity.
    + destruct e; cbn in Hx; exec_done Hx; split; reflexivity.
  - exec_done Hx. split; reflexivity.
Qed.

Lemma Folder_id_run self tr x :
  exec (Folder.id self providers) tr x ->
  match dict_get (f_grafana self) providers with
  | None => tr = [] /\ x = Err (ProviderNotFound (f_grafana self))
  | Some c =>
      exists reply,
        tr = [(c, get_folder (f_uid self), reply)]
        /\ x = match reply with
               | Ok data => py_getitem data "id"
               | Err (RemoteException exc) => Err (fatal exc)
               | Err e => Err e
               end
  end.
Proof.
  unfold Folder.id, client.
  destruct (dict_get (f_grafana self) providers) as [c|]; cbn; intros Hx.
  - apply exec_Call_inv in Hx as (reply & tr' & -> & Hx). exists reply.
    destruct reply as [data|e]; cbn in Hx |- *.
    + destruct (py_getitem data "id") as [v|e] eqn:Hv; cbn in Hx.
      * exec_done Hx. split; reflexivity.
      * destruct (py_getitem_error _ _ _ Hv) as [-> | ->]; cbn in Hx;
          exec_done Hx; split; reflexivity.
    + destruct e; cbn in Hx; exec_done Hx; split; reflexivity.
  - exec_done Hx. split; reflexivity.
Qed.

(** The guarded [update_dashboard(meta)] that ends [update]. *)
Lemma submit_run grafana meta tr (x : result unit) :
  exec (try_except
          (c <- client grafana providers ;;
           grafana_call c (update_dashboard meta) ;;
           ret tt)
          except_grafana) tr x ->
  match dict_get grafana providers with
  | None => tr = [] /\ x = Err (ProviderNotFound grafana)
  | Some c =>
      exists reply,
        tr = [(c, update_dashboard meta, reply)]
        /\ x = match reply with
               | Ok _ => Ok tt
               | Err (RemoteException exc) => Err (fatal exc)
               | Err e => Err e
               end
  end.
Proof.
  unfold client. destruct (dict_get grafana providers) as [c|]; cbn; intros Hx.
  - apply exec_Call_inv in Hx as (reply & tr' & -> & Hx). exists reply.
    destruct reply as [v|e]; cbn in Hx.
    + exec_done Hx. split; reflexivity.
    + destruct e; cbn in Hx; exec_done Hx; split; reflexivity.
  - exec_done Hx. split; reflexivity.
Qed.


(** *** The same steps, as runs that exist *)

Lemma Dashboard_next_version_exec self c reply :
  dict_get (d_grafana self) providers = Some c ->
  exec (try_except
          (v <- Dashboard.version self providers ;; lift (py_add_one v))
          (fun e => match e with
                    | TypeError => Some (ret (PyInt 1))
                    | _ => None
                    end))
    [(c, get_dashboard (d_uid self), reply)] (next_version reply).
Proof.
  intros Hc. unfold Dashboard.version, client, next_version. rewrite Hc. cbn.
  constructor. destruct reply as [dash|e]; cbn.
  - destruct (py_getitem dash "dashboard") as [inner|e] eqn:Hi; cbn.
    + destruct (py_getitem inner "version") as [v|e] eqn:Hv; cbn.
      * destruct (py_add_one v) as [n|e] eqn:Hn; cbn; [constructor|].
        rewrite (py_add_one_error _ _ Hn). cbn. constructor.
      * destruct (py_getitem_error _ _ _ Hv) as [-> | ->]; cbn; constructor.
    + destruct (py_getitem_error _ _ _ Hi) as [-> | ->]; cbn; constructor.
  - destruct e; cbn; constructor.
Qed.

Lemma Dashboard_id_exec self c reply :
  dict_get (d_grafana self) providers = Some c ->
  exec (Dashboard.id self providers) [(c, get_dashboard (d_uid self), reply)]
    (id_read reply).
Proof.
  intros Hc. unfold Dashboard.id, client, id_read. rewrite Hc. cbn.
  constructor. destruct reply as [dash|e]; cbn.
  - destruct (py_getitem dash "dashboard") as [inner|e]; cbn; constructor.
  - destruct e; cbn; constructor.
Qed.

Lemma Folder_get_exec grafana uid c reply :
  dict_get grafana providers = Some c ->
  exec (Folder.get grafana uid providers) [(c, get_folder uid, reply)]
    match reply with
    | Ok data =>
        match py_getitem data "title" with
        | Ok title => Ok (mkFolder grafana uid (PyDict [("title", title)]))
        | Err e => Err e
        end
    | Err (RemoteException exc) => Err (fatal exc)
    | Err e => Err e
    end.
Proof.
  intros Hc. unfold Folder.get, client. rewrite Hc. cbn.
  constructor. destruct reply as [data|e]; cbn.
  - destruct (py_getitem data "title") as [title|e] eqn:Ht; cbn; [constructor|].
    destruct (py_getitem_error _ _ _ Ht) as [-> | ->]; cbn; constructor.
  - destruct e; cbn; constructor.
Qed.

Lemma Folder_id_exec self c data id0 :
  dict_get (f_grafana self) providers = Some c ->
  py_getitem data "id" = Ok id0 ->
  exec (Folder.id self providers) [(c, get_folder (f_uid self), Ok data)] (Ok id0).
Proof.
  intros Hc Hid. unfold Folder.id, client. rewrite Hc. cbn.
  constructor. cbn. rewrite Hid. cbn. constructor.
Qed.

Lemma submit_exec grafana c meta v :
  dict_get grafana providers = Some c ->
  exec (try_except
          (c <- client grafana providers ;;
           grafana_call c (update_dashboard meta) ;;
           ret tt)
          except_grafana)
    [(c, update_dashboard meta, Ok v)] (Ok tt).
Proof.
  intros Hc. unfold client. rewrite Hc. cbn. constructor. cbn. constructor.
Qed.

End UpdateSteps.

(** A run that is over with an exception did not return. *)
Ltac dead Hx :=
  cbn [bind Monad_result result_bind] in Hx; simpl in Hx;
  destruct Hx as (_ & _ & Hx); discriminate Hx.


Section UpdateRuns.
Variables (providers : registry).

Lemma Dashboard_update_ok self model0 tr s' c :
  dict_get (d_grafana self) providers = Some c ->
  exec (Dashboard.update self providers model0) tr (s', Ok tt) ->
  exists reply1 version_new dash2 inner2 id0 f1 title f2 folder_id reply5,
    tr = [ (c, get_dashboard (d_uid self), reply1);
           (c, get_dashboard (d_uid self), Ok dash2);
           (c, get_folder (d_folder self), Ok f1);
           (c, get_folder (d_folder self), Ok f2);
           (c, update_dashboard
                 (PyDict [ ("dashboard", s'); ("folderId", folder_id);
                           ("overwrite", PyBool true) ]), Ok reply5) ]
    /\ next_version reply1 = Ok version_new
    /\ py_getitem dash2 "dashboard" = Ok inner2
    /\ py_getitem inner2 "id" = Ok id0
    /\ py_update model0 [("id", id0); ("uid", d_uid self); ("version", version_new)]
       = Ok s'
    /\ py_getitem f1 "title" = Ok title
    /\ py_getitem f2 "id" = Ok folder_id.
Proof.
  intros Hc Hx. unfold Dashboard.update in Hx.
  apply mut_bind_run in Hx as (tr1 & tr2 & s1 & x1 & -> & H1 & Hx).
  apply lift_io_run in H1 as [-> H1].
  apply Dashboard_next_version_run in H1. rewrite Hc in H1.
  destruct H1 as (reply1 & -> & ->).
  destruct (next_version reply1) as [version_new|] eqn:Hv;
    [|dead Hx].
  apply mut_bind_run in Hx as (trm & tr2' & sm & xm & -> & Hm & Hx).
  apply model_update_method_run in Hm as (-> & -> & ->).
  destruct model0 as [| | | | | |md]; try dead Hx.
  cbv beta iota in Hx.
  apply mut_bind_run in Hx as (tr1 & tr3 & s1 & x2 & -> & H2 & Hx).
  apply lift_io_run in H2 as [-> H2].
  apply Dashboard_id_run in H2. rewrite Hc in H2.
  destruct H2 as (reply2 & -> & ->).
  destruct reply2 as [dash2|e2];
    [|destruct e2; dead Hx].
  cbn [bind Monad_result result_bind] in Hx.
  destruct (py_getitem dash2 "dashboard") as [inner2|] eqn:Hi;
    [|dead Hx].
  cbn [bind Monad_result result_bind] in Hx.
  destruct (py_getitem inner2 "id") as [id0|] eqn:Hid;
    [|dead Hx].
  apply mut_bind_run in Hx as (tr1 & tr4 & s1 & x3 & -> & H3 & Hx).
  unfold model_update in H3.
  destruct (py_update (PyDict md) _) as [m1|] eqn:Hupd;
    apply exec_Done_inv in H3 as [-> [= -> ->]];
    [|dead Hx].
  apply mut_bind_run in Hx as (tr1 & tr5 & s1 & x4 & -> & H4 & Hx).
  unfold model_ref in H4. apply exec_Done_inv in H4 as [-> [= -> ->]].
  apply mut_bind_run in Hx as (tr1 & tr6 & s1 & x5 & -> & H5 & Hx).
  apply lift_io_run in H5 as [-> H5].
  apply Folder_get_run in H5. rewrite Hc in H5.
  destruct H5 as (reply3 & -> & ->).
  destruct reply3 as [f1|e3];
    [|destruct e3; dead Hx].
  destruct (py_getitem f1 "title") as [title|] eqn:Ht;
    [|dead Hx].
  apply mut_bind_run in Hx as (tr1 & tr7 & s1 & x6 & -> & H6 & Hx).
  apply lift_io_run in H6 as [-> H6].
  apply Folder_id_run in H6. cbn [f_grafana f_uid] in H6. rewrite Hc in H6.
  destruct H6 as (reply4 & -> & ->).
  destruct reply4 as [f2|e4];
    [|destruct e4; dead Hx].
  destruct (py_getitem f2 "id") as [folder_id|] eqn:Hfid;
    [|dead Hx].
  apply lift_io_run in Hx as [-> Hx].
  apply submit_run in Hx. rewrite Hc in Hx.
  destruct Hx as (reply5 & -> & Hr).
  destruct reply5 as [v5|e5]; [|destruct e5; discriminate Hr].
  exists reply1, version_new, dash2, inner2, id0, f1, title, f2, folder_id, v5.
  repeat split; assumption.
Qed.


(** Every run of [update] on a registered provider, up to the point where
    the caller's model is written: the version is read, the method
    [update] looked up on the model, the id read. *)
Lemma Dashboard_update_runs self model0 c tr s' r :
  dict_get (d_grafana self) providers = Some c ->
  exec (Dashboard.update self providers model0) tr (s', r) ->
  exists reply1 tr1,
    tr = (c, get_dashboard (d_uid self), reply1) :: tr1
    /\ match next_version reply1 with
       | Err e => tr1 = [] /\ s' = model0 /\ r = Err e
       | Ok version_new =>
           match model0 with
           | PyDict md =>
               exists reply2 tr2,
                 tr1 = (c, get_dashboard (d_uid self), reply2) :: tr2
                 /\ match id_read reply2 with
                    | Err e => tr2 = [] /\ s' = model0 /\ r = Err e
                    | Ok id0 =>
                        s' = PyDict (dict_update md
                                       [("id", id0); ("uid", d_uid self);
                                        ("version", version_new)])
                        /\ forall p req reply, In (p, req, reply) tr2 -> submits s' req
                    end
           | _ => tr1 = [] /\ s' = model0 /\ r = Err AttributeError
           end
       end.
Proof.
  intros Hc Hx. unfold Dashboard.update in Hx.
  apply mut_bind_run in Hx as (tr1 & tr2 & s1 & x1 & -> & H1 & Hx).
  apply lift_io_run in H1 as [-> H1].
  apply Dashboard_next_version_run in H1. rewrite Hc in H1.
  destruct H1 as (reply1 & -> & ->).
  exists reply1, tr2. split; [reflexivity|].
  destruct (next_version reply1) as [version_new|e]; [|exact Hx].
  apply mut_bind_run in Hx as (trm & tr3 & sm & xm & -> & Hm & Hx).
  apply model_update_method_run in Hm as (-> & -> & ->). cbn [app].
  destruct model0 as [| | | | | |md]; try exact Hx.
  cbv beta iota in Hx.
  apply mut_bind_run in Hx as (tr2a & tr4 & s2 & x2 & -> & H2 & Hx).
  apply lift_io_run in H2 as [-> H2].
  apply Dashboard_id_run in H2. rewrite Hc in H2.
  destruct H2 as (reply2 & -> & ->).
  exists reply2, tr4. split; [reflexivity|].
  change (match reply2 with
          | Ok dash => inner <- py_getitem dash "dashboard" ;; py_getitem inner "id"
          | Err (RemoteException exc) => Err (fatal exc)
          | Err e => Err e
          end) with (id_read reply2) in Hx.
  destruct (id_read reply2) as [id0|e]; [|exact Hx].
  apply mut_bind_run in Hx as (tr3a & tr5 & s3 & x3 & -> & H3 & Hx).
  unfold model_update in H3. cbn [py_update] in H3.
  apply exec_Done_inv in H3 as [-> [= -> ->]]. cbn [app].
  set (m1 := PyDict (dict_update md
                       [("id", id0); ("uid", d_uid self); ("version", version_new)]))
    in *.
  assert (Hk : keeps_model m1
    ((model1 <- model_ref ;;
      folder_obj <- lift_io (Folder.get (d_grafana self) (d_folder self) providers) ;;
      folder_id <- lift_io (Folder.id folder_obj providers) ;;
      lift_io (try_except
                 (c <- client (d_grafana self) providers ;;
                  grafana_call c
                    (update_dashboard
                       (PyDict [ ("dashboard", model1); ("folderId", folder_id);
                                 ("overwrite", PyBool true) ])) ;;
                  ret tt)
                 except_grafana)) m1)) by (repeat keeps_step).
  destruct (Hk _ _ _ Hx) as [-> Hsub]. split; [reflexivity | exact Hsub].
Qed.

(** Runs put end to end. *)
Lemma mut_bind_exec {A B} (m : mut A) (f : A -> mut B) (s s1 : pyval) (x : result A)
    tr1 tr2 (out : pyval * result B) :
  exec (m s) tr1 (s1, x) ->
  match x with
  | Ok a => exec (f a s1) tr2 out
  | Err e => tr2 = [] /\ out = (s1, Err e)
  end ->
  exec (bind m f s) (tr1 ++ tr2) out.
Proof.
  intros H1 H2. cbn [bind Monad_mut]. unfold mut_bind. apply exec_bind.
  exists tr1, tr2, (s1, x). split; [reflexivity|]. split; [assumption|]. simpl.
  destruct x as [a|e]; [assumption|]. destruct H2 as [-> ->]. constructor.
Qed.

(** An [update] whose first read gives no version ends there. *)
Lemma Dashboard_update_stops_exec self model0 c reply1 e :
  dict_get (d_grafana self) providers = Some c ->
  next_version reply1 = Err e ->
  exec (Dashboard.update self providers model0)
    [(c, get_dashboard (d_uid self), reply1)] (model0, Err e).
Proof.
  intros Hc Hv. unfold Dashboard.update.
  refine (mut_bind_exec _ _ model0 model0 (Err e)
            [(c, get_dashboard (d_uid self), reply1)] [] _ _ _).
  - apply lift_io_run. split; [reflexivity|]. rewrite <- Hv.
    now apply Dashboard_next_version_exec.
  - now split.
Qed.

(** An [update] that has read the version and the id has written the
    caller's model, also when the folder cannot be read. *)
Lemma Dashboard_update_written_exec self md c reply1 version_new reply2 id0 exc :
  dict_get (d_grafana self) providers = Some c ->
  next_version reply1 = Ok version_new ->
  id_read reply2 = Ok id0 ->
  exec (Dashboard.update self providers (PyDict md))
    [ (c, get_dashboard (d_uid self), reply1);
      (c, get_dashboard (d_uid self), reply2);
      (c, get_folder (d_folder self), Err (RemoteException exc)) ]
    (PyDict (dict_update md [("id", id0); ("uid", d_uid self); ("version", version_new)]),
     Err (fatal exc)).
Proof.
  intros Hc Hv Hid. unfold Dashboard.update.
  set (m1 := PyDict (dict_update md
                       [("id", id0); ("uid", d_uid self); ("version", version_new)])).
  refine (mut_bind_exec _ _ _ (PyDict md) (Ok version_new)
            [(c, get_dashboard (d_uid self), reply1)] _ _ _ _).
  { apply lift_io_run. split; [reflexivity|]. rewrite <- Hv.
    now apply Dashboard_next_version_exec. }
  refine (mut_bind_exec _ _ _ (PyDict md) (Ok tt) [] _ _ _ _); [constructor|].
  refine (mut_bind_exec _ _ _ (PyDict md) (Ok id0)
            [(c, get_dashboard (d_uid self), reply2)] _ _ _ _).
  { apply lift_io_run. split; [reflexivity|]. rewrite <- Hid.
    now apply Dashboard_id_exec. }
  refine (mut_bind_exec _ _ _ m1 (Ok tt) [] _ _ _ _); [constructor|].
  refine (mut_bind_exec _ _ _ m1 (Ok m1) [] _ _ _ _); [constructor|].
  refine (mut_bind_exec _ _ _ m1 (Err (fatal exc))
            [(c, get_folder (d_folder self), Err (RemoteException exc))] [] _ _ _).
  - apply lift_io_run. split; [reflexivity|].
    exact (Folder_get_exec providers (d_grafana self) (d_folder self) c
             (Err (RemoteException exc)) Hc).
  - now split.
Qed.

(** An [update] whose five calls are accepted returns. *)
Lemma Dashboard_update_returns_exec
    self md c reply1 version_new reply2 id0 f1 title f2 folder_id reply5 :
  dict_get (d_grafana self) providers = Some c ->
  next_version reply1 = Ok version_new ->
  id_read reply2 = Ok id0 ->
  py_getitem f1 "title" = Ok title ->
  py_getitem f2 "id" = Ok folder_id ->
  exec (Dashboard.update self providers (PyDict md))
    [ (c, get_dashboard (d_uid self), reply1);
      (c, get_dashboard (d_uid self), reply2);
      (c, get_folder (d_folder self), Ok f1);
      (c, get_folder (d_folder self), Ok f2);
      (c, update_dashboard
            (PyDict [ ("dashboard",
                       PyDict (dict_update md [("id", id0); ("uid", d_uid self);
                                               ("version", version_new)]));
                      ("folderId", folder_id); ("overwrite", PyBool true) ]),
       Ok reply5) ]
    (PyDict (dict_update md [("id", id0); ("uid", d_uid self); ("version", version_new)]),
     Ok tt).
Proof.
  intros Hc Hv Hid Ht Hfid. unfold Dashboard.update.
  set (m1 := PyDict (dict_update md
                       [("id", id0); ("uid", d_uid self); ("version", version_new)])).
  refine (mut_bind_exec _ _ _ (PyDict md) (Ok version_new)
            [(c, get_dashboard (d_uid self), reply1)] _ _ _ _).
  { apply lift_io_run. split; [reflexivity|]. rewrite <- Hv.
    now apply Dashboard_next_version_exec. }
  refine (mut_bind_exec _ _ _ (PyDict md) (Ok tt) [] _ _ _ _); [constructor|].
  refine (mut_bind_exec _ _ _ (PyDict md) (Ok id0)
            [(c, get_dashboard (d_uid self), reply2)] _ _ _ _).
  { apply lift_io_run. split; [reflexivity|]. rewrite <- Hid.
    now apply Dashboard_id_exec. }
  refine (mut_bind_exec _ _ _ m1 (Ok tt) [] _ _ _ _); [constructor|].
  refine (mut_bind_exec _ _ _ m1 (Ok m1) [] _ _ _ _); [constructor|].
  refine (mut_bind_exec _ _ _ m1
            (Ok (mkFolder (d_grafana self) (d_folder self) (PyDict [("title", title)])))
            [(c, get_folder (d_folder self), Ok f1)] _ _ _ _).
  { apply lift_io_run. split; [reflexivity|].
    pose proof (Folder_get_exec providers (d_grafana self) (d_folder self) c (Ok f1) Hc)
      as Hg.
    cbv beta iota in Hg. rewrite Ht in Hg. exact Hg. }
  refine (mut_bind_exec _ _ _ m1 (Ok folder_id)
            [(c, get_folder (d_folder self), Ok f2)] _ _ _ _).
  { apply lift_io_run. split; [reflexivity|].
    exact (Folder_id_exec providers
             (mkFolder (d_grafana self) (d_folder self) (PyDict [("title", title)]))
             c f2 folder_id Hc Hfid). }
  apply lift_io_run. split; [reflexivity|].
  now apply submit_exec.
Qed.

End UpdateRuns.

Lemma py_updated_keys md k1 v1 k2 v2 k3 v3 :
  NoDup [k1; k2; k3] ->
  let s' := PyDict (dict_update md [(k1, v1); (k2, v2); (k3, v3)]) in
  py_getitem s' k1 = Ok v1 /\ py_getitem s' k2 = Ok v2 /\ py_getitem s' k3 = Ok v3
  /\ forall k, ~ In k [k1; k2; k3] -> py_getitem s' k = py_getitem (PyDict md) k.
Proof.
  intros Hnd s'. subst s'. unfold py_getitem.
  assert (Hget : forall k, dict_get k (dict_update md [(k1, v1); (k2, v2); (k3, v3)])
                 = match dict_get k [(k1, v1); (k2, v2); (k3, v3)] with
                   | Some v => Some v
                   | None => dict_get k md
                   end) by (intros k; now apply dict_get_update).
  inversion Hnd as [|? ? N1 Hnd']; subst. inversion Hnd' as [|? ? N2 Hnd'']; subst.
  simpl in N1, N2.
  assert (E12 : String.eqb k1 k2 = false) by (apply String.eqb_neq; intuition congruence).
  assert (E13 : String.eqb k1 k3 = false) by (apply String.eqb_neq; intuition congruence).
  assert (E23 : String.eqb k2 k3 = false) by (apply String.eqb_neq; intuition congruence).
  repeat split.
  - rewrite Hget. simpl. now rewrite String.eqb_refl.
  - rewrite Hget. simpl. now rewrite E12, String.eqb_refl.
  - rewrite Hget. simpl. now rewrite E13, E23, String.eqb_refl.
  - intros k Hk. simpl in Hk. rewrite Hget. simpl.
    destruct (String.eqb_spec k1 k) as [E|_]; [exfalso; intuition congruence|].
    destruct (String.eqb_spec k2 k) as [E|_]; [exfalso; intuition congruence|].
    destruct (String.eqb_spec k3 k) as [E|_]; [exfalso; intuition congruence|].
    reflexivity.
Qed.

Lemma py_update_dict model0 other s1 :
  py_update model0 other = Ok s1 ->
  exists md, model0 = PyDict md /\ s1 = PyDict (dict_update md other).
Proof. destruct model0; simpl; try discriminate. intros [= <-]. now exists d. Qed.

(** C8 (amended). [Dashboard.update] first reads the remote version and
    adds one to it: the version it writes is the remote version plus one,
    and 1 when the remote version is null, a string, a list or a mapping
    (whatever makes [version + 1] a [TypeError]); a reply whose dashboard
    has no [version] key makes [update] raise [KeyError] there, with
    nothing written. A call that returns has read the dashboard twice (its
    version, its id), the folder twice (the object, its numeric id) and
    then submitted, with [overwrite] set, the caller's model with [id],
    [uid] and [version] set on it and the folder's numeric id as
    [folderId]; such a call there is whenever the five replies come.
    Every remote failure ends [update] with a fatal error. *)
Theorem dashboard_update_writes_next_version
    (providers : registry) (self : DashboardResource) (c : provider) :
  dict_get (d_grafana self) providers = Some c ->
  (forall model0 tr s',
     exec (Dashboard.update self providers model0) tr (s', Ok tt) ->
     exists reply1 version_new dash2 inner2 id0 f1 f2 folder_id reply5 md meta,
       tr = [ (c, get_dashboard (d_uid self), reply1);
              (c, get_dashboard (d_uid self), Ok dash2);
              (c, get_folder (d_folder self), Ok f1);
              (c, get_folder (d_folder self), Ok f2);
              (c, update_dashboard meta, Ok reply5) ]
       /\ next_version reply1 = Ok version_new
       /\ py_getitem dash2 "dashboard" = Ok inner2
       /\ py_getitem inner2 "id" = Ok id0
       /\ model0 = PyDict md
       /\ s' = PyDict (dict_update md
                         [("id", id0); ("uid", d_uid self); ("version", version_new)])
       /\ py_getitem s' "id" = Ok id0
       /\ py_getitem s' "uid" = Ok (d_uid self)
       /\ py_getitem s' "version" = Ok version_new
       /\ py_getitem f2 "id" = Ok folder_id
       /\ meta = PyDict [ ("dashboard", s'); ("folderId", folder_id);
                          ("overwrite", PyBool true) ])
  /\ (forall model0 tr s' r,
        exec (Dashboard.update self providers model0) tr (s', r) ->
        exists reply1 tr1,
          tr = (c, get_dashboard (d_uid self), reply1) :: tr1
          /\ (forall e, next_version reply1 = Err e ->
                tr1 = [] /\ s' = model0 /\ r = Err e)
          /\ (forall p meta reply,
                In (p, update_dashboard meta, reply) tr ->
                exists version_new,
                  next_version reply1 = Ok version_new
                  /\ py_getitem meta "dashboard" = Ok s'
                  /\ py_getitem s' "version" = Ok version_new))
  /\ (forall md dash inner v dash2 inner2 id0 f1 title f2 folder_id reply5,
        py_getitem dash "dashboard" = Ok inner ->
        py_getitem inner "version" = Ok v ->
        py_getitem dash2 "dashboard" = Ok inner2 ->
        py_getitem inner2 "id" = Ok id0 ->
        py_getitem f1 "title" = Ok title ->
        py_getitem f2 "id" = Ok folder_id ->
        exists version_new s',
          version_new = match v with
                        | PyInt n => PyInt (n + 1)
                        | PyBool b => PyInt ((if b then 1 else 0) + 1)
                        | PyFloat f => PyFloat (SFadd 53 1024 f (SFone 53 1024))
                        | PyNone | PyStr _ | PyList _ | PyDict _ => PyInt 1
                        end
          /\ s' = PyDict (dict_update md
                            [("id", id0); ("uid", d_uid self); ("version", version_new)])
          /\ exec (Dashboard.update self providers (PyDict md))
               [ (c, get_dashboard (d_uid self), Ok dash);
                 (c, get_dashboard (d_uid self), Ok dash2);
                 (c, get_folder (d_folder self), Ok f1);
                 (c, get_folder (d_folder self), Ok f2);
                 (c, update_dashboard
                       (PyDict [ ("dashboard", s'); ("folderId", folder_id);
                                 ("overwrite", PyBool true) ]), Ok reply5) ]
               (s', Ok tt))
  /\ (forall model0 dash inner,
        py_getitem dash "dashboard" = Ok (PyDict inner) ->
        dict_get "version" inner = None ->
        exec (Dashboard.update self providers model0)
          [(c, get_dashboard (d_uid self), Ok dash)] (model0, Err (KeyError "version"))
        /\ forall tr s' r,
             exec (Dashboard.update self providers model0)
               ((c, get_dashboard (d_uid self), Ok dash) :: tr) (s', r) ->
             tr = [] /\ s' = model0 /\ r = Err (KeyError "version"))
  /\ (forall dash inner v,
        py_getitem dash "dashboard" = Ok inner ->
        py_getitem inner "version" = Ok v ->
        next_version (Ok dash)
          = match v with
            | PyInt n => Ok (PyInt (n + 1))
            | PyBool b => Ok (PyInt ((if b then 1 else 0) + 1))
            | PyFloat f => Ok (PyFloat (SFadd 53 1024 f (SFone 53 1024)))
            | PyNone | PyStr _ | PyList _ | PyDict _ => Ok (PyInt 1)
            end)
  /\ (forall dash inner,
        py_getitem dash "dashboard" = Ok (PyDict inner) ->
        dict_get "version" inner = None ->
        next_version (Ok dash) = Err (KeyError "version"))
  /\ (forall model0, surfaces_mut (Dashboard.update self providers model0)).
Proof.
  intros Hc.
  assert (Hnext : forall dash inner v,
            py_getitem dash "dashboard" = Ok inner ->
            py_getitem inner "version" = Ok v ->
            next_version (Ok dash)
              = match v with
                | PyInt n => Ok (PyInt (n + 1))
                | PyBool b => Ok (PyInt ((if b then 1 else 0) + 1))
                | PyFloat f => Ok (PyFloat (SFadd 53 1024 f (SFone 53 1024)))
                | PyNone | PyStr _ | PyList _ | PyDict _ => Ok (PyInt 1)
                end).
  { intros dash inner v Hi Hv. unfold next_version.
    cbn [bind Monad_result result_bind]. rewrite Hi.
    cbn [bind Monad_result result_bind]. rewrite Hv.
    destruct v as [|[|]| | | | |]; reflexivity. }
  assert (Hmissing : forall dash inner,
            py_getitem dash "dashboard" = Ok (PyDict inner) ->
            dict_get "version" inner = None ->
            next_version (Ok dash) = Err (KeyError "version")).
  { intros dash inner Hi Hv. unfold next_version.
    cbn [bind Monad_result result_bind]. rewrite Hi. simpl. rewrite Hv. reflexivity. }
  repeat match goal with |- _ /\ _ => split end.
  - intros model0 tr s' Hx.
    apply (Dashboard_update_ok providers self model0 tr s' c Hc) in Hx
      as (reply1 & version_new & dash2 & inner2 & id0 & f1 & title & f2 & folder_id
          & reply5 & -> & Hv & Hi & Hid & Hupd & Ht & Hfid).
    apply py_update_dict in Hupd as (md & -> & ->).
    destruct (py_updated_keys md "id" id0 "uid" (d_uid self) "version" version_new)
      as (K1 & K2 & K3 & _); [nodup_keys|].
    exists reply1, version_new, dash2, inner2, id0, f1, f2, folder_id, reply5, md.
    eexists. repeat split; try eassumption; reflexivity.
  - intros model0 tr s' r Hx.
    apply (Dashboard_update_runs providers self model0 c tr s' r Hc) in Hx
      as (reply1 & tr1 & -> & Hrun).
    exists reply1, tr1. split; [reflexivity|]. split.
    + intros e He. rewrite He in Hrun. exact Hrun.
    + intros p meta reply [[=]|Hin].
      destruct (next_version reply1) as [version_new|e];
        [|destruct Hrun as (-> & _); destruct Hin].
      destruct model0 as [| | | | | |md];
        try (destruct Hrun as (-> & _); destruct Hin).
      destruct Hrun as (reply2 & tr2 & -> & Hrun).
      destruct Hin as [[=]|Hin].
      destruct (id_read reply2) as [id0|e];
        [|destruct Hrun as (-> & _); destruct Hin].
      destruct Hrun as (-> & Hsub).
      exists version_new. split; [reflexivity|]. split.
      * exact (Hsub _ _ _ Hin meta eq_refl).
      * destruct (py_updated_keys md "id" id0 "uid" (d_uid self) "version" version_new)
          as (_ & _ & K3 & _); [nodup_keys | exact K3].
  - intros md dash inner v dash2 inner2 id0 f1 title f2 folder_id reply5
      Hi Hv Hi2 Hid Ht Hfid.
    assert (Hn := Hnext dash inner v Hi Hv).
    eexists. eexists. split; [reflexivity|]. split; [reflexivity|].
    apply (Dashboard_update_returns_exec providers self md c (Ok dash) _ (Ok dash2) id0
             f1 title f2 folder_id reply5 Hc); try assumption.
    + rewrite Hn. destruct v; reflexivity.
    + unfold id_read. cbn [bind Monad_result result_bind]. rewrite Hi2.
      cbn [result_bind]. exact Hid.
  - intros model0 dash inner Hi Hv. split.
    + apply Dashboard_update_stops_exec; [assumption | now apply (Hmissing dash inner)].
    + intros tr s' r Hx.
      apply (Dashboard_update_runs providers self model0 c _ s' r Hc) in Hx
        as (reply1 & tr1 & [= <- <-] & Hrun).
      rewrite (Hmissing dash inner) in Hrun by assumption. exact Hrun.
  - exact Hnext.
  - exact Hmissing.
  - intros model0. apply Dashboard_update_surfaces.
Qed.

(** The theorem at the fixture dashboard when the remote reports a null
    version, and when it reports version 3. *)
Lemma dashboard_update_writes_next_version_witness :
  exec (Dashboard.update board one_grafana board_model)
    [ (7%nat, get_dashboard board_uid, Ok (board_reply board_remote_null));
      (7%nat, get_dashboard board_uid, Ok (board_reply board_remote_null));
      (7%nat, get_folder team_a_uid, Ok team_a_folder_reply);
      (7%nat, get_folder team_a_uid, Ok team_a_folder_reply);
      (7%nat, update_dashboard
         (PyDict [ ("dashboard",
                    PyDict [ ("title", PyStr "Board"); ("id", PyInt 5);
                             ("uid", board_uid); ("version", PyInt 1) ]);
                   ("folderId", PyInt 12); ("overwrite", PyBool true) ]),
       Ok write_accepted) ]
    (PyDict [ ("title", PyStr "Board"); ("id", PyInt 5);
              ("uid", board_uid); ("version", PyInt 1) ], Ok tt)
  /\ exec (Dashboard.update board one_grafana board_model)
       [ (7%nat, get_dashboard board_uid, Ok (board_reply board_remote));
         (7%nat, get_dashboard board_uid, Ok (board_reply board_remote));
         (7%nat, get_folder team_a_uid, Ok team_a_folder_reply);
         (7%nat, get_folder team_a_uid, Ok team_a_folder_reply);
         (7%nat, update_dashboard
            (PyDict [ ("dashboard",
                       PyDict [ ("title", PyStr "Board"); ("id", PyInt 5);
                                ("uid", board_uid); ("version", PyInt 4) ]);
                      ("folderId", PyInt 12); ("overwrite", PyBool true) ]),
          Ok write_accepted) ]
       (PyDict [ ("title", PyStr "Board"); ("id", PyInt 5);
                 ("uid", board_uid); ("version", PyInt 4) ], Ok tt)
  /\ exec (Dashboard.update board one_grafana board_model)
       [(7%nat, get_dashboard board_uid, Ok (board_reply board_remote_unversioned))]
       (board_model, Err (KeyError "version")).
Proof.
  destruct (dashboard_update_writes_next_version one_grafana board 7%nat eq_refl)
    as (_ & _ & Hruns & Hmissing & _).
  split; [|split].
  - destruct (Hruns [("title", PyStr "Board")] (board_reply board_remote_null)
                (PyDict board_remote_null) PyNone (board_reply board_remote_null)
                (PyDict board_remote_null) (PyInt 5) team_a_folder_reply (PyStr "Team A")
                team_a_folder_reply (PyInt 12) write_accepted
                eq_refl eq_refl eq_refl eq_refl eq_refl eq_refl)
      as (version_new & s' & -> & -> & Hx).
    exact Hx.
  - destruct (Hruns [("title", PyStr "Board")] (board_reply board_remote)
                (PyDict board_remote) (PyInt 3) (board_reply board_remote)
                (PyDict board_remote) (PyInt 5) team_a_folder_reply (PyStr "Team A")
                team_a_folder_reply (PyInt 12) write_accepted
                eq_refl eq_refl eq_refl eq_refl eq_refl eq_refl)
      as (version_new & s' & -> & -> & Hx).
    exact Hx.
  - exact (proj1 (Hmissing board_model (board_reply board_remote_unversioned)
                    board_remote_unversioned eq_refl eq_refl)).
Defined.

(** C8 as stated fails on a missing version: a dashboard that the remote
    reports without [version] is not written with version 1; [update] ends
    with [KeyError] after its first read. *)
Lemma dashboard_update_raises_on_missing_version :
  ~ (forall self providers model0 c dash inner tr out,
       dict_get (d_grafana self) providers = Some c ->
       py_getitem dash "dashboard" = Ok (PyDict inner) ->
       dict_get "version" inner = None ->
       exec (Dashboard.update self providers model0)
         ((c, get_dashboard (d_uid self), Ok dash) :: tr) out ->
       snd out <> Err (KeyError "version")).
Proof.
  intros Hclaim.
  refine (Hclaim board one_grafana board_model 7%nat
            (board_reply board_remote_unversioned) board_remote_unversioned []
            (board_model, Err (KeyError "version")) eq_refl eq_refl eq_refl _ eq_refl).
  apply (play_exec _ [Ok (board_reply board_remote_unversioned)]). reflexivity.
Qed.

(* ===================================================================== *)
(** ** The caller's model after [create] and [update] *)
(* ===================================================================== *)

(** C10 (amended). [Dashboard.create] sets [id] (to [None]), [uid] and
    [version] (to 1) on the dict its caller passed, first thing, so the
    dict carries them however the call ends. [Dashboard.update] sets [id],
    [uid] and [version] on it once it has read the version and the id: the
    dict carries them whenever the call returns or has submitted anything,
    and also when the call fails later, at a read of the folder; a call
    that fails at the read of the version or of the id leaves the dict as it
    was. Other keys are left alone, and the body submitted is that same
    dict. *)
Theorem dashboard_writes_mutate_callers_model (providers : registry) :
  (forall grafana uid folder md tr s' r,
     exec (Dashboard.create grafana uid folder providers (PyDict md)) tr (s', r) ->
     s' = PyDict (dict_update md [("id", PyNone); ("uid", uid); ("version", PyInt 1)])
     /\ py_getitem s' "id" = Ok PyNone
     /\ py_getitem s' "uid" = Ok uid
     /\ py_getitem s' "version" = Ok (PyInt 1)
     /\ (forall k, ~ In k IGNORED_KEYS -> py_getitem s' k = py_getitem (PyDict md) k)
     /\ (forall p meta reply,
           In (p, update_dashboard meta, reply) tr -> py_getitem meta "dashboard" = Ok s'))
  /\ (forall self md tr s' r,
        exec (Dashboard.update self providers (PyDict md)) tr (s', r) ->
        r = Ok tt \/ (exists p meta reply, In (p, update_dashboard meta, reply) tr) ->
        exists id0 version_new,
          s' = PyDict (dict_update md
                         [("id", id0); ("uid", d_uid self); ("version", version_new)])
          /\ py_getitem s' "id" = Ok id0
          /\ py_getitem s' "uid" = Ok (d_uid self)
          /\ py_getitem s' "version" = Ok version_new
          /\ (forall k, ~ In k IGNORED_KEYS -> py_getitem s' k = py_getitem (PyDict md) k)
          /\ (forall p meta reply,
                In (p, update_dashboard meta, reply) tr ->
                py_getitem meta "dashboard" = Ok s'))
  /\ (forall self c md tr s' r,
        dict_get (d_grafana self) providers = Some c ->
        exec (Dashboard.update self providers (PyDict md)) tr (s', r) ->
        exists reply1 tr1,
          tr = (c, get_dashboard (d_uid self), reply1) :: tr1
          /\ match next_version reply1 with
             | Err e => tr1 = [] /\ s' = PyDict md /\ r = Err e
             | Ok version_new =>
                 exists reply2 tr2,
                   tr1 = (c, get_dashboard (d_uid self), reply2) :: tr2
                   /\ match id_read reply2 with
                      | Err e => tr2 = [] /\ s' = PyDict md /\ r = Err e
                      | Ok id0 =>
                          s' = PyDict (dict_update md
                                         [("id", id0); ("uid", d_uid self);
                                          ("version", version_new)])
                          /\ py_getitem s' "id" = Ok id0
                          /\ py_getitem s' "uid" = Ok (d_uid self)
                          /\ py_getitem s' "version" = Ok version_new
                      end
             end)
  /\ (forall self c md reply1 version_new reply2 id0 f1 title f2 folder_id reply5,
        dict_get (d_grafana self) providers = Some c ->
        next_version reply1 = Ok version_new ->
        id_read reply2 = Ok id0 ->
        py_getitem f1 "title" = Ok title ->
        py_getitem f2 "id" = Ok folder_id ->
        exec (Dashboard.update self providers (PyDict md))
          [ (c, get_dashboard (d_uid self), reply1);
            (c, get_dashboard (d_uid self), reply2);
            (c, get_folder (d_folder self), Ok f1);
            (c, get_folder (d_folder self), Ok f2);
            (c, update_dashboard
                  (PyDict [ ("dashboard",
                             PyDict (dict_update md [("id", id0); ("uid", d_uid self);
                                                     ("version", version_new)]));
                            ("folderId", folder_id); ("overwrite", PyBool true) ]),
             Ok reply5) ]
          (PyDict (dict_update md
                     [("id", id0); ("uid", d_uid self); ("version", version_new)]),
           Ok tt))
  /\ (forall self c md reply1 version_new reply2 id0 exc,
        dict_get (d_grafana self) providers = Some c ->
        next_version reply1 = Ok version_new ->
        id_read reply2 = Ok id0 ->
        exec (Dashboard.update self providers (PyDict md))
          [ (c, get_dashboard (d_uid self), reply1);
            (c, get_dashboard (d_uid self), reply2);
            (c, get_folder (d_folder self), Err (RemoteException exc)) ]
          (PyDict (dict_update md
                     [("id", id0); ("uid", d_uid self); ("version", version_new)]),
           Err (GrafanaError (message exc))))
  /\ (forall self c md reply1 e,
        dict_get (d_grafana self) providers = Some c ->
        next_version reply1 = Err e ->
        exec (Dashboard.update self providers (PyDict md))
          [(c, get_dashboard (d_uid self), reply1)] (PyDict md, Err e)).
Proof.
  repeat match goal with |- _ /\ _ => split end.
  - intros grafana uid folder md tr s' r Hx.
    apply Dashboard_create_run in Hx. simpl in Hx. destruct Hx as [-> Hsub].
    destruct (py_updated_keys md "id" PyNone "uid" uid "version" (PyInt 1))
      as (K1 & K2 & K3 & K4); [nodup_keys|].
    repeat split; try assumption.
    intros p meta reply Hin. exact (Hsub _ _ _ Hin meta eq_refl).
  - intros self md tr s' r Hx Hdone.
    apply Dashboard_update_run in Hx as [(-> & [e ->] & Hreads)|Hx].
    + exfalso. destruct Hdone as [[=]|(p & meta & reply & Hin)].
      exact (Hreads _ _ _ meta Hin eq_refl).
    + destruct Hx as (id0 & version_new & s1 & Hupd & -> & Hsub).
      simpl in Hupd. injection Hupd as <-.
      destruct (py_updated_keys md "id" id0 "uid" (d_uid self) "version" version_new)
        as (K1 & K2 & K3 & K4); [nodup_keys|].
      exists id0, version_new. repeat split; try assumption.
      intros p meta reply Hin. exact (Hsub _ _ _ Hin meta eq_refl).
  - intros self c md tr s' r Hc Hx.
    apply (Dashboard_update_runs providers self (PyDict md) c tr s' r Hc) in Hx
      as (reply1 & tr1 & -> & Hrun).
    exists reply1, tr1. split; [reflexivity|].
    destruct (next_version reply1) as [version_new|e]; [|exact Hrun].
    destruct Hrun as (reply2 & tr2 & -> & Hrun).
    exists reply2, tr2. split; [reflexivity|].
    destruct (id_read reply2) as [id0|e]; [|exact Hrun].
    destruct Hrun as (-> & _).
    destruct (py_updated_keys md "id" id0 "uid" (d_uid self) "version" version_new)
      as (K1 & K2 & K3 & _); [nodup_keys|].
    repeat split; assumption.
  - intros self c md reply1 version_new reply2 id0 f1 title f2 folder_id reply5.
    apply Dashboard_update_returns_exec.
  - intros self c md reply1 version_new reply2 id0 exc.
    apply Dashboard_update_written_exec.
  - intros self c md reply1 e. apply Dashboard_update_stops_exec.
Qed.

(** The theorem at a creation of the fixture dashboard that fails at its
    first remote call, and at an update of it that fails at its third: the
    caller's model is changed all the same. *)
Lemma dashboard_writes_mutate_callers_model_witness :
  exec (Dashboard.create "p1" board_uid team_a_uid one_grafana board_model)
    [(7%nat, get_folder team_a_uid, Err (RemoteException not_found))]
    (PyDict [ ("title", PyStr "Board"); ("id", PyNone); ("uid", board_uid);
              ("version", PyInt 1) ], Err (GrafanaError "Not found"))
  /\ py_getitem (PyDict [ ("title", PyStr "Board"); ("id", PyNone); ("uid", board_uid);
                          ("version", PyInt 1) ]) "version" = Ok (PyInt 1)
  /\ exec (Dashboard.update board one_grafana board_model)
       [ (7%nat, get_dashboard board_uid, Ok (board_reply board_remote));
         (7%nat, get_dashboard board_uid, Ok (board_reply board_remote));
         (7%nat, get_folder team_a_uid, Err (RemoteException not_found)) ]
       (PyDict [ ("title", PyStr "Board"); ("id", PyInt 5); ("uid", board_uid);
                 ("version", PyInt 4) ], Err (GrafanaError "Not found")).
Proof.
  assert (Hx : exec (Dashboard.create "p1" board_uid team_a_uid one_grafana board_model)
                 [(7%nat, get_folder team_a_uid, Err (RemoteException not_found))]
                 (PyDict [ ("title", PyStr "Board"); ("id", PyNone); ("uid", board_uid);
                           ("version", PyInt 1) ], Err (GrafanaError "Not found"))).
  { apply (play_exec _ [Err (RemoteException not_found)]). reflexivity. }
  destruct (dashboard_writes_mutate_callers_model one_grafana)
    as (Hcreate & _ & _ & _ & Hwritten & _).
  split; [exact Hx|]. split.
  - exact (proj1 (proj2 (proj2 (proj2 (Hcreate _ _ _ _ _ _ _ Hx))))).
  - exact (Hwritten board 7%nat [("title", PyStr "Board")]
             (Ok (board_reply board_remote)) (PyInt 4)
             (Ok (board_reply board_remote)) (PyInt 5) not_found
             eq_refl eq_refl eq_refl).
Defined.

(** C10 as stated fails at an [update] whose first read fails: the call is
    over and the caller's dict has none of the three keys. *)
Lemma dashboard_update_leaves_model_when_read_fails :
  ~ (forall self providers md tr s' r,
       exec (Dashboard.update self providers (PyDict md)) tr (s', r) ->
       exists id0 uid version_new,
         py_getitem s' "id" = Ok id0
         /\ py_getitem s' "uid" = Ok uid
         /\ py_getitem s' "version" = Ok version_new).
Proof.
  intros Hclaim.
  assert (Hx : exec (Dashboard.update board one_grafana (PyDict [("title", PyStr "Board")]))
                 [(7%nat, get_dashboard board_uid, Err (RemoteException not_found))]
                 (PyDict [("title", PyStr "Board")], Err (GrafanaError "Not found"))).
  { apply (play_exec _ [Err (RemoteException not_found)]). reflexivity. }
  destruct (Hclaim _ _ _ _ _ _ Hx) as (id0 & _ & _ & Hid & _). discriminate Hid.
Qed.
(* ===================================================================== *)
(** * More of the stencil module *)
(* ===================================================================== *)

Lemma string_app_assoc (a b c : string) : ((a ++ b) ++ c = a ++ (b ++ c))%string.
Proof. induction a as [|x a IH]; simpl; [reflexivity | now rewrite IH]. Qed.

Section NameClashes.
Context `{Collaborators}.

(** X1. The name of a loop instance is also the name of a plain resource:
    the stencil resolved with the name [name_item] and no loop item is
    named, and so identified, as the stencil resolved with [name] on the
    truthy loop item [item]. *)
Theorem format_name_of_item_is_a_plain_name (self : ResourceStencil) (name : string)
    (item : pyval) :
  py_bool item = true ->
  format_name self (name ++ "_" ++ py_str item) PyNone = format_name self name item
  /\ format_uid (format_name self (name ++ "_" ++ py_str item) PyNone)
     = format_uid (format_name self name item).
Proof.
  intros Htrue.
  assert (Hname : format_name self (name ++ "_" ++ py_str item) PyNone
                  = format_name self name item).
  { unfold format_name. rewrite Htrue. cbn [py_bool].
    rewrite !string_app_assoc. reflexivity. }
  split; [exact Hname | now rewrite Hname].
Qed.

End NameClashes.

(** The theorem at the item [1] of a loop of [x], against the plain [x_1]. *)
Lemma format_name_of_item_is_a_plain_name_witness :
  @format_name demo looping_stencil "x_1" PyNone = "folder_x_1"
  /\ @format_name demo looping_stencil "x" (PyInt 1) = "folder_x_1".
Proof.
  pose proof (proj1 (@format_name_of_item_is_a_plain_name demo looping_stencil "x"
                       (PyInt 1) eq_refl)) as Hsame.
  split; [reflexivity|]. rewrite <- Hsame. reflexivity.
Defined.

(** X2. A uid is [gdbt_] followed by 32 characters, each one of
    [0123456789abcdef]. *)
Theorem format_uid_is_lowercase_hex (name : string) :
  exists digits,
    format_uid name = ("gdbt_" ++ digits)%string
    /\ String.length digits = 32%nat
    /\ Forall (fun c => In c hex_alphabet) (list_ascii_of_string digits).
Proof.
  exists (MD5.hexdigest (MD5.encode name)). split; [reflexivity|]. split.
  - unfold MD5.hexdigest. rewrite md5_hex_length, md5_digest_length. reflexivity.
  - unfold MD5.hexdigest. generalize (MD5.digest (MD5.encode name)) as bs.
    assert (Hdigit : forall n, In (MD5.hex_digit n) hex_alphabet).
    { intros n. unfold MD5.hex_digit. fold hex_alphabet.
      destruct (Nat.lt_ge_cases (Z.to_nat n) (List.length hex_alphabet)) as [Hlt|Hge].
      - now apply nth_In.
      - rewrite nth_overflow by assumption. simpl. now left. }
    induction bs as [|b bs IH]; simpl; [constructor|].
    constructor; [apply Hdigit|]. constructor; [apply Hdigit | exact IH].
Qed.

Section StencilResources.
Context `{Collaborators}.

Lemma starts_with_app (pre rest : string) : starts_with pre (pre ++ rest) = true.
Proof.
  unfold starts_with. induction pre as [|c pre IH]; simpl.
  - destruct rest; reflexivity.
  - destruct (ascii_dec c c) as [_|Hne]; [exact IH | contradiction].
Qed.

(** Every entry that the loop of [resolve] adds was made by [make_resource]
    from the rendering of one of the items. *)
Lemma resolve_items_made self name providers ev lk items acc d
    (P : string -> Resource -> Prop) :
  resolve_items self name providers ev lk items acc = Ok d ->
  (forall n r, In (n, r) acc -> P n r) ->
  (forall item body r,
     In item items ->
     make_resource self (s_provider self) (format_uid (format_name self name item))
       body providers = Ok r ->
     P (format_name self name item) r) ->
  forall n r, In (n, r) d -> P n r.
Proof.
  revert acc. induction items as [|item rest IH]; intros acc Hd Hacc Hnew n r Hin.
  - simpl in Hd. injection Hd as <-. now apply Hacc.
  - apply resolve_items_step in Hd as (body & r0 & _ & Hr0 & Hd).
    apply (IH _ Hd); [| |exact Hin].
    + intros n' r' Hin'. apply dict_set_entries in Hin' as [[= -> ->]|Hin'].
      * apply (Hnew item body); [now left | assumption].
      * now apply Hacc.
    + intros item' body' r' Hin'. apply Hnew. now right.
Qed.

Lemma resolve_made self name providers ev0 lk0 d (P : string -> Resource -> Prop) :
  resolve self name providers ev0 lk0 = Ok d ->
  (forall item body r,
     make_resource self (s_provider self) (format_uid (format_name self name item))
       body providers = Ok r ->
     P (format_name self name item) r) ->
  forall n r, In (n, r) d -> P n r.
Proof.
  intros Hd Hnew.
  destruct (resolve_vars self providers ev0 lk0) as [[ev lk]|e] eqn:Hv.
  - destruct (resolve_loops self providers ev lk) as [items raised] eqn:Hl.
    rewrite (resolve_unfold self name providers ev0 lk0 ev lk items raised Hv Hl) in Hd.
    destruct (resolve_items self name providers ev lk items []) as [d'|] eqn:Hi;
      [|discriminate].
    destruct raised; [discriminate|]. injection Hd as ->.
    apply (resolve_items_made self name providers ev lk items [] d P Hi).
    + intros n r [].
    + intros item body r _. apply Hnew.
  - unfold resolve in Hd. rewrite Hv in Hd. discriminate.
Qed.

(** X3. Whatever the names and the loop, every resource in the mapping
    [resolve] returns targets the stencil's provider and is of the stencil's
    class; the dashboards of one stencil all lie in the same folder, and
    none of them has an [id] in its model. *)
Theorem resolve_resources_follow_the_stencil self name providers ev0 lk0 d n r :
  resolve self name providers ev0 lk0 = Ok d ->
  In (n, r) d ->
  resource_grafana r = s_provider self
  /\ match s_class self with
     | StencilFolder => exists f, r = IsFolder f
     | StencilDashboard folder =>
         exists dd m,
           r = IsDashboard dd
           /\ d_folder dd
              = PyStr (format_uid (if starts_with "folder_" folder then folder
                                   else ("folder_" ++ folder)%string))
           /\ d_model dd = PyDict m
           /\ dict_get "id" m = None
     end.
Proof.
  intros Hd Hin. revert n r Hin.
  apply (resolve_made self name providers ev0 lk0 d _ Hd).
  intros item body r Hr. unfold make_resource in Hr.
  destruct (s_class self) as [|folder]; cbn [bind Monad_result result_bind ret] in Hr.
  - destruct (json_loads body) as [v|]; [|discriminate]. injection Hr as <-.
    split; [reflexivity | eauto].
  - destruct (json_loads body) as [v|]; [|discriminate].
    cbn [result_bind] in Hr. destruct v; try discriminate.
    cbn [py_pop result_bind] in Hr. injection Hr as <-.
    split; [reflexivity|]. eexists. eexists. split; [reflexivity|].
    split; [reflexivity|]. split; [reflexivity|]. apply dict_get_pop_eq.
Qed.

(** X4. A dashboard stencil finds the folder a folder stencil made when it
    refers to it by its key, or by its key without the [folder_] prefix
    provided that what is left does not itself start with [folder_]: given
    an entry [k -> r] of what a stencil of kind [folder] resolves to, such
    a reference makes dashboards whose folder is the uid of [r]. A
    reference that starts with [folder_] is taken as a key as it is: the
    folder of the dashboards is [format_uid] of the reference, so that a
    folder stencil named [folder_x], whose key is [folder_folder_x], is
    sought under [folder_x]. *)
Theorem dashboard_reference_finds_the_folder
    (fs ds : ResourceStencil) (name ref grafana uid body : string)
    (providers : registry) ev0 lk0 d k r m :
  kind fs = "folder" ->
  resolve fs name providers ev0 lk0 = Ok d ->
  In (k, r) d ->
  s_class ds = StencilDashboard ref ->
  json_loads body = Ok (PyDict m) ->
  exists dd,
    make_resource ds grafana uid body providers = Ok (IsDashboard dd)
    /\ (ref = k \/ (("folder_" ++ ref)%string = k /\ starts_with "folder_" ref = false) ->
        d_folder dd = resource_uid r)
    /\ (starts_with "folder_" ref = true -> d_folder dd = PyStr (format_uid ref)).
Proof.
  intros Hkind Hd Hin Hclass Hbody.
  destruct (resolve_entries_uid fs name providers ev0 lk0 d Hd) as (ev & lk & _ & Hent).
  destruct (Hent _ _ Hin) as (Huid & item & _ & Hk).
  assert (Hpre : starts_with "folder_" k = true).
  { rewrite Hk. unfold format_name. rewrite Hkind.
    destruct (py_bool item).
    - rewrite string_app_assoc. apply (starts_with_app "folder_").
    - apply (starts_with_app "folder_"). }
  unfold make_resource. rewrite Hclass.
  cbn [bind Monad_result result_bind ret]. rewrite Hbody.
  cbn [py_pop result_bind]. eexists. split; [reflexivity|].
  cbn [d_folder]. split.
  - intros Href. rewrite Huid. f_equal. f_equal.
    destruct Href as [->|[<- Hno]].
    + now rewrite Hpre.
    + now rewrite Hno.
  - intros Hyes. now rewrite Hyes.
Qed.

Lemma make_resource_by_body (self : ResourceStencil) (grafana uid body : string)
    (providers : registry) :
  make_resource self grafana uid body providers =
    match json_loads body with
    | Err e => Err e
    | Ok v =>
        match s_class self with
        | StencilFolder => Ok (IsFolder (mkFolder grafana (PyStr uid) v))
        | StencilDashboard folder =>
            match v with
            | PyDict m =>
                Ok (IsDashboard
                      (mkDashboard grafana (PyStr uid) (PyDict (dict_pop "id" m))
                         (PyStr (format_uid
                                   (if starts_with "folder_" folder then folder
                                    else ("folder_" ++ folder)%string)))))
            | PyList _ => Err TypeError
            | _ => Err AttributeError
            end
        end
    end.
Proof.
  unfold make_resource.
  destruct (s_class self); cbn [bind Monad_result result_bind ret];
    destruct (json_loads body) as [v|e]; try reflexivity.
  destruct v; reflexivity.
Qed.

Lemma resolve_items_first_failure self name providers ev lk good bad rest acc e :
  Forall (turn_ok self name providers ev lk) good ->
  turn_raises self name providers ev lk bad e ->
  resolve_items self name providers ev lk (good ++ bad :: rest) acc = Err e.
Proof.
  intros Hgood Hbad. revert acc.
  induction Hgood as [|item good (body & r & Hb & Hr) _ IH]; intros acc; simpl.
  - destruct Hbad as [Hb|(body & Hb & Hr)]; rewrite Hb; simpl; [reflexivity|].
    rewrite Hr. reflexivity.
  - rewrite Hb. simpl. rewrite Hr. simpl. apply IH.
Qed.

(** X5. [resolve] raises what the first failing turn of its loop raises,
    whatever the later items would do and whether or not the iterator
    itself raises in the end; when every turn succeeds and the iterator
    ends with an exception, [resolve] raises that exception; an iterator
    that yields nothing and ends normally gives the empty mapping. *)
Theorem resolve_raises_the_first_failure self name providers ev0 lk0 ev lk items raised :
  resolve_vars self providers ev0 lk0 = Ok (ev, lk) ->
  resolve_loops self providers ev lk = (items, raised) ->
  (forall good bad rest e,
     items = good ++ bad :: rest ->
     Forall (turn_ok self name providers ev lk) good ->
     turn_raises self name providers ev lk bad e ->
     resolve self name providers ev0 lk0 = Err e)
  /\ (forall e,
        raised = Some e ->
        Forall (turn_ok self name providers ev lk) items ->
        resolve self name providers ev0 lk0 = Err e)
  /\ (items = [] -> raised = None -> resolve self name providers ev0 lk0 = Ok []).
Proof.
  intros Hv Hl.
  rewrite (resolve_unfold self name providers ev0 lk0 ev lk items raised Hv Hl).
  split; [|split].
  - intros good bad rest e -> Hgood Hbad.
    now rewrite (resolve_items_first_failure self name providers ev lk good bad rest [] e).
  - intros e -> Hall.
    apply (resolve_items_total self name providers ev lk items []) in Hall as [d ->].
    reflexivity.
  - intros -> ->. reflexivity.
Qed.

(** X6. A dashboard stencil needs bodies that are JSON objects: when the
    turns before it succeed, an item whose body parses to an array makes
    [resolve] raise [TypeError], and one whose body parses to any other
    value that is not an object makes it raise [AttributeError]. *)
Theorem resolve_rejects_dashboard_bodies_that_are_not_objects
    self name providers ev0 lk0 ev lk good bad rest raised folder body v :
  resolve_vars self providers ev0 lk0 = Ok (ev, lk) ->
  resolve_loops self providers ev lk = (good ++ bad :: rest, raised) ->
  Forall (turn_ok self name providers ev lk) good ->
  s_class self = StencilDashboard folder ->
  Template_render (model self) providers ev lk bad = Ok body ->
  json_loads body = Ok v ->
  (forall m, v <> PyDict m) ->
  resolve self name providers ev0 lk0
    = Err (match v with PyList _ => TypeError | _ => AttributeError end).
Proof.
  intros Hv Hl Hgood Hclass Hb Hj Hnot.
  rewrite (resolve_unfold self name providers ev0 lk0 ev lk _ raised Hv Hl).
  rewrite (resolve_items_first_failure self name providers ev lk good bad rest []
             (match v with PyList _ => TypeError | _ => AttributeError end));
    [reflexivity | assumption |].
  right. exists body. split; [exact Hb|].
  rewrite make_resource_by_body, Hj, Hclass.
  destruct v; try reflexivity. now destruct (Hnot d).
Qed.

End StencilResources.

(** The theorem at the fixture dashboard stencil. *)
Lemma resolve_resources_follow_the_stencil_witness :
  exists d r,
    @resolve demo team_a_dashboard "board" [] None None = Ok d
    /\ In ("dashboard_board", r) d
    /\ resource_grafana r = "p1"
    /\ exists dd m,
         r = IsDashboard dd
         /\ d_folder dd = PyStr (format_uid "folder_teamA")
         /\ d_model dd = PyDict m
         /\ dict_get "id" m = None.
Proof.
  assert (Hres : @resolve demo team_a_dashboard "board" [] None None
                 = Ok [("dashboard_board",
                        IsDashboard
                          (mkDashboard "p1" (PyStr "gdbt_6c566f5102d2ddaf66841fa6937edfda")
                             (PyDict [("title", PyStr "Board")])
                             (PyStr "gdbt_9123169fd2b4d254ad07d69e8e15e063")))])
    by (vm_compute; reflexivity).
  eexists. eexists. split; [exact Hres|]. split; [now left|].
  exact (@resolve_resources_follow_the_stencil demo team_a_dashboard "board" [] None None
           _ _ _ Hres (or_introl eq_refl)).
Defined.

(** The theorem at the folder [teamA] and the dashboard stencil that refers
    to it by its logical name; and at a folder stencil named [folder_x] and
    the dashboard stencil that refers to [folder_x], which looks for
    another uid than the folder's. *)
Lemma dashboard_reference_finds_the_folder_witness :
  (exists dd,
     @make_resource demo team_a_dashboard "p1" "u" board_body [] = Ok (IsDashboard dd)
     /\ d_folder dd = team_a_uid)
  /\ (exists dd,
        @make_resource demo prefixed_dashboard "p1" "u" board_body []
          = Ok (IsDashboard dd)
        /\ d_folder dd = PyStr "gdbt_c36057b871cc1cbe057fc14dea29aa92"
        /\ @resolve demo team_a_stencil "folder_x" [] None None
           = Ok [("folder_folder_x",
                  IsFolder (mkFolder "p1" (PyStr "gdbt_011c283ad85897026b650ea77ecff82a")
                              team_a_model))]).
Proof.
  split.
  - assert (Hres : @resolve demo team_a_stencil "teamA" [] None None
                   = Ok [("folder_teamA",
                          IsFolder (mkFolder "p1" team_a_uid team_a_model))])
      by (vm_compute; reflexivity).
    destruct (@dashboard_reference_finds_the_folder demo team_a_stencil team_a_dashboard
                "teamA" "teamA" "p1" "u" board_body [] None None _ "folder_teamA" _
                [("id", PyInt 7); ("title", PyStr "Board")]
                eq_refl Hres (or_introl eq_refl) eq_refl eq_refl)
      as (dd & Hmade & Hfound & _).
    exists dd. split; [exact Hmade|].
    exact (Hfound (or_intror (conj eq_refl eq_refl))).
  - assert (Hres : @resolve demo team_a_stencil "folder_x" [] None None
                   = Ok [("folder_folder_x",
                          IsFolder (mkFolder "p1"
                                      (PyStr "gdbt_011c283ad85897026b650ea77ecff82a")
                                      team_a_model))])
      by (vm_compute; reflexivity).
    assert (Huid : format_uid "folder_x" = "gdbt_c36057b871cc1cbe057fc14dea29aa92")
      by (vm_compute; reflexivity).
    destruct (@dashboard_reference_finds_the_folder demo team_a_stencil prefixed_dashboard
                "folder_x" "folder_x" "p1" "u" board_body [] None None _
                "folder_folder_x" _ [("id", PyInt 7); ("title", PyStr "Board")]
                eq_refl Hres (or_introl eq_refl) eq_refl eq_refl)
      as (dd & Hmade & _ & Hkey).
    exists dd. split; [exact Hmade|]. split; [|exact Hres].
    rewrite (Hkey eq_refl), Huid. reflexivity.
Defined.

(** The theorem at a template that is not JSON, looped over two items. *)
Lemma resolve_raises_the_first_failure_witness :
  @resolve demo broken_stencil "x" [] None
     (Some [("xs", PyList [PyStr "a"; PyStr "b"])])
  = Err (OtherException "JSONDecodeError").
Proof.
  apply (proj1 (@resolve_raises_the_first_failure demo broken_stencil "x" [] None
                  (Some [("xs", PyList [PyStr "a"; PyStr "b"])])
                  [] [("xs", PyList [PyStr "a"; PyStr "b"])]
                  [PyStr "a"; PyStr "b"] None eq_refl eq_refl)
           [] (PyStr "a") [PyStr "b"]).
  - reflexivity.
  - constructor.
  - right. exists "{". split; reflexivity.
Defined.

(** The theorem at a dashboard template that renders to an array. *)
Lemma resolve_rejects_dashboard_bodies_that_are_not_objects_witness :
  @resolve demo_arrays array_dashboard "x" [] None (Some [("xs", PyList [PyStr "a"])])
  = Err TypeError.
Proof.
  apply (@resolve_rejects_dashboard_bodies_that_are_not_objects demo_arrays
           array_dashboard "x" [] None (Some [("xs", PyList [PyStr "a"])])
           [] [("xs", PyList [PyStr "a"])] [] (PyStr "a") [] None "teamA" "[]"
           (PyList [])); try reflexivity.
  - constructor.
  - intros m. discriminate.
Defined.

(* ===================================================================== *)
(** ** Order of the resolved variables *)
(* ===================================================================== *)

Section KeyOrder.

Lemma new_keys_set {V} (d : list (string * V)) k v keys :
  ~ In k keys -> new_keys (dict_set k v d) keys = new_keys d keys.
Proof.
  intros Hnin. unfold new_keys. apply filter_ext_in. intros k' Hin.
  rewrite dict_get_set_ne; [reflexivity|]. intros ->. contradiction.
Qed.

(** An update keeps the keys of the dict where they are and appends the
    keys that are new, in the order of the update. *)
Lemma dict_update_keys {V} (d o : list (string * V)) :
  NoDup (dict_keys o) ->
  dict_keys (dict_update d o) = dict_keys d ++ new_keys d (dict_keys o).
Proof.
  unfold dict_update. revert d. induction o as [|[k v] o IH]; intros d Hnd; simpl.
  - now rewrite app_nil_r.
  - inversion Hnd as [|? ? Hnin Hnd']; subst.
    rewrite (IH _ Hnd'), (new_keys_set d k v _ Hnin).
    destruct (dict_get k d) as [x|] eqn:Hk.
    + rewrite dict_keys_set_old; [reflexivity|].
      destruct (in_dec string_dec k (dict_keys d)) as [Hin|Hout]; [assumption|].
      apply dict_get_None_keys in Hout. congruence.
    + apply dict_get_None_keys in Hk. rewrite (dict_keys_set_new d k v Hk).
      unfold dict_keys. rewrite map_app, <- app_assoc. reflexivity.
Qed.

Lemma dict_comprehension_keys {A B} (f : string -> A -> result B) items acc d :
  dict_comprehension f items acc = Ok d ->
  NoDup (dict_keys acc ++ dict_keys items) ->
  dict_keys d = dict_keys acc ++ dict_keys items.
Proof.
  revert acc. induction items as [|[k a] rest IH]; intros acc Hd Hnd; simpl in *.
  - injection Hd as <-. now rewrite app_nil_r.
  - destruct (f k a) as [b|]; [|discriminate].
    assert (Hnin : ~ In k (dict_keys acc)).
    { apply NoDup_remove_2 in Hnd. intros Hin. apply Hnd. apply in_or_app. now left. }
    rewrite (dict_keys_set_new acc k b Hnin) in Hd.
    rewrite (IH _ Hd).
    + unfold dict_keys. rewrite map_app, <- app_assoc. reflexivity.
    + unfold dict_keys in *. rewrite map_app, <- app_assoc. exact Hnd.
Qed.

(** X7. The resolved variables come in the order of the layers: first the
    inherited names, in their order, then the names that only the stencil
    binds, in the stencil's order; a name bound in both keeps its inherited
    place. *)
Theorem resolve_vars_keeps_inherited_order
    (self : ResourceStencil) (providers : registry)
    (ev0 : option (list (string * Evaluation)))
    (lk0 : option (list (string * pyval))) ev lk :
  NoDup (dict_keys (or_empty ev0)) ->
  NoDup (dict_keys (or_empty (evaluations self))) ->
  NoDup (dict_keys (or_empty lk0)) ->
  NoDup (dict_keys (or_empty (lookups self))) ->
  resolve_vars self providers ev0 lk0 = Ok (ev, lk) ->
  dict_keys ev
    = dict_keys (or_empty ev0)
        ++ new_keys (or_empty ev0) (dict_keys (or_empty (evaluations self)))
  /\ dict_keys lk
     = dict_keys (or_empty lk0)
         ++ new_keys (or_empty lk0) (dict_keys (or_empty (lookups self))).
Proof.
  intros Hev0 Hev Hlk0 Hlk. unfold resolve_vars.
  cbn [bind Monad_result result_bind ret].
  match goal with
  | |- result_bind ?E _ = _ -> _ => destruct E as [de|] eqn:He; [|discriminate]
  end.
  cbn [result_bind].
  match goal with
  | |- result_bind ?E _ = _ -> _ => destruct E as [dl|] eqn:Hl; [|discriminate]
  end.
  cbn [result_bind]. intros [= <- <-].
  apply dict_comprehension_keys in He; [|apply dict_merge_keys_NoDup].
  apply dict_comprehension_keys in Hl; [|apply dict_merge_keys_NoDup].
  simpl in He, Hl. rewrite He, Hl. unfold dict_merge.
  rewrite (dict_update_nil _ Hev0), (dict_update_nil _ Hlk0).
  now rewrite !dict_update_keys.
Qed.

End KeyOrder.

(** The theorem at inherited [{a:1,b:2}] under local [{b:3,c:4}]. *)
Lemma resolve_vars_keeps_inherited_order_witness :
  exists ev lk,
    resolve_vars merging_stencil [] (Some (thunks inherited_ab)) (Some inherited_ab)
      = Ok (ev, lk)
    /\ dict_keys ev = ["a"; "b"; "c"]
    /\ dict_keys lk = ["a"; "b"; "c"].
Proof.
  exists merged_abc, merged_abc. split; [reflexivity|].
  exact (resolve_vars_keeps_inherited_order merging_stencil []
           (Some (thunks inherited_ab)) (Some inherited_ab) merged_abc merged_abc
           ltac:(nodup_keys) ltac:(nodup_keys) ltac:(nodup_keys) ltac:(nodup_keys)
           eq_refl).
Defined.

(* ===================================================================== *)
(** * More of the resource module *)
(* ===================================================================== *)

(** ** Which calls an operation makes *)

Section Calls.
Variable Q : provider -> request -> Prop.

Lemma calls_done {R} (r : R) : calls_satisfy Q (Done r).
Proof. intros tr r' p req reply Hx Hin. apply exec_Done_inv in Hx as [-> _]. destruct Hin. Qed.

Lemma calls_call p req : Q p req -> calls_satisfy Q (grafana_call p req).
Proof.
  intros HQ tr r p' req' reply Hx Hin. unfold grafana_call in Hx.
  apply exec_Call_inv in Hx as (reply' & tr' & -> & Hx).
  apply exec_Done_inv in Hx as [-> _]. destruct Hin as [[= <- <- _]|[]]. exact HQ.
Qed.

Lemma calls_bind {A B} (m : io A) (f : A -> io B) :
  calls_satisfy Q m -> (forall a, calls_satisfy Q (f a)) ->
  calls_satisfy Q (bind m f).
Proof.
  intros Hm Hf tr r p req reply Hx Hin. cbn [bind Monad_io] in Hx. unfold io_bind in Hx.
  apply exec_bind in Hx as (tr1 & tr2 & x & -> & H1 & H2).
  apply in_app_or in Hin as [Hin|Hin]; [exact (Hm _ _ _ _ _ H1 Hin)|].
  destruct x as [a|e]; [exact (Hf a _ _ _ _ _ H2 Hin)|].
  apply exec_Done_inv in H2 as [-> _]. destruct Hin.
Qed.

(** After [c <- client grafana providers], [c] is the registered provider. *)
Lemma calls_with_client {B} grafana providers (f : provider -> io B) :
  (forall c, dict_get grafana providers = Some c -> calls_satisfy Q (f c)) ->
  calls_satisfy Q (bind (client grafana providers) f).
Proof.
  intros Hf. unfold client. destruct (dict_get grafana providers) as [c|].
  - exact (Hf c eq_refl).
  - apply calls_done.
Qed.

(** After [a <- lift r], [a] is the value of [r]. *)
Lemma calls_with_lift {A B} (r : result A) (f : A -> io B) :
  (forall a, r = Ok a -> calls_satisfy Q (f a)) ->
  calls_satisfy Q (bind (lift r) f).
Proof.
  intros Hf. destruct r as [a|e]; [exact (Hf a eq_refl) | apply calls_done].
Qed.

Lemma calls_try {A} (body : io A) (handler : exn -> option (io A)) :
  calls_satisfy Q body ->
  (forall e h, handler e = Some h -> exists r, h = Done r) ->
  calls_satisfy Q (try_except body handler).
Proof.
  intros Hbody Hpure tr r p req reply Hx Hin. unfold try_except in Hx.
  apply exec_bind in Hx as (tr1 & tr2 & x & -> & H1 & H2).
  apply in_app_or in Hin as [Hin|Hin]; [exact (Hbody _ _ _ _ _ H1 Hin)|].
  exfalso. destruct x as [a|e].
  - apply exec_Done_inv in H2 as [-> _]. destruct Hin.
  - destruct (handler e) as [h|] eqn:Hh.
    + destruct (Hpure _ _ Hh) as [r0 ->]. apply exec_Done_inv in H2 as [-> _]. destruct Hin.
    + apply exec_Done_inv in H2 as [-> _]. destruct Hin.
Qed.

Lemma calls_lift_io {A} (m : io A) (s : pyval) :
  calls_satisfy Q m -> calls_satisfy Q (lift_io m s).
Proof.
  intros Hm tr [s' r] p req reply Hx Hin. apply lift_io_run in Hx as [_ Hx].
  exact (Hm _ _ _ _ _ Hx Hin).
Qed.

Lemma calls_bind_mut {A B} (m : mut A) (f : A -> mut B) (s : pyval) :
  calls_satisfy Q (m s) -> (forall a s', calls_satisfy Q (f a s')) ->
  calls_satisfy Q (bind m f s).
Proof.
  intros Hm Hf tr [s' r] p req reply Hx Hin.
  apply mut_bind_run in Hx as (tr1 & tr2 & s1 & x & -> & H1 & H2).
  apply in_app_or in Hin as [Hin|Hin]; [exact (Hm _ _ _ _ _ H1 Hin)|].
  destruct x as [a|e]; [exact (Hf a s1 _ _ _ _ _ H2 Hin)|].
  destruct H2 as (-> & _). destruct Hin.
Qed.

Lemma calls_model_update other s : calls_satisfy Q (model_update other s).
Proof. unfold model_update. destruct (py_update s other); apply calls_done. Qed.

Lemma calls_model_update_method s : calls_satisfy Q (model_update_method s).
Proof. unfold model_update_method. destruct s; apply calls_done. Qed.

End Calls.

(** What [Folder.get] returns is the folder asked for, with a model made of
    the title. *)
Lemma Folder_get_returns grafana uid providers tr f :
  exec (Folder.get grafana uid providers) tr (Ok f) ->
  exists title, f = mkFolder grafana uid (PyDict [("title", title)]).
Proof.
  intros Hx. apply Folder_get_run in Hx.
  destruct (dict_get grafana providers) as [c|]; [|destruct Hx as [_ [=]]].
  destruct Hx as (reply & _ & Hr). destruct reply as [data|e].
  - destruct (py_getitem data "title") as [title|]; [|discriminate].
    injection Hr as ->. now exists title.
  - destruct e; discriminate.
Qed.

Lemma calls_after_Folder_get {B} (Q : provider -> request -> Prop)
    grafana uid providers (f : FolderResource -> mut B) (s : pyval) :
  calls_satisfy Q (Folder.get grafana uid providers) ->
  (forall title, calls_satisfy Q (f (mkFolder grafana uid (PyDict [("title", title)])) s)) ->
  calls_satisfy Q (bind (lift_io (Folder.get grafana uid providers)) f s).
Proof.
  intros Hm Hf tr [s' r] p req reply Hx Hin.
  apply mut_bind_run in Hx as (tr1 & tr2 & s1 & x & -> & H1 & H2).
  apply lift_io_run in H1 as [-> H1].
  apply in_app_or in Hin as [Hin|Hin]; [exact (Hm _ _ _ _ _ H1 Hin)|].
  destruct x as [a|e].
  - destruct (Folder_get_returns _ _ _ _ _ H1) as [title ->].
    exact (Hf title _ _ _ _ _ H2 Hin).
  - destruct H2 as (-> & _). destruct Hin.
Qed.

Ltac calls_step :=
  first
    [ apply calls_done
    | apply calls_model_update
    | apply calls_model_update_method
    | apply calls_after_Folder_get; [|intros ?]
    | apply calls_lift_io
    | apply calls_with_client; intros ? ?
    | apply calls_with_lift; intros ? ?
    | apply calls_try; [|handler_pure]
    | apply calls_bind; [|intros ?]
    | apply calls_bind_mut; [|intros ? ?]
    | apply calls_call; split; [assumption|] ].

Ltac calls := repeat calls_step.

Section WhichCalls.
Variables (grafana : string) (uid : pyval) (providers : registry).

(** X8. The reading operations read: [get], [exists], [id], [version] and
    [get_by_id] call nothing but [get_folder], [get_folder_by_id] and
    [get_dashboard], and only on the provider registered for the
    resource. *)
Theorem reads_make_no_write :
  calls_satisfy (own_read grafana providers) (Folder.get grafana uid providers)
  /\ calls_satisfy (own_read grafana providers) (Folder.exists_ grafana uid providers)
  /\ (forall id,
        calls_satisfy (own_read grafana providers)
          (Folder.get_by_id grafana id providers))
  /\ (forall model0,
        calls_satisfy (own_read grafana providers)
          (Folder.id (mkFolder grafana uid model0) providers))
  /\ calls_satisfy (own_read grafana providers) (Dashboard.get grafana uid providers)
  /\ calls_satisfy (own_read grafana providers) (Dashboard.exists_ grafana uid providers)
  /\ (forall model0 folder,
        calls_satisfy (own_read grafana providers)
          (Dashboard.id (mkDashboard grafana uid model0 folder) providers))
  /\ (forall model0 folder,
        calls_satisfy (own_read grafana providers)
          (Dashboard.version (mkDashboard grafana uid model0 folder) providers)).
Proof.
  unfold own_read, own_call.
  repeat match goal with |- _ /\ _ => split end; intros;
    unfold Folder.get, Folder.exists_, Folder.get_by_id, Folder.id,
           Dashboard.get, Dashboard.exists_, Dashboard.id, Dashboard.version;
    cbn [f_grafana f_uid d_grafana d_uid]; calls; reflexivity.
Qed.

(** X9. The writing operations write their own resource only, on the
    provider registered for it: [Folder.create] creates the folder [uid]
    with the title of the model and reads it back; [Folder.update] updates
    the folder of the object with the title of the model, overwriting;
    [delete] deletes the object; [Dashboard.create], and [Dashboard.update]
    given a dict, read, and write with [update_dashboard] and [overwrite]
    set, nothing else. *)
Theorem writes_touch_their_own_resource :
  (forall model0,
     calls_satisfy
       (own_call grafana providers
          (fun req => req = get_folder uid
                      \/ exists title, py_getitem model0 "title" = Ok title
                                       /\ req = create_folder title uid))
       (Folder.create grafana uid model0 providers))
  /\ (forall model0 model1,
        calls_satisfy
          (own_call grafana providers
             (fun req => exists title, py_getitem model1 "title" = Ok title
                                       /\ req = update_folder uid title true))
          (Folder.update (mkFolder grafana uid model0) model1 providers))
  /\ (forall model0,
        calls_satisfy (own_call grafana providers (fun req => req = delete_folder uid))
          (Folder.delete (mkFolder grafana uid model0) providers))
  /\ (forall model0 folder,
        calls_satisfy (own_call grafana providers (fun req => req = delete_dashboard uid))
          (Dashboard.delete (mkDashboard grafana uid model0 folder) providers))
  /\ (forall folder model0,
        calls_satisfy
          (own_call grafana providers (fun req => is_read req = true \/ is_overwrite req))
          (Dashboard.create grafana uid folder providers model0))
  /\ (forall model0 folder md,
        calls_satisfy
          (own_call grafana providers (fun req => is_read req = true \/ is_overwrite req))
          (Dashboard.update (mkDashboard grafana uid model0 folder) providers (PyDict md))).
Proof.
  unfold own_call. repeat match goal with |- _ /\ _ => split end; intros.
  - unfold Folder.create, Folder.get. calls; [right; eauto | now left].
  - unfold Folder.update. cbn [f_grafana f_uid]. calls. eauto.
  - unfold Folder.delete. cbn [f_grafana f_uid]. calls. reflexivity.
  - unfold Dashboard.delete. cbn [d_grafana d_uid]. calls. reflexivity.
  - unfold Dashboard.create, Dashboard.get, Folder.get, Folder.id, Folder.get_by_id.
    cbn [f_grafana f_uid]. calls;
      first [ now left | right; eexists; split; reflexivity ].
  - unfold Dashboard.update, Dashboard.version, Dashboard.id, Folder.get, Folder.id.
    cbn [f_grafana f_uid d_grafana d_uid d_folder]. calls;
      first [ now left | right; eexists; split; reflexivity ].
Qed.

End WhichCalls.

(** ** No request after a failed call *)

Section Halting.
Implicit Types (g : GrafanaException -> exn).

(** Where a failed exchange lies in two runs put end to end. *)
Lemma failure_in_app (ta tb tr1 tr2 : list exchange) (x : exchange) :
  ta ++ tb = tr1 ++ x :: tr2 ->
  (exists l, ta = tr1 ++ x :: l /\ tr2 = l ++ tb)
  \/ (exists l, tr1 = ta ++ l /\ tb = l ++ x :: tr2).
Proof.
  revert tr1. induction ta as [|y ta IH]; intros tr1 Heq; simpl in Heq.
  - right. now exists tr1.
  - destruct tr1 as [|z tr1]; simpl in Heq.
    + injection Heq as -> <-. left. now exists ta.
    + injection Heq as -> Heq. destruct (IH _ Heq) as [(l & -> & ->)|(l & -> & ->)].
      * left. now exists l.
      * right. now exists l.
Qed.

Lemma nothing_after_the_only_exchange (y x : exchange) (tr1 tr2 : list exchange) :
  [y] = tr1 ++ x :: tr2 -> tr1 = [] /\ y = x /\ tr2 = [].
Proof.
  destruct tr1 as [|z tr1]; simpl.
  - intros [= -> <-]. now repeat split.
  - intros [= _ H]. now destruct tr1.
Qed.

Lemma halting_done {R} (outcome : R -> option exn) g (r : R) :
  halting outcome g (Done r).
Proof.
  split; [apply surfaces_done|].
  intros tr r' tr1 p req exc tr2 Hx Heq. apply exec_Done_inv in Hx as [-> _].
  now destruct tr1.
Qed.

Lemma halting_call p req : halting failure RemoteException (grafana_call p req).
Proof.
  split; [apply surfaces_call|].
  intros tr r tr1 p' req' exc tr2 Hx Heq. unfold grafana_call in Hx.
  apply exec_Call_inv in Hx as (reply & tr' & -> & Hx).
  apply exec_Done_inv in Hx as [-> _].
  now apply nothing_after_the_only_exchange in Heq.
Qed.

Lemma halting_bind {A B} g (m : io A) (f : A -> io B) :
  halting failure g m -> (forall a, halting failure g (f a)) ->
  halting failure g (bind m f).
Proof.
  intros [Hsm Hem] Hf. split.
  - apply surfaces_bind; [assumption | intros a; apply Hf].
  - intros tr r tr1 p req exc tr2 Hx Heq. cbn [bind Monad_io] in Hx. unfold io_bind in Hx.
    apply exec_bind in Hx as (ta & tb & x & -> & H1 & H2).
    apply failure_in_app in Heq as [(l & Ha & ->)|(l & -> & Hb)].
    + rewrite (Hem _ _ _ _ _ _ _ H1 Ha) in *. simpl.
      assert (Hin : In (p, req, Err (RemoteException exc)) ta)
        by (rewrite Ha; apply in_or_app; right; now left).
      specialize (Hsm _ _ _ _ _ H1 Hin). destruct x as [a|e]; [discriminate|].
      now apply exec_Done_inv in H2 as [-> _].
    + destruct x as [a|e].
      * exact (proj2 (Hf a) _ _ _ _ _ _ _ H2 Hb).
      * apply exec_Done_inv in H2 as [-> _]. now destruct l.
Qed.

Lemma halting_try {A} g g' (body : io A) (handler : exn -> option (io A)) :
  halting failure g body ->
  (forall e h, handler e = Some h -> exists r, h = Done r) ->
  (forall exc, match handler (g exc) with
               | Some h => h = Done (Err (g' exc))
               | None => g exc = g' exc
               end) ->
  halting failure g' (try_except body handler).
Proof.
  intros [Hsb Heb] Hpure Hmap. split; [now apply (surfaces_try g g')|].
  intros tr r tr1 p req exc tr2 Hx Heq. unfold try_except in Hx.
  apply exec_bind in Hx as (ta & tb & x & -> & H1 & H2).
  assert (Htb : tb = []).
  { destruct x as [a|e].
    - now apply exec_Done_inv in H2 as [-> _].
    - destruct (handler e) as [h|] eqn:Hh.
      + destruct (Hpure _ _ Hh) as [r0 ->]. now apply exec_Done_inv in H2 as [-> _].
      + now apply exec_Done_inv in H2 as [-> _]. }
  subst tb. rewrite app_nil_r in Heq. exact (Heb _ _ _ _ _ _ _ H1 Heq).
Qed.

Lemma halting_lift_io {A} g (m : io A) (s : pyval) :
  halting failure g m -> halting (fun sr => failure (snd sr)) g (lift_io m s).
Proof.
  intros [Hsm Hem]. split; [now apply surfaces_lift_io|].
  intros tr [s' r] tr1 p req exc tr2 Hx Heq. apply lift_io_run in Hx as [_ Hx].
  exact (Hem _ _ _ _ _ _ _ Hx Heq).
Qed.

Lemma halting_bind_mut {A B} g (m : mut A) (f : A -> mut B) (s : pyval) :
  halting (fun sr => failure (snd sr)) g (m s) ->
  (forall a s', halting (fun sr => failure (snd sr)) g (f a s')) ->
  halting (fun sr => failure (snd sr)) g (bind m f s).
Proof.
  intros [Hsm Hem] Hf. split.
  - apply surfaces_bind_mut; [assumption | intros a s'; apply Hf].
  - intros tr [s' r] tr1 p req exc tr2 Hx Heq.
    cbn [bind Monad_mut] in Hx. unfold mut_bind in Hx.
    apply exec_bind in Hx as (ta & tb & [s1 x] & -> & H1 & H2). simpl in H2.
    apply failure_in_app in Heq as [(l & Ha & ->)|(l & -> & Hb)].
    + rewrite (Hem _ _ _ _ _ _ _ H1 Ha) in *. simpl.
      assert (Hin : In (p, req, Err (RemoteException exc)) ta)
        by (rewrite Ha; apply in_or_app; right; now left).
      specialize (Hsm _ _ _ _ _ H1 Hin). simpl in Hsm.
      destruct x as [a|e]; [discriminate|].
      now apply exec_Done_inv in H2 as [-> _].
    + destruct x as [a|e].
      * exact (proj2 (Hf a s1) _ _ _ _ _ _ _ H2 Hb).
      * apply exec_Done_inv in H2 as [-> _]. now destruct l.
Qed.

Lemma halting_client g grafana providers : halting failure g (client grafana providers).
Proof. unfold client. destruct (dict_get grafana providers); apply halting_done. Qed.

Lemma halting_lift {A} g (r : result A) : halting failure g (lift r).
Proof. apply halting_done. Qed.

Lemma halting_model_update g other s :
  halting (fun sr : pyval * result unit => failure (snd sr)) g (model_update other s).
Proof. unfold model_update. destruct (py_update s other); apply halting_done. Qed.

Lemma halting_model_update_method g s :
  halting (fun sr : pyval * result unit => failure (snd sr)) g (model_update_method s).
Proof. unfold model_update_method. destruct s; apply halting_done. Qed.

End Halting.

Ltac halt_step :=
  first
    [ apply halting_call
    | apply halting_client
    | apply halting_lift
    | apply halting_done
    | apply halting_model_update
    | apply halting_model_update_method
    | apply halting_lift_io
    | apply halting_bind; [|intros ?]
    | apply halting_bind_mut; [|intros ? ?]
    | apply (halting_try RemoteException fatal); [|handler_pure|intros ?; reflexivity]
    | apply (halting_try fatal fatal); [|handler_pure|intros ?; reflexivity] ].

Ltac halt := repeat halt_step.

Ltac ends_by_halting :=
  match goal with
  | |- @ends_at_failure (result _) ?m => refine (proj2 (_ : halting failure fatal m))
  | |- @ends_at_failure (pyval * result _) ?m =>
      refine (proj2 (_ : halting (fun sr => failure (snd sr)) fatal m))
  end.

Section NoRetry.
Variables (grafana : string) (uid : pyval) (providers : registry).

(** An operation made of one guarded call makes no second one. *)
Lemma one_call_ends {R} (m : remote R) :
  (forall tr r, exec m tr r -> tr = [] \/ exists y, tr = [y]) -> ends_at_failure m.
Proof.
  intros Hone tr r tr1 p req exc tr2 Hx Heq.
  destruct (Hone _ _ Hx) as [->|[y ->]].
  - now destruct tr1.
  - now apply nothing_after_the_only_exchange in Heq.
Qed.

Lemma Folder_create_after_failure model0 tr r tr1 p req exc tr2 :
  exec (Folder.create grafana uid model0 providers) tr r ->
  tr = tr1 ++ (p, req, Err (RemoteException exc)) :: tr2 ->
  tr2 = []
  \/ (tr1 = [] /\ status_code exc = 412
      /\ exists title reply,
           req = create_folder title uid /\ tr2 = [(p, get_folder uid, reply)]).
Proof.
  intros Hx Heq. apply Folder_create_run in Hx.
  assert (Hnil : tr = [] -> tr2 = [] \/
                 (tr1 = [] /\ status_code exc = 412
                  /\ exists title reply,
                       req = create_folder title uid /\ tr2 = [(p, get_folder uid, reply)])).
  { intros ->. now destruct tr1. }
  assert (Hget : forall tr' r', exec (Folder.get grafana uid providers) tr' r' ->
                 forall l, tr' = l ++ (p, req, Err (RemoteException exc)) :: tr2 -> tr2 = []).
  { intros tr' r' Hg l Hl. revert Hg Hl.
    apply (one_call_ends (Folder.get grafana uid providers)).
    intros tr0 r0 H0. apply Folder_get_run in H0.
    destruct (dict_get grafana providers); [destruct H0 as (y & -> & _); right; eauto|].
    now left. }
  destruct (py_getitem model0 "title") as [title|e].
  2:{ destruct e; apply Hnil; tauto. }
  destruct (dict_get grafana providers) as [c|] eqn:Hc; [|apply Hnil; tauto].
  destruct Hx as (reply & tr' & -> & Hx).
  destruct tr1 as [|y tr1]; simpl in Heq.
  - injection Heq as <- <- -> <-.
    destruct (status_code exc =? 412) eqn:Hs.
    + apply Folder_get_run in Hx. rewrite Hc in Hx. destruct Hx as (reply & -> & _).
      right. repeat split; [now apply Z.eqb_eq|]. now exists title, reply.
    + left. tauto.
  - injection Heq as _ Heq.
    assert (Hdone : tr' = [] -> tr2 = [] \/
                 (y :: tr1 = [] /\ status_code exc = 412
                  /\ exists title reply,
                       req = create_folder title uid /\ tr2 = [(p, get_folder uid, reply)])).
    { intros Hn. rewrite Hn in Heq. now destruct tr1. }
    destruct reply as [v|e].
    + left. exact (Hget _ _ Hx _ Heq).
    + destruct e; try (apply Hdone; tauto).
      destruct (status_code exc0 =? 412).
      * left. exact (Hget _ _ Hx _ Heq).
      * apply Hdone; tauto.
Qed.

(** X10. Nothing is retried and nothing goes on after a failure: in every
    run of an operation other than [Folder.create] ([Dashboard.update] being
    given a dict), a call that fails with a [GrafanaException] is the last
    call of the run. In a run of [Folder.create] a failed call is followed
    by a request only when it is the [create_folder] that failed with status
    412, and then by the one [get_folder] that reads the folder back. *)
Theorem a_failed_call_is_the_last :
  (ends_at_failure (Folder.get grafana uid providers)
   /\ ends_at_failure (Folder.exists_ grafana uid providers)
   /\ (forall id, ends_at_failure (Folder.get_by_id grafana id providers))
   /\ (forall self, ends_at_failure (Folder.id self providers))
   /\ (forall self model0, ends_at_failure (Folder.update self model0 providers))
   /\ (forall self, ends_at_failure (Folder.delete self providers))
   /\ ends_at_failure (Dashboard.get grafana uid providers)
   /\ ends_at_failure (Dashboard.exists_ grafana uid providers)
   /\ (forall self, ends_at_failure (Dashboard.id self providers))
   /\ (forall self, ends_at_failure (Dashboard.version self providers))
   /\ (forall self, ends_at_failure (Dashboard.delete self providers))
   /\ (forall folder model0,
         ends_at_failure (Dashboard.create grafana uid folder providers model0))
   /\ (forall self md, ends_at_failure (Dashboard.update self providers (PyDict md))))
  /\ (forall model0 tr r tr1 p req exc tr2,
        exec (Folder.create grafana uid model0 providers) tr r ->
        tr = tr1 ++ (p, req, Err (RemoteException exc)) :: tr2 ->
        tr2 = []
        \/ (tr1 = [] /\ status_code exc = 412
            /\ exists title reply,
                 req = create_folder title uid /\ tr2 = [(p, get_folder uid, reply)])).
Proof.
  split; [|apply Folder_create_after_failure].
  repeat match goal with |- _ /\ _ => split end; intros.
  - ends_by_halting. unfold Folder.get. halt.
  - apply one_call_ends. intros tr r Hx. apply Folder_exists_run in Hx.
    destruct (dict_get grafana providers); [destruct Hx as (y & -> & _); eauto | tauto].
  - ends_by_halting. unfold Folder.get_by_id. halt.
  - ends_by_halting. unfold Folder.id. halt.
  - ends_by_halting. unfold Folder.update. halt.
  - apply one_call_ends. intros tr r Hx. apply Folder_delete_run in Hx.
    destruct (dict_get (f_grafana self) providers);
      [destruct Hx as (y & -> & _); eauto | tauto].
  - ends_by_halting. unfold Dashboard.get, Folder.get_by_id. halt.
  - apply one_call_ends. intros tr r Hx. apply Dashboard_exists_run in Hx.
    destruct (dict_get grafana providers); [destruct Hx as (y & -> & _); eauto | tauto].
  - ends_by_halting. unfold Dashboard.id. halt.
  - ends_by_halting. unfold Dashboard.version. halt.
  - apply one_call_ends. intros tr r Hx. apply Dashboard_delete_run in Hx.
    destruct (dict_get (d_grafana self) providers);
      [destruct Hx as (y & -> & _); eauto | tauto].
  - ends_by_halting. unfold Dashboard.create, Dashboard.get, Folder.get, Folder.id,
      Folder.get_by_id. halt.
  - ends_by_halting. unfold Dashboard.update, Dashboard.version, Dashboard.id,
      Folder.get, Folder.id. halt.
Qed.

End NoRetry.

(** ** A provider that is not registered *)

Section UnknownProvider.
Variables (grafana : string) (providers : registry).

Ltac unasked Hmissing :=
  unfold ends_unasked, Folder.get, Folder.exists_, Folder.get_by_id, Folder.id,
         Folder.create, Folder.update, Folder.delete, Dashboard.get,
         Dashboard.exists_, Dashboard.id, Dashboard.version, Dashboard.delete,
         client;
  cbn [f_grafana f_uid d_grafana d_uid d_folder];
  repeat match goal with H : py_getitem _ _ = Ok _ |- _ => rewrite H end;
  rewrite Hmissing; cbn;
  split; [constructor | intros tr r Hx; exec_done Hx; split; reflexivity].

(** X11. With a provider name that the registry lacks, no operation
    calls anything, and each raises [ProviderNotFound] with that name:
    the reads, the deletes, the folder writes on a model with a [title],
    and the dashboard writes, of which [update] leaves its caller's model
    as it is while [create] has already set [id], [uid] and [version] on
    it. *)
Theorem unknown_provider_stops_before_any_call :
  dict_get grafana providers = None ->
  (forall uid, ends_unasked (Folder.get grafana uid providers)
                 (Err (ProviderNotFound grafana)))
  /\ (forall uid, ends_unasked (Folder.exists_ grafana uid providers)
                    (Err (ProviderNotFound grafana)))
  /\ (forall id, ends_unasked (Folder.get_by_id grafana id providers)
                   (Err (ProviderNotFound grafana)))
  /\ (forall uid m, ends_unasked (Folder.id (mkFolder grafana uid m) providers)
                      (Err (ProviderNotFound grafana)))
  /\ (forall uid m, ends_unasked (Folder.delete (mkFolder grafana uid m) providers)
                      (Err (ProviderNotFound grafana)))
  /\ (forall uid model0 title,
        py_getitem model0 "title" = Ok title ->
        ends_unasked (Folder.create grafana uid model0 providers)
          (Err (ProviderNotFound grafana)))
  /\ (forall uid m model0 title,
        py_getitem model0 "title" = Ok title ->
        ends_unasked (Folder.update (mkFolder grafana uid m) model0 providers)
          (Err (ProviderNotFound grafana)))
  /\ (forall uid, ends_unasked (Dashboard.get grafana uid providers)
                    (Err (ProviderNotFound grafana)))
  /\ (forall uid, ends_unasked (Dashboard.exists_ grafana uid providers)
                    (Err (ProviderNotFound grafana)))
  /\ (forall uid m folder,
        ends_unasked (Dashboard.id (mkDashboard grafana uid m folder) providers)
          (Err (ProviderNotFound grafana)))
  /\ (forall uid m folder,
        ends_unasked (Dashboard.version (mkDashboard grafana uid m folder) providers)
          (Err (ProviderNotFound grafana)))
  /\ (forall uid m folder,
        ends_unasked (Dashboard.delete (mkDashboard grafana uid m folder) providers)
          (Err (ProviderNotFound grafana)))
  /\ (forall uid m folder model0,
        ends_unasked
          (Dashboard.update (mkDashboard grafana uid m folder) providers model0)
          (model0, Err (ProviderNotFound grafana)))
  /\ (forall uid folder md,
        ends_unasked (Dashboard.create grafana uid folder providers (PyDict md))
          (PyDict (dict_update md [("id", PyNone); ("uid", uid); ("version", PyInt 1)]),
           Err (ProviderNotFound grafana))).
Proof.
  intros Hmissing.
  repeat match goal with |- _ /\ _ => split end; intros; try (unasked Hmissing).
  - unfold ends_unasked, Dashboard.update, Dashboard.version, client.
    cbn [d_grafana d_uid d_folder]. rewrite Hmissing. cbn.
    split; [constructor | intros tr r Hx; exec_done Hx; split; reflexivity].
  - unfold ends_unasked, Dashboard.create, Folder.get, client.
    cbn -[dict_update]. rewrite Hmissing. cbn -[dict_update].
    split; [constructor | intros tr r Hx; exec_done Hx; split; reflexivity].
Qed.

End UnknownProvider.

(** The theorem at a provider name that the registry of the examples does
    not have. *)
Lemma unknown_provider_stops_before_any_call_witness :
  dict_get "p2" one_grafana = None
  /\ ends_unasked (Folder.get "p2" team_a_uid one_grafana) (Err (ProviderNotFound "p2"))
  /\ ends_unasked (Dashboard.create "p2" board_uid team_a_uid one_grafana board_model)
       (PyDict [ ("title", PyStr "Board"); ("id", PyNone); ("uid", board_uid);
                 ("version", PyInt 1) ],
        Err (ProviderNotFound "p2")).
Proof.
  pose proof (unknown_provider_stops_before_any_call "p2" one_grafana eq_refl) as H.
  split; [reflexivity|]. split.
  - exact (proj1 H team_a_uid).
  - exact (proj2 (proj2 (proj2 (proj2 (proj2 (proj2 (proj2 (proj2 (proj2 (proj2 (proj2
             (proj2 (proj2 H))))))))))))
             board_uid team_a_uid [("title", PyStr "Board")]).
Defined.

(** ** [Dashboard.create], when it returns *)

Section CreateRuns.
Variables (providers : registry).

Lemma Dashboard_create_ok grafana uid folder model0 tr s' d :
  exec (Dashboard.create grafana uid folder providers model0) tr (s', Ok d) ->
  exists c f1 title f2 folder_id reply tr_get,
    dict_get grafana providers = Some c
    /\ py_update model0 [("id", PyNone); ("uid", uid); ("version", PyInt 1)] = Ok s'
    /\ tr = [ (c, get_folder folder, Ok f1);
              (c, get_folder folder, Ok f2);
              (c, update_dashboard
                    (PyDict [ ("dashboard", s'); ("folderId", folder_id);
                              ("overwrite", PyBool true) ]), Ok reply) ] ++ tr_get
    /\ py_getitem f1 "title" = Ok title
    /\ py_getitem f2 "id" = Ok folder_id
    /\ exec (Dashboard.get grafana uid providers) tr_get (Ok d).
Proof.
  intros Hx. unfold Dashboard.create in Hx.
  apply mut_bind_run in Hx as (tr1 & tr2 & s1 & x1 & -> & H1 & Hx).
  unfold model_update in H1.
  destruct (py_update model0 _) as [m1|] eqn:Hupd;
    apply exec_Done_inv in H1 as [-> [= -> ->]];
    [|dead Hx].
  apply mut_bind_run in Hx as (tr1 & tr3 & s1 & x2 & -> & H2 & Hx).
  unfold model_ref in H2. apply exec_Done_inv in H2 as [-> [= -> ->]].
  apply mut_bind_run in Hx as (tr1 & tr4 & s1 & x3 & -> & H3 & Hx).
  apply lift_io_run in H3 as [-> H3].
  apply Folder_get_run in H3.
  destruct (dict_get grafana providers) as [c|] eqn:Hc;
    [|destruct H3 as [-> ->]; dead Hx].
  destruct H3 as (reply3 & -> & ->).
  destruct reply3 as [f1|e3];
    [|destruct e3; dead Hx].
  destruct (py_getitem f1 "title") as [title|] eqn:Ht;
    [|dead Hx].
  apply mut_bind_run in Hx as (tr1 & tr5 & s1 & x4 & -> & H4 & Hx).
  apply lift_io_run in H4 as [-> H4].
  apply Folder_id_run in H4. cbn [f_grafana f_uid] in H4. rewrite Hc in H4.
  destruct H4 as (reply4 & -> & ->).
  destruct reply4 as [f2|e4];
    [|destruct e4; dead Hx].
  destruct (py_getitem f2 "id") as [folder_id|] eqn:Hfid;
    [|dead Hx].
  apply mut_bind_run in Hx as (tr1 & tr6 & s1 & x5 & -> & H5 & Hx).
  apply lift_io_run in H5 as [-> H5].
  unfold client in H5. rewrite Hc in H5.
  run_step H5. destruct reply as [v5|e5]; [|destruct e5; cbn in H5; exec_done H5; dead Hx].
  run_step H5.
  apply lift_io_run in Hx as [-> Hx].
  exists c, f1, title, f2, folder_id, v5, tr6.
  repeat split; assumption.
Qed.

(** X12. A [Dashboard.create] that returns has made five calls, all
    accepted: the folder read twice, the write, then the dashboard and its
    folder read back. What it wrote is the caller's dict with [id] null,
    the [uid] and [version] 1, under the numeric id of the folder. What it
    returns is read back from the remote, without [id], [uid] and
    [version], under the folder the remote reports. *)
Theorem dashboard_create_writes_then_reads_back
    (grafana : string) (uid folder model0 : pyval)
    (tr : list exchange) (s' : pyval) (d : DashboardResource) :
  exec (Dashboard.create grafana uid folder providers model0) tr (s', Ok d) ->
  exists c f1 f2 folder_id reply dash meta fid fdata md m0 m,
    dict_get grafana providers = Some c
    /\ tr = [ (c, get_folder folder, Ok f1);
              (c, get_folder folder, Ok f2);
              (c, update_dashboard
                    (PyDict [ ("dashboard", s'); ("folderId", folder_id);
                              ("overwrite", PyBool true) ]), Ok reply);
              (c, get_dashboard uid, Ok dash);
              (c, get_folder_by_id fid, Ok fdata) ]
    /\ py_getitem f2 "id" = Ok folder_id
    /\ model0 = PyDict md
    /\ s' = PyDict (dict_update md [("id", PyNone); ("uid", uid); ("version", PyInt 1)])
    /\ py_getitem s' "id" = Ok PyNone
    /\ py_getitem s' "uid" = Ok uid
    /\ py_getitem s' "version" = Ok (PyInt 1)
    /\ py_getitem dash "dashboard" = Ok (PyDict m0)
    /\ py_getitem dash "meta" = Ok meta
    /\ py_getitem meta "folderId" = Ok fid
    /\ d_grafana d = grafana
    /\ d_uid d = uid
    /\ d_model d = PyDict m
    /\ (forall key, In key IGNORED_KEYS -> dict_get key m = None)
    /\ (forall key, ~ In key IGNORED_KEYS -> dict_get key m = dict_get key m0)
    /\ py_getitem fdata "uid" = Ok (d_folder d).
Proof.
  intros Hx.
  apply Dashboard_create_ok in Hx
    as (c & f1 & title & f2 & folder_id & reply & tr_get & Hc & Hupd & -> & Ht & Hfid & Hg).
  apply Dashboard_get_ok in Hg
    as (c' & dash & model1 & meta & fid & fdata & ftitle & fuid & model2
        & Hc' & -> & Hm & Hmeta & Hmfid & Hft & Hfu & Hp & ->).
  assert (c' = c) as -> by congruence.
  apply py_update_dict in Hupd as (md & -> & ->).
  destruct (pop_keys_needs_dict _ _ _ _ Hp) as [m0 ->].
  apply pop_keys_of_dict in Hp as (m & -> & Hgone & Hkept).
  destruct (py_updated_keys md "id" PyNone "uid" uid "version" (PyInt 1))
    as (K1 & K2 & K3 & _); [nodup_keys|].
  exists c, f1, f2, folder_id, reply, dash, meta, fid, fdata, md, m0, m.
  repeat match goal with |- _ /\ _ => split end;
    try assumption; try reflexivity.
Qed.

End CreateRuns.

(** The theorem at the creation of the fixture dashboard. *)
Lemma dashboard_create_writes_then_reads_back_witness :
  exists tr s' d,
    exec (Dashboard.create "p1" board_uid team_a_uid one_grafana board_model) tr (s', Ok d)
    /\ List.length tr = 5%nat
    /\ py_getitem s' "version" = Ok (PyInt 1)
    /\ d_model d = PyDict [("title", PyStr "Board")]
    /\ d_folder d = team_a_uid.
Proof.
  assert (Hx : exec (Dashboard.create "p1" board_uid team_a_uid one_grafana board_model)
                 [ (7%nat, get_folder team_a_uid, Ok team_a_folder_reply);
                   (7%nat, get_folder team_a_uid, Ok team_a_folder_reply);
                   (7%nat, update_dashboard
                      (PyDict [ ("dashboard",
                                 PyDict [ ("title", PyStr "Board"); ("id", PyNone);
                                          ("uid", board_uid); ("version", PyInt 1) ]);
                                ("folderId", PyInt 12); ("overwrite", PyBool true) ]),
                    Ok write_accepted);
                   (7%nat, get_dashboard board_uid, Ok (board_reply board_remote));
                   (7%nat, get_folder_by_id (PyInt 12), Ok team_a_folder_reply) ]
                 (PyDict [ ("title", PyStr "Board"); ("id", PyNone);
                           ("uid", board_uid); ("version", PyInt 1) ], Ok board)).
  { apply (play_exec _ [ Ok team_a_folder_reply; Ok team_a_folder_reply;
                         Ok write_accepted; Ok (board_reply board_remote);
                         Ok team_a_folder_reply ]). reflexivity. }
  destruct (dashboard_create_writes_then_reads_back one_grafana _ _ _ _ _ _ _ Hx)
    as (c & f1 & f2 & folder_id & reply & dash & meta & fid & fdata & md & m0 & m
        & _ & _ & _ & _ & _ & _ & _ & Hv & _).
  eexists. eexists. eexists. split; [exact Hx|].
  split; [reflexivity|]. split; [exact Hv|]. split; reflexivity.
Defined.

(** ** [Folder.update] *)

Section FolderUpdate.
Variables (providers : registry) (self : FolderResource) (model0 : pyval).

Lemma Folder_update_run tr r :
  exec (Folder.update self model0 providers) tr r ->
  match py_getitem model0 "title" with
  | Err (KeyError _) => tr = [] /\ r = Err (DataError "Folder model missing 'title' key")
  | Err e => tr = [] /\ r = Err e
  | Ok title =>
      match dict_get (f_grafana self) providers with
      | None => tr = [] /\ r = Err (ProviderNotFound (f_grafana self))
      | Some c =>
          exists reply,
            tr = [(c, update_folder (f_uid self) title true, reply)]
            /\ r = match reply with
                   | Ok _ => Ok tt
                   | Err (RemoteException exc) => Err (fatal exc)
                   | Err (KeyError _) => Err (DataError "Folder model missing 'title' key")
                   | Err e => Err e
                   end
      end
  end.
Proof.
  unfold Folder.update.
  destruct (py_getitem model0 "title") as [title|e] eqn:Ht.
  - unfold client. destruct (dict_get (f_grafana self) providers) as [c|]; cbn; intros Hx.
    + apply exec_Call_inv in Hx as (reply & tr' & -> & Hx). exists reply.
      destruct reply as [v|e]; cbn in Hx.
      * exec_done Hx. split; reflexivity.
      * destruct e; cbn in Hx; exec_done Hx; split; reflexivity.
    + exec_done Hx. split; reflexivity.
  - destruct (py_getitem_error _ _ _ Ht) as [-> | ->]; cbn;
      intros Hx; exec_done Hx; split; reflexivity.
Qed.

(** X13. [Folder.update] on a dict without [title] raises [DataError]
    and calls nothing. On a model with a title it makes one call,
    [update_folder] of the folder of the object with that title and
    [overwrite] set; it returns exactly when that call does, and, unlike
    [Folder.create], ends with [GrafanaError] on a failure of status 412 as
    on any other. *)
Theorem folder_update_overwrites_once :
  (forall d tr r,
     model0 = PyDict d -> dict_get "title" d = None ->
     exec (Folder.update self model0 providers) tr r ->
     tr = [] /\ r = Err (DataError "Folder model missing 'title' key"))
  /\ (forall title c tr r,
        py_getitem model0 "title" = Ok title ->
        dict_get (f_grafana self) providers = Some c ->
        exec (Folder.update self model0 providers) tr r ->
        exists reply,
          tr = [(c, update_folder (f_uid self) title true, reply)]
          /\ (r = Ok tt <-> exists v, reply = Ok v)
          /\ (forall exc, reply = Err (RemoteException exc) ->
                r = Err (GrafanaError (message exc)))).
Proof.
  split.
  - intros d tr r Hm Hnone Hx. apply Folder_update_run in Hx.
    rewrite Hm in Hx. simpl in Hx. rewrite Hnone in Hx. exact Hx.
  - intros title c tr r Ht Hc Hx. apply Folder_update_run in Hx.
    rewrite Ht, Hc in Hx. destruct Hx as (reply & -> & ->).
    exists reply. split; [reflexivity|]. split.
    + destruct reply as [v|e]; split.
      * intros _. now exists v.
      * reflexivity.
      * destruct e; discriminate.
      * intros [v [=]].
    + intros exc ->. reflexivity.
Qed.

End FolderUpdate.

(** The theorem at a rename of the fixture folder that the remote rejects
    with status 412, and at a model that has a [name] for a [title]. *)
Lemma folder_update_overwrites_once_witness :
  exec (Folder.update team_a_folder team_a_model one_grafana)
    [(7%nat, update_folder team_a_uid (PyStr "Team A") true,
      Err (RemoteException precondition_failed))]
    (Err (GrafanaError (message precondition_failed)))
  /\ exec (Folder.update team_a_folder (PyDict [("name", PyStr "Team A")]) one_grafana)
       [] (Err (DataError "Folder model missing 'title' key")).
Proof.
  split.
  - assert (Hx : exists r,
               exec (Folder.update team_a_folder team_a_model one_grafana)
                 [(7%nat, update_folder team_a_uid (PyStr "Team A") true,
                   Err (RemoteException precondition_failed))] r).
    { eexists. apply (play_exec _ [Err (RemoteException precondition_failed)]).
      reflexivity. }
    destruct Hx as [r Hx].
    destruct (proj2 (folder_update_overwrites_once one_grafana team_a_folder team_a_model)
                (PyStr "Team A") 7%nat _ _ eq_refl eq_refl Hx)
      as (reply & Htr & _ & Hfatal).
    injection Htr as <-. rewrite (Hfatal _ eq_refl) in Hx. exact Hx.
  - assert (Hx : exists tr r,
               exec (Folder.update team_a_folder (PyDict [("name", PyStr "Team A")])
                       one_grafana) tr r).
    { eexists. eexists. apply (play_exec _ []). reflexivity. }
    destruct Hx as (tr & r & Hx).
    destruct (proj1 (folder_update_overwrites_once one_grafana team_a_folder
                       (PyDict [("name", PyStr "Team A")]))
                [("name", PyStr "Team A")] tr r eq_refl eq_refl Hx) as [Htr Hr].
    rewrite Htr, Hr in Hx. exact Hx.
Defined.

(** ** [Folder.get] and [Folder.get_by_id] *)

Section FolderReads.
Variables (grafana : string) (providers : registry) (c : provider).

Lemma Folder_get_by_id_run id tr r :
  exec (Folder.get_by_id grafana id providers) tr r ->
  match dict_get grafana providers with
  | None => tr = [] /\ r = Err (ProviderNotFound grafana)
  | Some c =>
      exists reply,
        tr = [(c, get_folder_by_id id, reply)]
        /\ r = match reply with
               | Ok data =>
                   title <- py_getitem data "title" ;;
                   uid <- py_getitem data "uid" ;;
                   Ok (mkFolder grafana uid (PyDict [("title", title)]))
               | Err (RemoteException exc) => Err (fatal exc)
               | Err e => Err e
               end
  end.
Proof.
  unfold Folder.get_by_id, client.
  destruct (dict_get grafana providers) as [c0|]; cbn; intros Hx.
  - apply exec_Call_inv in Hx as (reply & tr' & -> & Hx). exists reply.
    destruct reply as [data|e]; cbn in Hx |- *.
    + destruct (py_getitem data "title") as [title|e]; cbn in Hx |- *.
      * destruct (py_getitem data "uid") as [uid|e]; cbn in Hx |- *;
          exec_done Hx; split; reflexivity.
      * exec_done Hx. split; reflexivity.
    + destruct e; cbn in Hx; exec_done Hx; split; reflexivity.
  - exec_done Hx. split; reflexivity.
Qed.

(** X14. [Folder.get] and [Folder.get_by_id] agree: given the same reply,
    one that carries the [uid] asked of [get], they return the same folder,
    whose model has the key [title] and no other, or raise the same
    exception. On a reply without [uid], [get] returns all the same and
    [get_by_id] raises [KeyError]. *)
Theorem folder_get_and_get_by_id_agree
    (uid id data : pyval) (r1 r2 : result FolderResource) :
  dict_get grafana providers = Some c ->
  exec (Folder.get grafana uid providers) [(c, get_folder uid, Ok data)] r1 ->
  exec (Folder.get_by_id grafana id providers) [(c, get_folder_by_id id, Ok data)] r2 ->
  (py_getitem data "uid" = Ok uid ->
   r1 = r2
   /\ forall f, r1 = Ok f ->
        exists title, py_getitem data "title" = Ok title
                      /\ Folder.serialize f providers
                         = PyDict [ ("kind", PyStr "folder"); ("grafana", PyStr grafana);
                                    ("uid", uid);
                                    ("model", PyDict [("title", title)]) ])
  /\ (forall d title,
        data = PyDict d -> dict_get "title" d = Some title -> dict_get "uid" d = None ->
        r1 = Ok (mkFolder grafana uid (PyDict [("title", title)]))
        /\ r2 = Err (KeyError "uid")).
Proof.
  intros Hc H1 H2.
  apply Folder_get_run in H1. rewrite Hc in H1. destruct H1 as (reply1 & [= <-] & ->).
  apply Folder_get_by_id_run in H2. rewrite Hc in H2.
  destruct H2 as (reply2 & [= <-] & ->).
  cbn [bind Monad_result result_bind]. split.
  - intros Hu. destruct (py_getitem data "title") as [title|e] eqn:Ht.
    + cbn [bind Monad_result result_bind]. rewrite Hu. split; [reflexivity|].
      intros f [= <-]. now exists title.
    + split; [reflexivity|]. intros f [=].
  - intros d title -> Ht Hu. simpl. rewrite Ht. simpl. rewrite Hu. now split.
Qed.

End FolderReads.

(** The theorem at the fixture folder. *)
Lemma folder_get_and_get_by_id_agree_witness :
  exists r1 r2,
    exec (Folder.get "p1" team_a_uid one_grafana)
      [(7%nat, get_folder team_a_uid, Ok team_a_folder_reply)] r1
    /\ exec (Folder.get_by_id "p1" (PyInt 12) one_grafana)
         [(7%nat, get_folder_by_id (PyInt 12), Ok team_a_folder_reply)] r2
    /\ r1 = r2
    /\ r1 = Ok team_a_folder.
Proof.
  assert (H1 : exec (Folder.get "p1" team_a_uid one_grafana)
                 [(7%nat, get_folder team_a_uid, Ok team_a_folder_reply)]
                 (Ok team_a_folder)).
  { apply (play_exec _ [Ok team_a_folder_reply]). reflexivity. }
  assert (H2 : exists r2, exec (Folder.get_by_id "p1" (PyInt 12) one_grafana)
                 [(7%nat, get_folder_by_id (PyInt 12), Ok team_a_folder_reply)] r2).
  { eexists. apply (play_exec _ [Ok team_a_folder_reply]). reflexivity. }
  destruct H2 as [r2 H2].
  exists (Ok team_a_folder), r2. split; [exact H1|]. split; [exact H2|].
  split; [|reflexivity].
  exact (proj1 (proj1 (folder_get_and_get_by_id_agree "p1" one_grafana 7%nat
                         team_a_uid (PyInt 12) team_a_folder_reply _ _ eq_refl H1 H2)
                  eq_refl)).
Defined.

(** ** [serialize] *)

(** X15. [serialize] loses nothing and depends on nothing but the
    resource: two folders, or two dashboards, with the same serialisation
    are the same, whatever the registries; the serialisation of a folder
    is never that of a dashboard, and [kind] tells which it is. *)
Theorem serialize_tells_resources_apart :
  (forall f f' ps ps', Folder.serialize f ps = Folder.serialize f' ps' -> f = f')
  /\ (forall d d' ps ps', Dashboard.serialize d ps = Dashboard.serialize d' ps' -> d = d')
  /\ (forall f d ps ps', Folder.serialize f ps <> Dashboard.serialize d ps')
  /\ (forall f ps, py_getitem (Folder.serialize f ps) "kind" = Ok (PyStr "folder"))
  /\ (forall d ps, py_getitem (Dashboard.serialize d ps) "kind" = Ok (PyStr "dashboard")).
Proof.
  repeat match goal with |- _ /\ _ => split end.
  - intros [g u m] [g' u' m'] ps ps'. unfold Folder.serialize. simpl.
    intros [= -> -> ->]. reflexivity.
  - intros [g u m fo] [g' u' m' fo'] ps ps'. unfold Dashboard.serialize. simpl.
    intros [= -> -> -> ->]. reflexivity.
  - intros f d ps ps'. unfold Folder.serialize, Dashboard.serialize. discriminate.
  - reflexivity.
  - reflexivity.
Qed.
